(** * Digital-twin RAG toolkit: namespace retrieval, query classification,
      templated generation and response scoring

    A shallow embedding of the Python sources
    - [scripts/interview_optimization_framework.py]
    - [scripts/namespaced_rag_query.py]
    - [scripts/embed_digitaltwin_namespaced.py], [scripts/embed_foods_namespaced.py]
    - [scripts/reorganize_namespaces.py] (the re-upload loops)
    - [digitaltwin_rag.py] ([query_vectors])
    - [scripts/recruiter_satisfaction_trainer.py]
    - [company_response_customizer.py]
    together with the properties the specification states about them and
    further properties read off the code.

    Conventions.  A Python [str] is a Rocq [string]; the text the program
    handles (questions, templates, keyword tables) is ASCII, and the string
    primitives below are Python's on ASCII text: characters above 127 are
    left alone by [lower] and are neither whitespace, digits nor word
    characters.  A [dict] with string keys is a [gmap string _]; a value of
    unknown Python type is a [pyval]. *)

From Stdlib Require Import ZArith Lia Ascii Floats.
From Stdlib Require String.
From stdpp Require Import gmap strings list pretty.

#[local] Set Warnings "-inexact-float,-register-all".
Local Open Scope Z_scope.

(** ** Python string primitives *)

Module Py.

Definition char_code (c : ascii) : N := N_of_ascii c.

Definition between (lo hi : N) (c : ascii) : bool :=
  ((lo <=? char_code c) && (char_code c <=? hi))%N.

(** [c.lower()] on one ASCII character. *)
Definition char_lower (c : ascii) : ascii :=
  if between 65 90 c then ascii_of_N (char_code c + 32) else c.

(** [s.lower()] *)
Fixpoint lower (s : string) : string :=
  match s with
  | EmptyString => EmptyString
  | String c t => String (char_lower c) (lower t)
  end.

(** [s.startswith(p)] *)
Fixpoint startswith (p s : string) : bool :=
  match p, s with
  | EmptyString, _ => true
  | String a p', String b s' => if Ascii.eqb a b then startswith p' s' else false
  | String _ _, EmptyString => false
  end.

(** [sub in s], substring test. *)
Fixpoint str_in (sub s : string) : bool :=
  if startswith sub s then true
  else match s with
       | EmptyString => false
       | String _ t => str_in sub t
       end.

(** [any(k in s for k in keywords)] *)
Definition any_in (keywords : list string) (s : string) : bool :=
  existsb (fun k => str_in k s) keywords.

(** [sum(1 for k in keywords if k in s)] *)
Definition count_in (keywords : list string) (s : string) : Z :=
  Z.of_nat (length (List.filter (fun k => str_in k s) keywords)).

(** [x in xs] for a list of strings: equality with some element. *)
Definition elem_str (x : string) (xs : list string) : bool :=
  existsb (String.eqb x) xs.

(** [d.get(key) == text]: a missing entry is [None] and differs. *)
Definition opt_eq (value : option string) (text : string) : bool :=
  match value with
  | Some s => String.eqb s text
  | None => false
  end.

(** Whitespace as [str.split()] and the regular-expression class [\s]
    see it: tab, newline, vertical tab, form feed, carriage return, the
    four separators 0x1c..0x1f and the space. *)
Definition is_space (c : ascii) : bool :=
  between 9 13 c || between 28 32 c.

Definition is_digit (c : ascii) : bool := between 48 57 c.

(** The class [\w]: letters, digits and the underscore. *)
Definition is_word (c : ascii) : bool :=
  between 97 122 c || between 65 90 c || is_digit c || between 95 95 c.

(** [s.split()]: the maximal runs of non-whitespace characters.  [cur]
    holds the run being read, last character first. *)
Fixpoint split_go (cur : list ascii) (s : string) : list string :=
  match s with
  | EmptyString =>
      match cur with
      | [] => []
      | _ => [String.string_of_list_ascii (rev cur)]
      end
  | String c t =>
      if is_space c then
        match cur with
        | [] => split_go [] t
        | _ => String.string_of_list_ascii (rev cur) :: split_go [] t
        end
      else split_go (c :: cur) t
  end.

Definition split (s : string) : list string := split_go [] s.

(** [len(s.split())] *)
Definition word_count (s : string) : Z := Z.of_nat (length (split s)).

(** [sep.join(parts)] *)
Definition join (sep : string) (parts : list string) : string :=
  String.concat sep parts.

(** [xs[:n]] for [n >= 0] *)
Definition slice_to {A} (n : nat) (xs : list A) : list A := take n xs.

(** [c.upper()] on one ASCII character. *)
Definition char_upper (c : ascii) : ascii :=
  if between 97 122 c then ascii_of_N (char_code c - 32) else c.

(** [s.replace(a, b)] for one-character [a] and [b]. *)
Fixpoint replace_char (a b : ascii) (s : string) : string :=
  match s with
  | EmptyString => EmptyString
  | String c t => String (if Ascii.eqb c a then b else c) (replace_char a b t)
  end.

(** [s.title()]: a letter after a letter is made lower-case, any other
    letter upper-case.  [cased] tells whether the previous character is a
    letter. *)
Fixpoint title_go (cased : bool) (s : string) : string :=
  match s with
  | EmptyString => EmptyString
  | String c t =>
      if between 97 122 c then
        String (if cased then c else char_upper c) (title_go true t)
      else if between 65 90 c then
        String (if cased then char_lower c else c) (title_go true t)
      else String c (title_go false t)
  end.

Definition title (s : string) : string := title_go false s.

(** [str(n)] for a natural number: its decimal digits. *)
Definition str_of_nat (n : nat) : string := pretty n.

End Py.

(** ** Regular expressions: the fragment of Python's [re] the sources use

    Literals, [.], the classes [\d] and [\s], the assertion [\b], escaped
    punctuation, grouping, alternation and the quantifiers [*], [+], [?]
    and [{n}].  Patterns stay the strings they are in the source and are
    parsed here. *)

Module Re.

Inductive regex : Type :=
| Eps
| Chr (c : ascii)
| Dot
| Digit
| Space
| WordB
| Cat (r1 r2 : regex)
| Alt (r1 r2 : regex)
| Star (r : regex).

Definition Plus (r : regex) : regex := Cat r (Star r).
Definition Opt (r : regex) : regex := Alt r Eps.

Fixpoint Rep (n : nat) (r : regex) : regex :=
  match n with
  | O => Eps
  | S k => Cat r (Rep k r)
  end.

(** *** Parsing *)

Definition digit_val (c : ascii) : nat := N.to_nat (Py.char_code c - 48).

(** Reads the count of a [{n}] quantifier up to the closing brace. *)
Fixpoint parse_count (acc : nat) (seen : bool) (s : list ascii)
  : option (nat * list ascii) :=
  match s with
  | [] => None
  | c :: t =>
      if Ascii.eqb c "}" then (if seen then Some (acc, t) else None)
      else if Py.is_digit c
           then parse_count (10 * acc + digit_val c)%nat true t
           else None
  end.

Definition parse_quant (a : regex) (s : list ascii) : option (regex * list ascii) :=
  match s with
  | "*"%char :: t => Some (Star a, t)
  | "+"%char :: t => Some (Plus a, t)
  | "?"%char :: t => Some (Opt a, t)
  | "{"%char :: t =>
      match parse_count 0 false t with
      | Some (n, t') => Some (Rep n a, t')
      | None => None
      end
  | _ => Some (a, s)
  end.

Definition is_meta (c : ascii) : bool :=
  existsb (Ascii.eqb c)
    ["*"; "+"; "?"; "{"; "}"; "["; "]"; "^"; "$"; "("; ")"; "|"]%char.

(** An escape: a class, the word-boundary assertion, or a literal
    punctuation character; other escaped letters and digits are outside
    the fragment. *)
Definition parse_escape (c : ascii) : option regex :=
  if Ascii.eqb c "d" then Some Digit
  else if Ascii.eqb c "s" then Some Space
  else if Ascii.eqb c "b" then Some WordB
  else if Py.is_word c then None
  else Some (Chr c).

Fixpoint parse_alt (fuel : nat) (s : list ascii) {struct fuel}
  : option (regex * list ascii) :=
  match fuel with
  | O => None
  | S f =>
      match parse_seq f s with
      | Some (r, "|"%char :: t) =>
          match parse_alt f t with
          | Some (r', t') => Some (Alt r r', t')
          | None => None
          end
      | other => other
      end
  end
with parse_seq (fuel : nat) (s : list ascii) {struct fuel}
  : option (regex * list ascii) :=
  match fuel with
  | O => None
  | S f =>
      match s with
      | [] => Some (Eps, [])
      | c :: _ =>
          if Ascii.eqb c "|" || Ascii.eqb c ")" then Some (Eps, s)
          else
            match parse_atom f s with
            | Some (a, t) =>
                match parse_quant a t with
                | Some (q, t') =>
                    match parse_seq f t' with
                    | Some (r, t'') => Some (Cat q r, t'')
                    | None => None
                    end
                | None => None
                end
            | None => None
            end
      end
  end
with parse_atom (fuel : nat) (s : list ascii) {struct fuel}
  : option (regex * list ascii) :=
  match fuel with
  | O => None
  | S f =>
      match s with
      | [] => None
      | c :: t =>
          if Ascii.eqb c "(" then
            match parse_alt f t with
            | Some (r, d :: t') => if Ascii.eqb d ")" then Some (r, t') else None
            | _ => None
            end
          else if Ascii.eqb c "\" then
            match t with
            | e :: t' =>
                match parse_escape e with
                | Some r => Some (r, t')
                | None => None
                end
            | [] => None
            end
          else if Ascii.eqb c "." then Some (Dot, t)
          else if is_meta c then None
          else Some (Chr c, t)
      end
  end.

(** [re.compile(pattern)]; [None] where Python raises or the pattern
    leaves the fragment. *)
Definition parse (pattern : string) : option regex :=
  let s := String.list_ascii_of_string pattern in
  match parse_alt (3 * length s + 3) s with
  | Some (r, []) => Some r
  | _ => None
  end.

(** *** Matching

    A position in the subject is the character before it (if any) and
    the text after it; [step r p] lists the positions at which a match
    of [r] begun at [p] can end. *)

Definition pos : Type := option ascii * list ascii.

Definition is_word_opt (c : option ascii) : bool :=
  match c with
  | Some a => Py.is_word a
  | None => false
  end.

Definition at_boundary (p : pos) : bool :=
  xorb (is_word_opt (fst p)) (is_word_opt (head (snd p))).

Definition eat (ok : ascii -> bool) (p : pos) : list pos :=
  match snd p with
  | c :: t => if ok c then [(Some c, t)] else []
  | [] => []
  end.

(** Zero or more rounds of [f]; a round that consumes nothing adds no
    new end position and is cut. *)
Fixpoint star (f : pos -> list pos) (fuel : nat) (p : pos) : list pos :=
  match fuel with
  | O => [p]
  | S n =>
      p :: flat_map
             (fun q => if (length (snd q) <? length (snd p))%nat
                       then star f n q else [])
             (f p)
  end.

Fixpoint step (r : regex) (p : pos) : list pos :=
  match r with
  | Eps => [p]
  | Chr c => eat (Ascii.eqb c) p
  | Dot => eat (fun a => negb (Ascii.eqb a "010")) p
  | Digit => eat Py.is_digit p
  | Space => eat Py.is_space p
  | WordB => if at_boundary p then [p] else []
  | Cat r1 r2 => flat_map (step r2) (step r1 p)
  | Alt r1 r2 => step r1 p ++ step r2 p
  | Star r' => star (step r') (length (snd p)) p
  end.

Definition matches_at (r : regex) (p : pos) : bool :=
  match step r p with
  | [] => false
  | _ :: _ => true
  end.

(** A match starting at this position or at any later one. *)
Fixpoint search_from (r : regex) (prev : option ascii) (s : list ascii) : bool :=
  if matches_at r (prev, s) then true
  else match s with
       | [] => false
       | c :: t => search_from r (Some c) t
       end.

(** [re.search(pattern, text)] as a truth value. *)
Definition search (pattern text : string) : bool :=
  match parse pattern with
  | Some r => search_from r None (String.list_ascii_of_string text)
  | None => false
  end.

(** [any(re.search(p, text) for p in patterns)] *)
Definition any_search (patterns : list string) (text : string) : bool :=
  existsb (fun p => search p text) patterns.

End Re.

(** ** Query classification ([QueryClassifier]) *)

Inductive QueryType : Type :=
| BEHAVIORAL
| TECHNICAL
| PROJECT_SPECIFIC
| COMPANY_SPECIFIC
| SALARY_LOCATION
| AVAILABILITY
| PERSONAL_STORY
| GENERAL.

Module QueryClassifier.

Definition behavioral_patterns : list string :=
  [ "tell me about (a time|when|yourself)";
    "describe (a situation|an experience|how you)";
    "give me an example";
    "walk me through";
    "how do you (handle|deal with|approach)";
    "what would you do if";
    "challenging (project|situation|experience)";
    "difficult (customer|situation|decision)";
    "conflict|disagreement|problem";
    "leadership|mentor|team";
    "failure|mistake|learn from";
    "strength|weakness|improve";
    "motivation|passion|drive" ].

Definition technical_patterns : list string :=
  [ "explain (your experience with|how.*works?)";
    "what is|how does.*work";
    "difference between";
    "implement|build|develop|code";
    "algorithm|data structure";
    "database|API|framework";
    "deployment|cloud|architecture";
    "testing|debugging|optimization";
    "RAG|AI|ML|vector|embedding";
    "React|Next\.js|Python|JavaScript";
    "full.?stack|frontend|backend" ].

Definition project_patterns : list string :=
  [ "Food RAG Explorer";
    "digital twin|personal digital twin";
    "full.?stack.*application";
    "portfolio|github|project";
    "internship.*project";
    "ausbiz.*project" ].

Definition company_patterns : list string :=
  [ "why.*company|why.*us";
    "what do you know about";
    "research.*company";
    "fit.*culture|culture.*fit";
    "contribute.*team|add.*value" ].

Definition salary_patterns : list string :=
  [ "salary|compensation|pay|money";
    "expectations.*salary";
    "budget|rate|cost";
    "relocate|location|remote|hybrid";
    "visa|authorization|eligibility" ].

Definition availability_patterns : list string :=
  [ "start date|when.*start|availability";
    "notice.*period|current.*job";
    "graduate|graduation|finish.*degree";
    "part.?time|full.?time|hours.*week" ].

Definition classify_query (question : string) : QueryType :=
  let question_lower := Py.lower question in
  if Re.any_search behavioral_patterns question_lower then BEHAVIORAL
  else if Re.any_search technical_patterns question_lower then TECHNICAL
  else if Re.any_search project_patterns question_lower then PROJECT_SPECIFIC
  else if Re.any_search company_patterns question_lower then COMPANY_SPECIFIC
  else if Re.any_search salary_patterns question_lower then SALARY_LOCATION
  else if Re.any_search availability_patterns question_lower then AVAILABILITY
  else GENERAL.

End QueryClassifier.

(** *** The priority table of the specification

    One group of patterns per intent, in the order BEHAVIORAL, TECHNICAL,
    PROJECT_SPECIFIC, COMPANY_SPECIFIC, SALARY_LOCATION, AVAILABILITY; the
    first group with a pattern that matches the lower-cased question wins
    and GENERAL is the default. *)

Module ClassifierSpec.
Import QueryClassifier.

Definition group : Type := QueryType * list string.

Definition priority_order : list group :=
  [ (BEHAVIORAL, behavioral_patterns);
    (TECHNICAL, technical_patterns);
    (PROJECT_SPECIFIC, project_patterns);
    (COMPANY_SPECIFIC, company_patterns);
    (SALARY_LOCATION, salary_patterns);
    (AVAILABILITY, availability_patterns) ].

Definition group_matches (question : string) (g : group) : bool :=
  Re.any_search (snd g) (Py.lower question).

Definition classify_by_priority (question : string) : QueryType :=
  match List.find (group_matches question) priority_order with
  | Some g => fst g
  | None => GENERAL
  end.

End ClassifierSpec.


(** *** What it means for a regular expression to match

    [matches r p q]: read from position [p], the expression [r] can match
    the text up to position [q]. *)

Inductive matches : Re.regex -> Re.pos -> Re.pos -> Prop :=
| matches_eps p : matches Re.Eps p p
| matches_chr c prev t : matches (Re.Chr c) (prev, c :: t) (Some c, t)
| matches_dot a prev t :
    Ascii.eqb a "010" = false -> matches Re.Dot (prev, a :: t) (Some a, t)
| matches_digit a prev t :
    Py.is_digit a = true -> matches Re.Digit (prev, a :: t) (Some a, t)
| matches_space a prev t :
    Py.is_space a = true -> matches Re.Space (prev, a :: t) (Some a, t)
| matches_wordb p : Re.at_boundary p = true -> matches Re.WordB p p
| matches_cat r1 r2 p q s :
    matches r1 p q -> matches r2 q s -> matches (Re.Cat r1 r2) p s
| matches_alt_l r1 r2 p q : matches r1 p q -> matches (Re.Alt r1 r2) p q
| matches_alt_r r1 r2 p q : matches r2 p q -> matches (Re.Alt r1 r2) p q
| matches_star_nil r p : matches (Re.Star r) p p
| matches_star_cons r p q s :
    matches r p q -> matches (Re.Star r) q s -> matches (Re.Star r) p s.

(** The character before the position reached after reading [a]. *)
Definition prev_after (prev : option ascii) (a : list ascii) : option ascii :=
  match last a with
  | Some c => Some c
  | None => prev
  end.

(** ** Knowledge base and content chunks

    A content chunk is a dict from field names ([id], [title], [type],
    [content], [company], ...) to strings; the knowledge base is a dict of
    which only the [content_chunks] entry is read. *)

Record KnowledgeBase : Type := { content_chunks : option (list (gmap string string)) }.

(** [d.get(key, default)] *)
Definition get_or (d : gmap string string) (key default : string) : string :=
  match d !! key with
  | Some v => v
  | None => default
  end.

(** [d.get('type') in types] *)
Definition type_in (types : list string) (d : gmap string string) : bool :=
  match d !! "type" with
  | Some t => Py.elem_str t types
  | None => false
  end.

Definition nl : string := String "010" EmptyString.

(** ** Templated generation ([ResponseTemplateGenerator]) *)

Module ResponseTemplateGenerator.

Definition _format_challenging_project_response : string :=
  "My Food RAG Explorer project presented a significant technical challenge that pushed my abilities.

**Situation:** I built an AI application locally using Ollama and ChromaDB, but needed to migrate it to production for real-world use - something I'd never done before.

**Task:** Transition from local development to cloud deployment while maintaining functionality and learning production-grade AI architecture along the way.

**Action:** I systematically researched and implemented cloud alternatives: migrated from Ollama to Grok API, ChromaDB to Upstash vector database, designed the interface with V0.dev, and deployed on Vercel. I broke down each component and tackled them individually.

**Result:** Successfully deployed a live AI application and gained deep understanding of RAG systems, vector embeddings, and production deployment pipelines. This experience taught me that complex challenges become manageable through systematic breakdown and persistent problem-solving.".

Definition _format_learning_response : string :=
  "Great question! This actually happened during my Full Stack Developer internship with ausbiz Consulting, which was a 10-week intensive program.

**Situation:** I had some basic coding knowledge from university, but I hadn't worked with modern production frameworks like React 19, Next.js 15, or cloud deployment before. The program was fast-paced, and we were expected to build and deploy real applications within those 10 weeks.

**Task:** I needed to quickly master these technologies to successfully complete the program and build production-ready applications.

**Action:** I adopted a very hands-on learning approach. I'd watch the training materials, but then immediately apply what I learned by building small features. I also made heavy use of GitHub Copilot and ChatGPT - not just to write code, but to understand *why* the code worked that way. When I got stuck, I'd ask specific questions rather than broad ones. For example, when learning about server-side rendering in Next.js, I didn't just read about it - I built a small feature that required SSR, broke it, and fixed it. That's how the concepts really stuck.

**Result:** By the end of those 10 weeks, I had built multiple full-stack applications with React 19 and Next.js 15, integrated PostgreSQL databases with Prisma ORM, worked with AWS cloud services, and deployed production-ready applications to Vercel. I also earned my Full Stack Developer certification. This experience taught me that I thrive in intensive learning environments, and that I'm capable of picking up new technologies quickly when I combine structured learning with hands-on practice.".

Definition _format_time_management_response : string :=
  "This is something I actually deal with every day! Right now, I'm managing my AI Builder internship, working as a Student Tutor and Mentor at Victoria University, working part-time as a Front Office Receptionist at Royal Albert Hotel, and completing my final year of studies.

**Situation:** I needed to balance four significant commitments while maintaining quality in all areas and meeting everyone's expectations.

**Task:** The challenge was finding a way to manage these responsibilities without burning out or compromising on quality in any area.

**Action:** The key is that these roles actually fit together quite naturally. My mentoring role is most demanding during new student intakes - orientation periods at the start of semester. Those periods usually coincide with my university vacation breaks, when I'm authorized to work full-time on my student visa. My receptionist job is part-time evening shifts, which works perfectly because it doesn't conflict with my day-time university schedule or tutoring sessions. My internship is remote, so I don't lose time commuting. I use strategic scheduling, clear communication with all supervisors, and prioritization based on deadlines and impact.

**Result:** I've successfully maintained all commitments while achieving a 6.17/7.0 GPA, supporting 100+ students, and completing intensive internship programs. What I've learned is that it's not just about being busy - it's about being intentional with your time. Each role actually complements the others - tutoring improves my technical communication, hospitality strengthens customer service skills, and internships provide real-world experience to share with students.".

Definition _format_mentoring_response : string :=
  "I have a story that really shows how I approach this. I had a student who was struggling with our university's LMS system. She kept saying she was 'bad with technology' and getting frustrated every time she tried to navigate it.

**Situation:** A student was struggling with the university's Learning Management System and was getting increasingly frustrated, convinced she was 'bad with technology.'

**Task:** I needed to help her understand the system in a way that would build her confidence and create lasting understanding, not just solve the immediate problem.

**Action:** Instead of just walking her through the steps again, I sat down and asked her about how she organizes things at home. She told me she's really good at organizing her house - everything has a place, and her kids always come to her when they can't find something. So I reframed the LMS as being like organizing a house. I said 'Think of each subject as a different room. Just like you have a kitchen for cooking and a bedroom for sleeping, each subject has its own space with everything you need for that class.' I showed her how the discussion forums were like the living room where everyone gathers to talk, and the assignment submissions were like a filing cabinet.

**Result:** Suddenly, it all clicked for her. She wasn't bad with technology - she just needed a framework that made sense to her world. Now she's one of the most active students on the platform and even helps other students navigate it. That experience taught me that when someone doesn't understand a concept, it's usually not because they're incapable. It's because I haven't found the right way to connect it to something they already know.".

Definition _format_introduction_response : string :=
  "I'm Jashandeep, a final-year IT student at Victoria University Brisbane with hands-on experience in full-stack development and AI systems.

I've completed two internships with ausbiz Consulting - first as a Full Stack Developer building React and Next.js applications, and currently as an AI Builder developing digital twins and RAG systems. My standout project is the Food RAG Explorer, which I successfully migrated from local development to production using Grok API and Upstash.

I also tutor and mentor over 100 students at university, which has sharpened my ability to communicate complex technical concepts clearly. I'm passionate about creating solutions that make a real impact, and I'm looking forward to contributing that same energy to your team.".

Definition _format_generic_behavioral_response (experiences : list (gmap string string)) : string :=
  match experiences with
  | exp :: _ =>
      "Let me share an example from my experience at " +:+ get_or exp "company" "my recent work"
      +:+ "..." +:+ nl +:+ nl +:+ get_or exp "content" EmptyString
  | [] => "I'd be happy to share an example from my experience..."
  end.

Definition generate_behavioral_response (question : string) (context : list (gmap string string)) : string :=
  let experiences := List.filter (type_in ["experience"; "personal_story"]) context in
  let question_lower := Py.lower question in
  if Py.any_in ["challenging"; "difficult"; "problem"] question_lower then
    _format_challenging_project_response
  else if Py.any_in ["learn"; "technology"; "quickly"] question_lower then
    _format_learning_response
  else if Py.any_in ["balance"; "multiple"; "responsibilities"] question_lower then
    _format_time_management_response
  else if Py.any_in ["mentor"; "help"; "explain"] question_lower then
    _format_mentoring_response
  else if Py.any_in ["tell me about yourself"; "background"] question_lower then
    _format_introduction_response
  else _format_generic_behavioral_response experiences.

Definition _format_rag_explanation : string :=
  "RAG - Retrieval-Augmented Generation - combines AI models with custom data retrieval for more accurate, context-aware responses.

I implemented this in my Food RAG Explorer project with 105 food items. The system converts both the data and user queries into vector embeddings, performs similarity searches to find relevant information, then feeds that context to the AI model. This grounds responses in actual data rather than just general AI knowledge.

I successfully migrated this from a local ChromaDB setup to production using Upstash vector database and Grok API, which taught me valuable lessons about scaling AI applications for real-world use.".

Definition _format_fullstack_explanation : string :=
  "I've gained solid full-stack experience through my internship at ausbiz Consulting, working with modern JavaScript technologies.

Frontend: React 19 and Next.js 15 with Tailwind CSS. I particularly value Next.js for its flexibility between server-side and client-side rendering, and TypeScript for maintaining code quality across the entire application.

Backend: I build APIs using Next.js App Router and Node.js, with PostgreSQL and Prisma ORM for database management. I've implemented authentication, RESTful APIs, and worked with vector databases like Upstash for AI features.

Deployment: All my applications are deployed on Vercel with proper environment variable management and production optimization. The tight integration between TypeScript, Prisma, and Next.js creates a really efficient development workflow.".

Definition _format_deployment_explanation : string :=
  "I have strong experience deploying applications to Vercel, with a focus on smooth CI/CD workflows and security best practices.

My approach involves connecting GitHub repositories to Vercel for automatic deployments on each push, with proper environment variable configuration for sensitive data like API keys and database connections. For my Food RAG Explorer project, this included integrating Upstash vector database and Grok API.

Key practices I follow: secure environment variable management, thorough testing before deployment, monitoring deployment logs, and implementing preview deployments for testing changes. Vercel's Git integration streamlines the entire process, allowing me to focus on development rather than infrastructure management.".

Definition _format_ai_ml_explanation : string :=
  "I've had some really exciting hands-on experience with AI/ML integration, particularly through my internships with ausbiz Consulting.

During my AI Builder internship, I'm working on enterprise-grade digital twin implementations. This involves creating AI systems that can represent real-world entities and processes using advanced AI architectures, vector embeddings, and RAG systems.

For my Food RAG Explorer project, I integrated multiple AI components:
- Started with Ollama running locally for development, which gave me understanding of how LLMs work
- Migrated to Grok API for production deployment
- Implemented vector embeddings to convert food information into numerical representations
- Set up a vector database (moved from ChromaDB to Upstash) to store and retrieve embeddings efficiently
- Created the RAG pipeline that retrieves relevant information and augments the AI's responses

What I've learned is that AI integration is about more than just calling an API. It's about:
1. Understanding the problem: What's the best AI approach for this specific use case?
2. Data preparation: Making sure your data is in the right format
3. Prompt engineering: Crafting effective prompts to get quality responses
4. Error handling: AI responses can be unpredictable, so you need good fallbacks
5. User experience: How do you present AI outputs in a way that's helpful and trustworthy?

I'm really excited about this field because it's moving so fast. I stay current by using tools like GitHub Copilot and Claude Desktop in my development workflow, which has also taught me a lot about working effectively with AI assistants.".

Definition _format_generic_technical_response (context : list (gmap string string)) : string :=
  let tech_skills := List.filter (type_in ["skills"]) context in
  match tech_skills with
  | skill :: _ => "Based on my experience, " +:+ get_or skill "content" EmptyString
  | [] => "I'd be happy to discuss my technical experience..."
  end.

Definition generate_technical_response (question : string) (context : list (gmap string string)) : string :=
  let question_lower := Py.lower question in
  if Py.str_in "rag" question_lower then _format_rag_explanation
  else if Py.any_in ["full stack"; "full-stack"] question_lower then _format_fullstack_explanation
  else if Py.any_in ["deploy"; "cloud"; "vercel"] question_lower then _format_deployment_explanation
  else if Py.any_in ["ai"; "ml"; "artificial intelligence"] question_lower then _format_ai_ml_explanation
  else _format_generic_technical_response context.

End ResponseTemplateGenerator.

(** ** Validation ([ResponseValidator])

    [authenticity_score], a float that no issue depends on, is not part of
    the record here. *)

Record ValidationResult : Type := {
  is_valid : bool;
  issues : list string;
  suggestions : list string
}.

Module ResponseValidator.

Definition _has_first_person_perspective (response : string) : bool :=
  Py.any_in ["I "; "my "; "me "; "myself"; "I'm "; "I've "] response.

Definition specific_patterns : list string :=
  [ "\d+";
    "React|Next\.js|Python|JavaScript|Vercel|AWS";
    "ausbiz|Victoria University|Food RAG Explorer";
    "\b\d{4}\b";
    "weeks?|months?|days?" ].

Definition _has_specific_details (response : string) : bool :=
  Re.any_search specific_patterns response.

Definition _check_response_length (response : string) (query_type : QueryType) : option string :=
  let word_count := Py.word_count response in
  match query_type with
  | BEHAVIORAL =>
      if word_count <? 80 then Some "Behavioral response too short (should be 120-200 words)"
      else if word_count >? 250 then Some "Behavioral response too long (should be 120-200 words)"
      else None
  | TECHNICAL =>
      if word_count <? 60 then Some "Technical response too short (should be 80-150 words)"
      else if word_count >? 200 then Some "Technical response too long (should be 80-150 words)"
      else None
  | _ => None
  end.

Definition _has_star_structure (response : string) : bool :=
  let star_indicators := ["situation"; "task"; "action"; "result"] in
  let response_lower := Py.lower response in
  let explicit_markers := Py.count_in star_indicators response_lower in
  let has_context := Py.any_in ["when i"; "during my"; "at the time"] response_lower in
  let has_challenge := Py.any_in ["needed to"; "had to"; "challenge was"] response_lower in
  let has_action := Py.any_in ["i did"; "i implemented"; "i decided"] response_lower in
  let has_outcome := Py.any_in ["result"; "outcome"; "success"; "learned"] response_lower in
  (explicit_markers >=? 2) || (has_context && has_challenge && has_action && has_outcome).

Definition _check_for_hallucinations (response : string) : list string :=
  let known_companies := ["ausbiz Consulting"; "Victoria University"; "Royal Albert Hotel"] in
  let issues :=
    if Py.str_in "Google" response || Py.str_in "Microsoft" response || Py.str_in "Amazon" response
    then if negb (Py.any_in known_companies response)
         then ["Potential hallucination: Unknown company mentioned"]
         else []
    else [] in
  if Re.search "(\d+)\s*years? of experience" response
  then issues ++ ["Check experience timeframe accuracy"]
  else issues.

(** The truth value of an [Optional[str]]: [None] and the empty string
    are false. *)
Definition truthy (s : option string) : option string :=
  match s with
  | Some EmptyString => None
  | other => other
  end.

Definition validate_response (response : string) (query_type : QueryType) : ValidationResult :=
  let acc0 : list string * list string := ([], []) in
  let acc1 :=
    if negb (_has_first_person_perspective response)
    then (fst acc0 ++ ["Response lacks first-person perspective"],
          snd acc0 ++ ["Use 'I', 'my', 'me' to personalize the response"])
    else acc0 in
  let acc2 :=
    if negb (_has_specific_details response)
    then (fst acc1 ++ ["Response lacks specific details"],
          snd acc1 ++ ["Add specific examples, numbers, or concrete details"])
    else acc1 in
  let acc3 :=
    match truthy (_check_response_length response query_type) with
    | Some length_issue =>
        (fst acc2 ++ [length_issue],
         snd acc2 ++ ["Adjust response length to match question complexity"])
    | None => acc2
    end in
  let acc4 :=
    match query_type with
    | BEHAVIORAL =>
        if negb (_has_star_structure response)
        then (fst acc3 ++ ["Behavioral response missing STAR structure"],
              snd acc3 ++ ["Include Situation, Task, Action, Result elements"])
        else acc3
    | _ => acc3
    end in
  let issues := fst acc4 ++ _check_for_hallucinations response in
  {| is_valid := (length issues =? 0)%nat;
     issues := issues;
     suggestions := snd acc4 |}.

End ResponseValidator.

(** ** The orchestrator ([InterviewOptimizedDigitalTwin]) *)

Module InterviewOptimizedDigitalTwin.

(** [relevant_types.get(query_type, ['experience', 'skills'])] *)
Definition relevant_types (query_type : QueryType) : option (list string) :=
  match query_type with
  | BEHAVIORAL => Some ["experience"; "personal_story"; "strengths"]
  | TECHNICAL => Some ["skills"; "projects"; "education"]
  | PROJECT_SPECIFIC => Some ["projects"]
  | SALARY_LOCATION => Some ["salary_location"; "availability"]
  | AVAILABILITY => Some ["availability"]
  | COMPANY_SPECIFIC => Some ["career"; "strengths"]
  | PERSONAL_STORY | GENERAL => None
  end.

Definition target_types (query_type : QueryType) : list string :=
  match relevant_types query_type with
  | Some ts => ts
  | None => ["experience"; "skills"]
  end.

Definition _extract_relevant_context (knowledge_base : KnowledgeBase)
    (question : string) (query_type : QueryType) : list (gmap string string) :=
  let chunks :=
    match content_chunks knowledge_base with
    | Some cs => cs
    | None => []
    end in
  let relevant_chunks := List.filter (type_in (target_types query_type)) chunks in
  Py.slice_to 3 relevant_chunks.

Definition _format_salary_location_response : string :=
  "I'm flexible on compensation and really interested in finding the right fit. Based on my research of Brisbane market rates and considering my technical skills in AI/ML and full-stack development, I'm thinking in the range of $65,000 to $75,000 for an entry-level developer role, with potential for a premium for specialized AI/ML positions up to $85,000.

What's most important to me is the opportunity to learn, contribute meaningfully, and grow with a great team. I'm also very interested in the role scope, mentorship opportunities, and growth potential - those factors are just as important as the base salary.

In terms of location, I'm based in Brisbane and would prefer to stay in Queensland - Brisbane, Gold Coast, or other Queensland locations work well for me. I'm also very open to remote or hybrid arrangements, and I have 20+ weeks of remote work experience from my internships with ausbiz Consulting, so I'm comfortable with remote collaboration.

I'm graduating in June 2026, so I'm looking for positions that could potentially start part-time during my final semester and transition to full-time after graduation. Is there flexibility in the role structure to accommodate that timeline?".

Definition _format_availability_response : string :=
  "I'm graduating in June 2026, so my availability has two phases:

**Current availability:** I'm authorized to work part-time during the semester - up to 20 hours per week - and full-time during university breaks. Right now I'm managing my AI Builder internship, mentoring responsibilities, and studies quite well, so I could potentially take on the right opportunity with proper scheduling.

**Post-graduation:** From July 2026 onwards, I'll be available for full-time work and eligible for a post-study work visa, which gives me full work authorization in Australia.

The ideal scenario would be a role that could start part-time - maybe 15-20 hours per week - during my final semester, then transition to full-time once I graduate. This would actually be perfect timing for a graduate program intake.

I have a good track record of balancing multiple commitments - I'm currently managing internship work, mentoring 100+ students, part-time hospitality work, and maintaining a 6.17 GPA. So I'm confident I can contribute meaningfully even on a part-time basis initially.

Is there flexibility in the role structure to accommodate this kind of timeline? I'd love to discuss how we could make it work.".

Definition _format_company_interest_response : string :=
  "I'd need to research your specific company to give you a detailed answer, but I can share what generally excites me about potential opportunities.

I'm particularly drawn to companies that are doing innovative work with AI/ML technologies, especially those applying it to solve real business problems. Having built production AI systems like my Food RAG Explorer and digital twin implementations, I'm excited by organizations that are pushing the boundaries of what's possible with AI.

I also value companies with strong engineering cultures - places where I can learn from experienced developers, contribute ideas even as a junior team member, and grow technically. My mentoring experience has shown me how much I learn when I'm around people who challenge me to think differently.

From a practical standpoint, I'm looking for remote-friendly or Brisbane-based opportunities, and I'm particularly interested in companies that offer structured onboarding for new graduates - since I'm graduating in June 2026.

Could you tell me more about what makes your company special? What are the engineering team's biggest challenges right now? And what does the learning and development culture look like? I'd love to understand what makes this opportunity unique and how I could contribute to your team's success.".

Definition _generate_contextual_response (question : string) (query_type : QueryType)
    (context : list (gmap string string)) : string :=
  match query_type with
  | SALARY_LOCATION => _format_salary_location_response
  | AVAILABILITY => _format_availability_response
  | COMPANY_SPECIFIC => _format_company_interest_response
  | _ =>
      match context with
      | c :: _ => get_or c "content" EmptyString
      | [] => "I'd be happy to discuss that with you."
      end
  end.

(** The empty string is false: no company context, no addition. *)
Definition _customize_for_company (response company_context : string) : string :=
  match company_context with
  | EmptyString => response
  | _ =>
      let addition :=
        nl +:+ nl +:+ "Based on what I know about " +:+ company_context
        +:+ ", this experience seems particularly relevant because..." in
      response +:+ addition
  end.

Record InterviewResult : Type := {
  r_question : string;
  r_query_type : QueryType;
  r_response : string;
  r_validation : ValidationResult;
  r_context_used : list string;
  r_company_context : option string
}.

Definition process_interview_question (knowledge_base : KnowledgeBase)
    (question : string) (company_context : option string) : InterviewResult :=
  let query_type := QueryClassifier.classify_query question in
  let context := _extract_relevant_context knowledge_base question query_type in
  let response :=
    match query_type with
    | BEHAVIORAL => ResponseTemplateGenerator.generate_behavioral_response question context
    | TECHNICAL => ResponseTemplateGenerator.generate_technical_response question context
    | _ => _generate_contextual_response question query_type context
    end in
  let response :=
    match company_context with
    | Some (String a cc) => _customize_for_company response (String a cc)
    | _ => response
    end in
  let validation := ResponseValidator.validate_response response query_type in
  {| r_question := question;
     r_query_type := query_type;
     r_response := response;
     r_validation := validation;
     r_context_used := map (fun item => get_or item "title" "Unknown") context;
     r_company_context := company_context |}.

End InterviewOptimizedDigitalTwin.

(** ** Company customization ([CompanyResponseCustomizer]) *)

Module CompanyResponseCustomizer.

Record CompanyProfile : Type := {
  name : string;
  industry : string;
  tech_stack : list string;
  values : list string;
  size : string;
  culture_keywords : list string;
  recent_news : list string
}.

Record IndustryPattern : Type := {
  keywords : list string;
  tech_emphasis : list string;
  value_props : list string
}.

(** The dict [self.brisbane_companies], in insertion order. *)
Definition brisbane_companies : list (string * CompanyProfile) :=
  [ ("suncorp",
     {| name := "Suncorp Group";
        industry := "Financial Services/Insurance";
        tech_stack := ["Java"; "Python"; "AWS"; "Microservices"; "React"; "API Gateway"];
        values := ["Customer First"; "Own It"; "Be Bold"; "Stay Curious"];
        size := "Large Enterprise (14,000+ employees)";
        culture_keywords := ["innovation"; "digital transformation"; "customer-centric"; "agile"];
        recent_news := ["Digital banking transformation"; "Cloud-first strategy"; "AI/ML initiatives"] |});
    ("flight_centre",
     {| name := "Flight Centre Travel Group";
        industry := "Travel Technology";
        tech_stack := ["Java"; "JavaScript"; "React"; "Node.js"; "AWS"; "Microservices"];
        values := ["People First"; "Customer Focused"; "Bright Future"; "Ownership"];
        size := "Large Enterprise (18,000+ employees)";
        culture_keywords := ["innovation"; "travel tech"; "customer experience"; "global"];
        recent_news := ["Travel recovery technology"; "Digital experience platforms"; "Mobile innovation"] |});
    ("xero",
     {| name := "Xero";
        industry := "FinTech/SaaS";
        tech_stack := ["C#"; "React"; "AWS"; "Microservices"; "TypeScript"; "GraphQL"];
        values := ["Human"; "Purposeful"; "Adventurous"];
        size := "Large (4,000+ employees)";
        culture_keywords := ["small business"; "beautiful software"; "innovation"; "human"];
        recent_news := ["AI automation features"; "Small business platform expansion"; "Developer API growth"] |});
    ("technologyone",
     {| name := "TechnologyOne";
        industry := "Enterprise Software/SaaS";
        tech_stack := ["Java"; "React"; "Angular"; "AWS"; "Microservices"; "REST APIs"];
        values := ["Innovation"; "Quality"; "Service"; "People"];
        size := "Large (1,300+ employees)";
        culture_keywords := ["enterprise software"; "innovation"; "continuous improvement"; "customer success"];
        recent_news := ["SaaS transformation"; "AI-powered solutions"; "Government sector growth"] |}) ].

(** The dict [self.industry_patterns], in insertion order. *)
Definition industry_patterns : list (string * IndustryPattern) :=
  [ ("fintech",
     {| keywords := ["financial"; "banking"; "payments"; "investment"; "trading"];
        tech_emphasis := ["security"; "scalability"; "compliance"; "data analytics"];
        value_props := ["quantitative thinking"; "attention to detail"; "regulatory understanding"] |});
    ("consulting",
     {| keywords := ["consulting"; "advisory"; "transformation"; "strategy"];
        tech_emphasis := ["client solutions"; "adaptability"; "communication"];
        value_props := ["problem-solving"; "client focus"; "business impact"] |});
    ("startup",
     {| keywords := ["startup"; "scale-up"; "growth"; "agile"];
        tech_emphasis := ["rapid development"; "MVP"; "innovation"; "flexibility"];
        value_props := ["adaptability"; "ownership"; "growth mindset"] |}) ].

(** The first profile, in insertion order, whose key or lower-cased name
    occurs in the lower-cased context. *)
Definition _identify_company (company_context : string) : option CompanyProfile :=
  let context_lower := Py.lower company_context in
  match List.find (fun kp => Py.str_in (fst kp) context_lower
                             || Py.str_in (Py.lower (name (snd kp))) context_lower)
                  brisbane_companies with
  | Some kp => Some (snd kp)
  | None => None
  end.

(** [customizations.append(x)] when [cond] holds. *)
Definition append_if (cond : bool) (x : string) (customizations : list string) : list string :=
  if cond then customizations ++ [x] else customizations.

(** The customizations, joined without a separator, are appended when there
    are any. *)
Definition add_customizations (base_response : string) (customizations : list string) : string :=
  match customizations with
  | [] => base_response
  | _ => base_response +:+ Py.join EmptyString customizations
  end.

Definition _customize_for_known_company (base_response : string) (company : CompanyProfile)
    (query_type : string) : string :=
  let customizations : list string := [] in
  let my_tech := ["Python"; "JavaScript"; "TypeScript"; "React"; "Next.js"; "AWS"; "Node.js"] in
  let matching_tech := List.filter (fun tech => Py.elem_str tech my_tech) (tech_stack company) in
  let customizations :=
    append_if (negb (length matching_tech =? 0)%nat && String.eqb query_type "technical")
      (nl +:+ "What's particularly exciting about " +:+ name company
       +:+ " is your tech stack - I have hands-on experience with "
       +:+ Py.join ", " (Py.slice_to 3 matching_tech)
       +:+ ", which aligns well with your technology choices.")
      customizations in
  let customizations :=
    if String.eqb query_type "company_specific" then
      let customizations :=
        append_if (Py.elem_str "Customer" (values company)
                   || Py.elem_str "customer" (map Py.lower (values company)))
          (nl +:+ "Your focus on customer-centricity really resonates with me. Through my mentoring work supporting 100+ students and my hospitality experience, I've learned that understanding user needs is fundamental to building great solutions.")
          customizations in
      append_if (Py.elem_str "Innovation" (values company)
                 || Py.elem_str "innovation" (map Py.lower (values company)))
        (nl +:+ "I'm particularly drawn to " +:+ name company
         +:+ "'s emphasis on innovation. Building cutting-edge AI systems like my RAG implementation and digital twin projects has shown me how exciting it is to work with emerging technologies that solve real problems.")
        customizations
    else customizations in
  let customizations :=
    append_if (String.eqb (industry company) "Financial Services/Insurance"
               && Py.elem_str query_type ["behavioral"; "company_specific"])
      (nl +:+ "While I don't have direct financial services experience, I'm genuinely interested in how technology can improve financial accessibility and user experience. My systematic approach to learning - demonstrated through mastering AI/ML technologies - would help me quickly understand your domain and contribute meaningfully.")
      customizations in
  let customizations :=
    append_if (String.eqb (industry company) "Travel Technology")
      (nl +:+ "The travel industry's focus on user experience and seamless digital interactions aligns perfectly with my full-stack development background and AI integration experience.")
      customizations in
  let customizations :=
    append_if (Py.str_in "Large Enterprise" (size company))
      (nl +:+ "I'm excited about the opportunity to work at enterprise scale - my experience building production systems has shown me the importance of scalability, reliability, and collaboration in larger organizations.")
      customizations in
  add_customizations base_response customizations.

Definition _add_industry_customization (base_response industry_name : string)
    (patterns : IndustryPattern) (query_type : string) : string :=
  let customizations : list string :=
    if String.eqb industry_name "fintech"
       && Py.elem_str query_type ["behavioral"; "company_specific"] then
      [nl +:+ "I'm particularly interested in fintech because of the intersection of technology and quantitative problem-solving. While I don't have direct finance experience, my systematic approach to learning complex technologies and my attention to detail in AI system development demonstrate the analytical thinking that's valuable in financial technology."]
    else if String.eqb industry_name "consulting" && String.eqb query_type "behavioral" then
      [nl +:+ "My mentoring experience has taught me how to understand different client needs and adapt my communication style accordingly - skills that translate well to consulting environments where you need to quickly understand client contexts and deliver tailored solutions."]
    else if String.eqb industry_name "startup"
            && Py.elem_str query_type ["behavioral"; "company_specific"] then
      [nl +:+ "I'm excited about startup environments because of the opportunity to wear multiple hats and have direct impact. My experience managing multiple responsibilities - internship, mentoring, studies, and part-time work - has taught me how to be adaptable and take ownership."]
    else [] in
  add_customizations base_response customizations.

Definition _add_generic_customization (base_response context query_type : string) : string :=
  if String.eqb query_type "company_specific" then
    let addition :=
      nl +:+ nl +:+ "I'd love to learn more about your specific challenges and how I could contribute to your team's success. Based on my research and what we've discussed, it sounds like there's a great alignment between my technical skills and growth mindset and what you're looking for." in
    base_response +:+ addition
  else base_response.

Definition _customize_for_industry (base_response context query_type : string) : string :=
  let context_lower := Py.lower context in
  match List.find (fun ip => Py.any_in (keywords (snd ip)) context_lower) industry_patterns with
  | Some ip => _add_industry_customization base_response (fst ip) (snd ip) query_type
  | None => _add_generic_customization base_response context query_type
  end.

Definition customize_response (base_response company_context query_type : string) : string :=
  match _identify_company company_context with
  | Some company_profile => _customize_for_known_company base_response company_profile query_type
  | None => _customize_for_industry base_response company_context query_type
  end.

(** [generate_why_company_response]: [None] stands for the [IndexError] of
    [culture_keywords[0]] on an empty list.  The argument
    [personal_strengths] is not read. *)
Definition generate_why_company_response (company_context : string)
    (personal_strengths : list string) : option string :=
  match _identify_company company_context with
  | Some company_profile =>
      let response :=
        "I'm excited about the opportunity at " +:+ name company_profile
        +:+ " for several specific reasons:" +:+ nl +:+ nl in
      let my_tech := ["Python"; "JavaScript"; "React"; "Next.js"; "AWS"; "AI/ML"] in
      let matching_tech :=
        List.filter (fun tech => existsb (fun my_tech_item => Py.str_in my_tech_item tech) my_tech)
                    (tech_stack company_profile) in
      let response :=
        match matching_tech with
        | [] => response
        | _ =>
            response +:+ "**Technical Fit:** Your use of "
            +:+ Py.join ", " (Py.slice_to 2 matching_tech)
            +:+ " aligns perfectly with my hands-on experience. I've built production applications with these technologies during my internships and personal projects."
            +:+ nl +:+ nl
        end in
      let response :=
        if Py.str_in "Financial" (industry company_profile) then
          response +:+ "**Industry Impact:** I'm drawn to "
          +:+ Py.lower (industry company_profile)
          +:+ " because of the intersection of technology and quantitative problem-solving. While I'm new to finance, my systematic approach to mastering AI/ML technologies shows I can quickly learn domain-specific knowledge."
          +:+ nl +:+ nl
        else response in
      let response :=
        match values company_profile with
        | [] => response
        | first_value :: _ =>
            response +:+ "**Values Alignment:** Your emphasis on " +:+ first_value
            +:+ " resonates with my experience - whether it's putting students first in my mentoring role or focusing on user experience in my applications."
            +:+ nl +:+ nl
        end in
      match culture_keywords company_profile with
      | [] => None
      | first_keyword :: _ =>
          Some (response
                +:+ "**Growth Opportunity:** As someone graduating in June 2026, I'm looking for a place where I can contribute immediately while growing into more complex challenges. "
                +:+ name company_profile +:+ "'s reputation for " +:+ first_keyword
                +:+ " suggests this would be the right environment for that journey.")
      end
  | None =>
      let response :=
        "Based on my research about your company, I'm excited by several factors:"
        +:+ nl +:+ nl in
      let response :=
        response
        +:+ "**Technical Opportunity:** The chance to work with modern technologies and solve complex problems aligns with my experience building AI systems and full-stack applications."
        +:+ nl +:+ nl in
      let response :=
        response
        +:+ "**Learning Environment:** I'm looking for a role where I can contribute my existing skills while learning from experienced team members and taking on new challenges."
        +:+ nl +:+ nl in
      Some (response
            +:+ "**Mission Alignment:** Your focus on [specific company mission/value from research] resonates with my experience building solutions that help people, whether through my mentoring work or my technical projects.")
  end.

End CompanyResponseCustomizer.

(** ** Response scoring ([RecruiterSatisfactionTrainer])

    The [context] dict: [role_type] and [company] hold strings and
    [key_skills] a list of strings; each may be absent.  Scores are Python
    ints; the weighted sums are binary64 floats, as in Python. *)

Module RecruiterSatisfactionTrainer.

Record Context : Type := {
  role_type : option string;
  company : option string;
  key_skills : option (list string)
}.

Record ComponentScores : Type := {
  content : Z;
  structure : Z;
  impact : Z;
  engagement : Z
}.

Record Analysis : Type := {
  overall_score : float;
  component_scores : ComponentScores;
  satisfaction_prediction : float;
  recommendations : list string;
  strengths : list string;
  improvement_areas : list string
}.

(** The float of a small non-negative Python int. *)
Definition to_float (z : Z) : float := PrimFloat.of_uint63 (Uint63.of_Z z).

(** [min(x, 100)]: the first argument unless the second is smaller. *)
Definition min_100 (x : float) : float :=
  if PrimFloat.ltb 100 x then 100%float else x.

(** [score += points] when [cond] holds. *)
Definition add_if (cond : bool) (points : Z) (score : Z) : Z :=
  if cond then score + points else score.

Definition _analyze_content_quality (response : string) (context : Context) : Z :=
  let score := 0 in
  let metrics_keywords := ["%"; "increased"; "decreased"; "improved"; "reduced"; "grew"; "achieved"] in
  let score := add_if (Py.any_in metrics_keywords (Py.lower response)) 25 score in
  let score :=
    if Py.opt_eq (role_type context) "technical" then
      let tech_keywords := ["architecture"; "implementation"; "optimization"; "scalability"; "performance"] in
      add_if (Py.any_in tech_keywords (Py.lower response)) 20 score
    else score in
  let company_name :=
    Py.lower (match company context with Some c => c | None => EmptyString end) in
  let score :=
    add_if (negb (String.eqb company_name EmptyString)
            && Py.str_in company_name (Py.lower response)) 15 score in
  let role_keywords := match key_skills context with Some ks => ks | None => [] end in
  let relevance_count :=
    Z.of_nat (length (List.filter (fun skill => Py.str_in (Py.lower skill) (Py.lower response))
                                  role_keywords)) in
  let score := score + Z.min (relevance_count * 5) 20 in
  let example_indicators := ["when"; "where"; "how"; "specifically"; "for example"; "instance"] in
  let score := add_if (Py.any_in example_indicators (Py.lower response)) 20 score in
  Z.min score 100.

Definition _analyze_structure (response question : string) : Z :=
  let score := 0 in
  let behavioral_questions := ["tell me about"; "describe a time"; "give me an example"] in
  let score :=
    if Py.any_in behavioral_questions (Py.lower question) then
      let star_elements := ["situation"; "task"; "action"; "result"] in
      let star_count := Py.count_in star_elements (Py.lower response) in
      score + star_count * 15
    else score in
  let flow_markers := ["first"; "then"; "next"; "finally"; "as a result"; "this led to"] in
  let score := add_if (Py.any_in flow_markers (Py.lower response)) 20 score in
  let word_count := Py.word_count response in
  let score :=
    if (225 <=? word_count) && (word_count <=? 450) then score + 30
    else if ((180 <=? word_count) && (word_count <? 225))
            || ((450 <? word_count) && (word_count <=? 500)) then score + 20
    else if (word_count <? 180) || (word_count >? 500) then score + 10
    else score in
  let conclusion_markers := ["in summary"; "overall"; "this experience"; "as a result"; "ultimately"] in
  let score := add_if (Py.any_in conclusion_markers (Py.lower response)) 20 score in
  Z.min score 100.

Definition _analyze_professional_impact (response : string) : Z :=
  let score := 0 in
  let leadership_keywords := ["led"; "managed"; "coordinated"; "initiated"; "drove"; "spearheaded"] in
  let leadership_count := Py.count_in leadership_keywords (Py.lower response) in
  let score := score + Z.min (leadership_count * 15) 30 in
  let collaboration_keywords := ["team"; "collaborated"; "worked with"; "cross-functional"; "stakeholders"] in
  let score := add_if (Py.any_in collaboration_keywords (Py.lower response)) 20 score in
  let problem_keywords := ["challenge"; "problem"; "obstacle"; "difficulty"; "issue"; "solved"] in
  let solution_keywords := ["solution"; "approach"; "strategy"; "method"; "resolved"] in
  let has_problem := Py.any_in problem_keywords (Py.lower response) in
  let has_solution := Py.any_in solution_keywords (Py.lower response) in
  let score := add_if (has_problem && has_solution) 25 score in
  let innovation_keywords := ["improved"; "optimized"; "enhanced"; "streamlined"; "automated"; "innovated"] in
  let score := add_if (Py.any_in innovation_keywords (Py.lower response)) 25 score in
  Z.min score 100.

Definition _analyze_engagement (response : string) : Z :=
  let score := 0 in
  let learning_keywords := ["learned"; "grew"; "developed"; "gained"; "discovered"; "realized"] in
  let score := add_if (Py.any_in learning_keywords (Py.lower response)) 30 score in
  let enthusiasm_keywords := ["excited"; "passionate"; "love"; "enjoy"; "thrive"; "motivated"] in
  let score := add_if (Py.any_in enthusiasm_keywords (Py.lower response)) 25 score in
  let authenticity_keywords := ["feedback"; "mistake"; "challenge"; "difficult"; "adapted"; "adjusted"] in
  let score := add_if (Py.any_in authenticity_keywords (Py.lower response)) 25 score in
  let future_keywords := ["continue"; "next"; "future"; "going forward"; "plan to"; "will"] in
  let score := add_if (Py.any_in future_keywords (Py.lower response)) 20 score in
  Z.min score 100.

(** [recommendations.extend(advice)] when [cond] holds. *)
Definition extend_if (cond : bool) (advice : list string) (recs : list string) : list string :=
  if cond then recs ++ advice else recs.

Definition _generate_recommendations (scores : ComponentScores) : list string :=
  let recs : list string := [] in
  let recs :=
    extend_if (content scores <? 70)
      [ "Add specific, quantifiable examples with metrics";
        "Include more technical details relevant to the role";
        "Research and reference the company's specific challenges/goals" ] recs in
  let recs :=
    extend_if (structure scores <? 70)
      [ "Use STAR method for behavioral questions";
        "Add clear transitions between points";
        "Aim for 90-180 seconds (225-450 words)" ] recs in
  let recs :=
    extend_if (impact scores <? 70)
      [ "Emphasize leadership and initiative-taking";
        "Describe collaboration with teams/stakeholders";
        "Highlight problem-solving and innovation" ] recs in
  extend_if (engagement scores <? 70)
    [ "Share authentic challenges and learning moments";
      "Express genuine enthusiasm for the opportunity";
      "Connect experiences to future goals" ] recs.

Definition analyze_response_quality (response question : string) (context : Context) : Analysis :=
  let content_score := _analyze_content_quality response context in
  let structure_score := _analyze_structure response question in
  let impact_score := _analyze_professional_impact response in
  let engagement_score := _analyze_engagement response in
  let scores :=
    {| content := content_score; structure := structure_score;
       impact := impact_score; engagement := engagement_score |} in
  let overall :=
    (to_float content_score * 0.35 + to_float structure_score * 0.25
     + to_float impact_score * 0.25 + to_float engagement_score * 0.15)%float in
  {| overall_score := overall;
     component_scores := scores;
     satisfaction_prediction := min_100 (overall * 0.92 + 8)%float;
     recommendations := _generate_recommendations scores;
     strengths := [];
     improvement_areas := [] |}.

(** *** The practice log

    The trainer object: its three attributes.  A session is the dict
    [practice_response] records; its time stamp is the clock reading at the
    call, an input here. *)

Record Session : Type := {
  s_timestamp : string;
  s_question : string;
  s_response : string;
  s_context : Context;
  s_analysis : Analysis
}.

Record Trainer : Type := {
  target_satisfaction : Z;
  current_score : Z;
  practice_sessions : list Session
}.

(** [RecruiterSatisfactionTrainer()] *)
Definition new_trainer : Trainer :=
  {| target_satisfaction := 85; current_score := 0; practice_sessions := [] |}.

(** Appends the session to the log and returns its analysis. *)
Definition practice_response (now : string) (self : Trainer)
    (question response : string) (context : Context) : Trainer * Analysis :=
  let session_data :=
    {| s_timestamp := now;
       s_question := question;
       s_response := response;
       s_context := context;
       s_analysis := analyze_response_quality response question context |} in
  ({| target_satisfaction := target_satisfaction self;
      current_score := current_score self;
      practice_sessions := practice_sessions self ++ [session_data] |},
   s_analysis session_data).

(** [xs[-n:]] for [n > 0]: the last [n] elements, all of them when there
    are fewer. *)
Definition last_slice {A} (n : nat) (xs : list A) : list A :=
  drop (length xs - n) xs.

(** [xs[-a:-b]] for [a, b > 0]: from the [a]-th element from the end up to,
    not including, the [b]-th from the end. *)
Definition between_slice {A} (a b : nat) (xs : list A) : list A :=
  drop (length xs - a) (take (length xs - b) xs).

(** [len(xs)] as the float a division turns it into. *)
Definition float_len {A} (xs : list A) : float := to_float (Z.of_nat (length xs)).

Inductive Report : Type :=
| NoSessions (message : string)
| Progress (current_average : float) (target : Z) (gap : float)
    (sessions_completed : nat) (trend : string) (next_milestones : list string).

Definition _get_next_milestones (current_avg : float) : list string :=
  let milestones : list string := [] in
  if PrimFloat.ltb current_avg 70 then milestones ++ ["Reach 70% satisfaction (Foundation)"]
  else if PrimFloat.ltb current_avg 80 then milestones ++ ["Reach 80% satisfaction (Competitive)"]
  else if PrimFloat.ltb current_avg 85 then milestones ++ ["Reach 85% satisfaction (TARGET)"]
  else if PrimFloat.ltb current_avg 90 then milestones ++ ["Reach 90% satisfaction (Excellence)"]
  else milestones ++ ["Maintain 90%+ satisfaction (Mastery)"].

(** The built-ins [sum] over floats and [round(x, 1)] are parameters: the
    rounding of [sum] differs between versions of the interpreter. *)
Section Progress.

Variable py_sum : list float -> float.
Variable py_round : float -> Z -> float.

Definition _calculate_trend (self : Trainer) : string :=
  if (length (practice_sessions self) <? 5)%nat then "Insufficient data"
  else
    let recent_5 :=
      map (fun s => satisfaction_prediction (s_analysis s))
          (last_slice 5 (practice_sessions self)) in
    let earlier_5 :=
      map (fun s => satisfaction_prediction (s_analysis s))
          (between_slice 10 5 (practice_sessions self)) in
    match earlier_5 with
    | [] => "Building baseline"
    | _ =>
        let recent_avg := (py_sum recent_5 / float_len recent_5)%float in
        let earlier_avg := (py_sum earlier_5 / float_len earlier_5)%float in
        if PrimFloat.ltb (earlier_avg + 2)%float recent_avg then "Improving"
        else if PrimFloat.ltb recent_avg (earlier_avg - 2)%float then "Declining"
        else "Stable"
    end.

Definition get_progress_report (self : Trainer) : Report :=
  match practice_sessions self with
  | [] => NoSessions "No practice sessions recorded yet"
  | _ =>
      let recent_sessions := last_slice 10 (practice_sessions self) in
      let avg_satisfaction :=
        (py_sum (map (fun s => satisfaction_prediction (s_analysis s)) recent_sessions)
         / float_len recent_sessions)%float in
      Progress (py_round avg_satisfaction 1)
               (target_satisfaction self)
               (py_round (to_float (target_satisfaction self) - avg_satisfaction)%float 1)
               (length (practice_sessions self))
               (_calculate_trend self)
               (_get_next_milestones avg_satisfaction)
  end.

End Progress.

End RecruiterSatisfactionTrainer.

(** ** Values of unknown Python type, exceptions, and the two services

    [pyval] is what the store's JSON metadata can hold.  A call that may
    raise returns an [outcome]; a program that talks to the vector store
    or to the completion service is an [io] tree whose nodes are the calls
    it makes, in order, and [run] plays it against the services and
    records the calls. *)

Inductive pyval : Type :=
| PNone
| PBool (b : bool)
| PInt (z : Z)
| PFloat (f : float)
| PStr (s : string)
| PList (l : list pyval)
| PDict (d : list (string * pyval)).

Inductive Exception : Type := Raised (message : string).

Definition message_of (e : Exception) : string :=
  match e with Raised m => m end.

Inductive outcome (A : Type) : Type :=
| Ok (a : A)
| Raise (e : Exception).

Arguments Ok {A} a.
Arguments Raise {A} e.

Definition obind {A B : Type} (m : outcome A) (f : A -> outcome B) : outcome B :=
  match m with
  | Ok a => f a
  | Raise e => Raise e
  end.

Notation "'do' x <- m ;;; f" := (obind m (fun x => f))
  (at level 10, x name, m at level 100, f at level 200).

(** A hit of [index.query]: the vector's id, its relevance score and the
    metadata stored with it ([None] when the store returns none). *)
Record QueryResult : Type := {
  hit_id : string;
  hit_score : float;
  hit_metadata : option (gmap string pyval)
}.

(** One vector of [index.upsert(vectors=...)]: [(id, data, metadata)]. *)
Definition vector : Type := string * string * gmap string pyval.

Record ChatRequest : Type := {
  chat_model : string;
  chat_system : string;
  chat_user : string;
  chat_temperature : float;
  chat_max_tokens : Z
}.

Inductive io (A : Type) : Type :=
| Ret (a : A)
| IndexQuery (data : string) (top_k : Z) (include_metadata : bool)
    (k : outcome (list QueryResult) -> io A)
| IndexUpsert (vectors : list vector) (k : outcome unit -> io A)
| ChatCreate (request : ChatRequest) (k : outcome string -> io A).

Arguments Ret {A} a.
Arguments IndexQuery {A} data top_k include_metadata k.
Arguments IndexUpsert {A} vectors k.
Arguments ChatCreate {A} request k.

Fixpoint io_bind {A B : Type} (m : io A) (f : A -> io B) : io B :=
  match m with
  | Ret a => f a
  | IndexQuery d n i k => IndexQuery d n i (fun r => io_bind (k r) f)
  | IndexUpsert v k => IndexUpsert v (fun r => io_bind (k r) f)
  | ChatCreate q k => ChatCreate q (fun r => io_bind (k r) f)
  end.

Inductive event : Type :=
| EvQuery (data : string) (top_k : Z) (include_metadata : bool)
| EvUpsert (vectors : list vector)
| EvChat (request : ChatRequest).

(** The services: what each call answers, an exception included. *)
Record Services : Type := {
  index_query : string -> Z -> bool -> outcome (list QueryResult);
  index_upsert : list vector -> outcome unit;
  chat_create : ChatRequest -> outcome string
}.

Fixpoint run {A : Type} (w : Services) (p : io A) : A * list event :=
  match p with
  | Ret a => (a, [])
  | IndexQuery d n i k =>
      let (a, tr) := run w (k (index_query w d n i)) in (a, EvQuery d n i :: tr)
  | IndexUpsert v k =>
      let (a, tr) := run w (k (index_upsert w v)) in (a, EvUpsert v :: tr)
  | ChatCreate q k =>
      let (a, tr) := run w (k (chat_create w q)) in (a, EvChat q :: tr)
  end.

Definition dq : string := String "034" EmptyString.

(** ** Namespace-scoped retrieval ([NamespacedRAGSystem])

    The progress lines the methods print are left out, except that the
    expressions they interpolate are evaluated and may raise; [except
    Exception] is the handler of every [Raise]. *)

Module NamespacedRAGSystem.

(** The dict [chunk_info]. *)
Record ChunkInfo : Type := {
  id : string;
  score : float;
  title : pyval;
  type : pyval;
  category : pyval;
  content : pyval;
  tags : pyval;
  namespace : pyval
}.

(** [result.metadata.get(key, default) if result.metadata else default]:
    a missing or empty metadata dict is false. *)
Definition metadata_get (result : QueryResult) (key : string) (default : pyval) : pyval :=
  match hit_metadata result with
  | Some md =>
      if bool_decide (md = ∅) then default
      else match md !! key with
           | Some v => v
           | None => default
           end
  | None => default
  end.

(** [value != text] for a string [text]: only an equal string is equal. *)
Definition ne_str (value : pyval) (text : string) : bool :=
  match value with
  | PStr s => negb (String.eqb s text)
  | _ => true
  end.

Definition is_str (v : pyval) : bool :=
  match v with
  | PStr _ => true
  | _ => false
  end.

(** [', '.join(tags[:5])], evaluated for the progress line: it raises
    unless [tags] is a string or a list whose first five items are
    strings.  The other interpolations of the progress lines cannot
    raise. *)
Definition print_chunk (chunk : ChunkInfo) : outcome unit :=
  match tags chunk with
  | PStr _ => Ok tt
  | PList l =>
      if forallb is_str (Py.slice_to 5 l) then Ok tt
      else Raise (Raised "sequence item: expected str instance")
  | _ => Raise (Raised "object is not subscriptable")
  end.

Definition chunk_info (result : QueryResult) : ChunkInfo :=
  {| id := hit_id result;
     score := hit_score result;
     title := metadata_get result "title" (PStr "Untitled");
     type := metadata_get result "type" (PStr "unknown");
     category := metadata_get result "category" (PStr "general");
     content := metadata_get result "content" (PStr EmptyString);
     tags := metadata_get result "tags" (PList []);
     namespace := metadata_get result "namespace" (PStr "unknown") |}.

(** The loop over the raw results; [relevant_chunks] is the list built
    so far. *)
Fixpoint collect (namespace_arg : string) (results : list QueryResult)
    (relevant_chunks : list ChunkInfo) : outcome (list ChunkInfo) :=
  match results with
  | [] => Ok relevant_chunks
  | result :: rest =>
      let result_namespace := metadata_get result "namespace" (PStr "unknown") in
      if ne_str result_namespace namespace_arg then collect namespace_arg rest relevant_chunks
      else
        let chunk := chunk_info result in
        do _ <- print_chunk chunk ;;;
        collect namespace_arg rest (relevant_chunks ++ [chunk])
  end.

(** The body of the [try] block, given the answer of [index.query]. *)
Definition query_namespace_body (namespace_arg : string)
    (answer : outcome (list QueryResult)) : outcome (list ChunkInfo) :=
  do results <- answer ;;;
  match results with
  | [] => Ok []
  | _ => collect namespace_arg results []
  end.

Definition query_namespace (query namespace_arg : string) (top_k : Z) : io (list ChunkInfo) :=
  IndexQuery query top_k true (fun answer =>
    Ret (match query_namespace_body namespace_arg answer with
         | Ok relevant_chunks => relevant_chunks
         | Raise _ => []
         end)).

Definition system_prompt_dt : string :=
  "You are Jashandeep's AI Digital Twin. Answer questions about Jashandeep's professional background, skills, experience, and qualifications based on the provided context. 

Be conversational and personal, as if you are Jashandeep speaking about yourself. Use "
  +:+ dq +:+ "I"
  +:+ dq +:+ " and "
  +:+ dq +:+ "my"
  +:+ dq +:+ " when referring to experiences and achievements. Provide specific examples and details from the context.

For interview questions, provide STAR format responses when appropriate (Situation, Task, Action, Result).".

Definition system_prompt_food : string :=
  "You are a knowledgeable food and nutrition assistant. Answer questions about foods, nutrition, cooking, and dietary information based on the provided context.

Provide helpful, accurate information about food items, their nutritional benefits, preparation methods, and cultural significance. Be informative yet conversational.".

Definition system_prompt_other : string :=
  "You are a helpful assistant. Answer questions based on the provided context.".

Record QueryAnswer : Type := {
  a_query : string;
  a_namespace : string;
  a_relevant_chunks : list ChunkInfo;
  a_response : string;
  a_sources_count : Z
}.

Section Generation.

(** [str(v)], as an f-string renders a metadata value. *)
Variable py_str : pyval -> string.

Definition context_part (chunk : ChunkInfo) : string :=
  "Title: " +:+ py_str (title chunk) +:+ nl
  +:+ "Type: " +:+ py_str (type chunk) +:+ nl
  +:+ "Content: " +:+ py_str (content chunk) +:+ nl.

Definition generate_response (query : string) (relevant_chunks : list ChunkInfo)
    (namespace_arg : string) : io string :=
  match relevant_chunks with
  | [] =>
      Ret ("I couldn't find relevant information in the '" +:+ namespace_arg
           +:+ "' namespace for your query.")
  | _ =>
      let context_parts := map context_part relevant_chunks in
      let context := Py.join (nl +:+ "---" +:+ nl) context_parts in
      let system_prompt :=
        if String.eqb namespace_arg "dt" then system_prompt_dt
        else if String.eqb namespace_arg "food" then system_prompt_food
        else system_prompt_other in
      ChatCreate
        {| chat_model := "llama-3.3-70b-versatile";
           chat_system := system_prompt;
           chat_user := "Context:" +:+ nl +:+ context +:+ nl +:+ nl
                        +:+ "Question: " +:+ query +:+ nl +:+ nl +:+ "Answer:";
           chat_temperature := 0.7%float;
           chat_max_tokens := 1000 |}
        (fun answer =>
           Ret (match answer with
                | Ok text => text
                | Raise e => "Error generating response: " +:+ message_of e
                end))
  end.

Definition namespace_query (namespace_arg query : string) (top_k : Z) : io QueryAnswer :=
  io_bind (query_namespace query namespace_arg top_k) (fun relevant_chunks =>
  io_bind (generate_response query relevant_chunks namespace_arg) (fun response =>
  Ret {| a_query := query;
         a_namespace := namespace_arg;
         a_relevant_chunks := relevant_chunks;
         a_response := response;
         a_sources_count := Z.of_nat (length relevant_chunks) |})).

Definition digital_twin_query (query : string) (top_k : Z) : io QueryAnswer :=
  namespace_query "dt" query top_k.

Definition food_query (query : string) (top_k : Z) : io QueryAnswer :=
  namespace_query "food" query top_k.

Definition food_keywords : list string :=
  [ "food"; "eat"; "nutrition"; "recipe"; "cooking"; "ingredient";
    "calories"; "diet"; "meal"; "dish"; "cuisine"; "restaurant";
    "healthy"; "vitamin"; "protein"; "carbs"; "fat"; "sugar" ].

Definition smart_query (query : string) (top_k : Z) : io QueryAnswer :=
  let query_lower := Py.lower query in
  let is_food_query := Py.any_in food_keywords query_lower in
  if is_food_query then food_query query top_k else digital_twin_query query top_k.

End Generation.

End NamespacedRAGSystem.

(** ** The id-prefix retrieval of [digitaltwin_rag.py] *)

Module DigitalTwinRag.

(** The loop of [query_vectors]: keeps the hits whose id starts with
    [dt-] and stops as soon as [top_k] of them are collected. *)
Fixpoint dt_loop (top_k : Z) (results : list QueryResult) (dt_results : list QueryResult)
  : list QueryResult :=
  match results with
  | [] => dt_results
  | result :: rest =>
      if negb (String.eqb (hit_id result) EmptyString) && Py.startswith "dt-" (hit_id result)
      then
        let dt_results := dt_results ++ [result] in
        if Z.of_nat (length dt_results) >=? top_k then dt_results
        else dt_loop top_k rest dt_results
      else dt_loop top_k rest dt_results
  end.

Definition query_vectors (query_text : string) (top_k : Z) : io (option (list QueryResult)) :=
  IndexQuery query_text (top_k * 3) true (fun answer =>
    Ret (match answer with
         | Ok results => Some (dt_loop top_k results [])
         | Raise _ => None
         end)).

End DigitalTwinRag.

(** ** Upload of namespaced vectors ([embed_digital_twin], [embed_foods_data])

    A chunk as [create_content_chunks] and [create_food_chunks] build it:
    every field a string, the tags a list of strings. *)

Record ContentChunk : Type := {
  c_id : string;
  c_title : string;
  c_content : string;
  c_type : string;
  c_category : string;
  c_tags : list string
}.

(** [vectors[i:i+batch_size] for i in range(0, len(vectors), batch_size)] *)
Fixpoint batches_go {A : Type} (fuel batch_size : nat) (vectors : list A) : list (list A) :=
  match fuel, vectors with
  | O, _ => []
  | _, [] => []
  | S f, _ => take batch_size vectors :: batches_go f batch_size (drop batch_size vectors)
  end.

Definition batches {A : Type} (batch_size : nat) (vectors : list A) : list (list A) :=
  batches_go (length vectors) batch_size vectors.

(** The upload loop: a batch whose [index.upsert] raises is skipped. *)
Fixpoint upload (todo : list (list vector)) (successful_uploads : Z) : io Z :=
  match todo with
  | [] => Ret successful_uploads
  | batch :: rest =>
      IndexUpsert batch (fun answer =>
        match answer with
        | Ok _ => upload rest (successful_uploads + Z.of_nat (length batch))
        | Raise _ => upload rest successful_uploads
        end)
  end.

Definition metadata_of (chunk : ContentChunk) (namespace_value source : string)
  : gmap string pyval :=
  list_to_map
    [ ("title", PStr (c_title chunk));
      ("type", PStr (c_type chunk));
      ("category", PStr (c_category chunk));
      ("content", PStr (c_content chunk));
      ("tags", PList (map PStr (c_tags chunk)));
      ("namespace", PStr namespace_value);
      ("source", PStr source) ].

Module EmbedDigitalTwin.

Definition NAMESPACE : string := "digitaltwin".

Definition vector_of (chunk : ContentChunk) : vector :=
  let enhanced_content :=
    "Title: " +:+ c_title chunk +:+ ". Type: " +:+ c_type chunk
    +:+ ". Category: " +:+ c_category chunk +:+ ". Content: " +:+ c_content chunk in
  ("dt-" +:+ c_id chunk, enhanced_content, metadata_of chunk NAMESPACE "digital_twin").

Definition prepare_vectors (content_chunks : list ContentChunk) : list vector :=
  map vector_of content_chunks.

(** From the prepared chunks to the number of vectors uploaded. *)
Definition embed_digital_twin (content_chunks : list ContentChunk) : io Z :=
  let vectors := prepare_vectors content_chunks in
  upload (batches 50 vectors) 0.

End EmbedDigitalTwin.

Module EmbedFoods.

Definition NAMESPACE : string := "foods".

Definition vector_of (chunk : ContentChunk) : vector :=
  let enhanced_content := "Food: " +:+ c_title chunk +:+ ". " +:+ c_content chunk in
  ("food-" +:+ c_id chunk, enhanced_content, metadata_of chunk NAMESPACE "foods_data").

Definition prepare_vectors (content_chunks : list ContentChunk) : list vector :=
  map vector_of content_chunks.

(** Nothing is uploaded when there are no food chunks. *)
Definition embed_foods_data (content_chunks : list ContentChunk) : io (option Z) :=
  match content_chunks with
  | [] => Ret None
  | _ =>
      let vectors := prepare_vectors content_chunks in
      io_bind (upload (batches 50 vectors) 0) (fun n => Ret (Some n))
  end.

End EmbedFoods.

(** The re-upload loops of [reorganize_into_clean_namespaces]
    ([scripts/reorganize_namespaces.py]), which write the short namespace
    names. *)
Module ReorganizeNamespaces.

Definition dt_vector_of (chunk : ContentChunk) : vector :=
  let enhanced_content :=
    "Title: " +:+ c_title chunk +:+ ". Type: " +:+ c_type chunk
    +:+ ". Category: " +:+ c_category chunk +:+ ". Content: " +:+ c_content chunk in
  ("dt-" +:+ c_id chunk, enhanced_content, metadata_of chunk "dt" "digital_twin").

Definition food_vector_of (chunk : ContentChunk) : vector :=
  let enhanced_content := "Food: " +:+ c_title chunk +:+ ". " +:+ c_content chunk in
  ("food-" +:+ c_id chunk, enhanced_content, metadata_of chunk "food" "foods_data").

Definition reupload_digital_twin (content_chunks : list ContentChunk) : io Z :=
  let dt_vectors := map dt_vector_of content_chunks in
  upload (batches 50 dt_vectors) 0.

Definition reupload_food (food_chunks : list ContentChunk) : io Z :=
  let food_vectors := map food_vector_of food_chunks in
  upload (batches 50 food_vectors) 0.

End ReorganizeNamespaces.

(** A vector as a later query sees it: the stored id and metadata with
    the score the store gives it. *)
Definition stored_hit (v : vector) (relevance : float) : QueryResult :=
  {| hit_id := fst (fst v); hit_score := relevance; hit_metadata := Some (snd v) |}.

(** The vectors of the successful upserts of a run. *)
Fixpoint upserted (w : Services) (trace : list event) : list vector :=
  match trace with
  | [] => []
  | EvUpsert vs :: rest =>
      match index_upsert w vs with
      | Ok _ => vs ++ upserted w rest
      | Raise _ => upserted w rest
      end
  | _ :: rest => upserted w rest
  end.

(** ** Vocabulary of the retrieval properties *)

(** The namespace string a raw hit derives: its [namespace] metadata, or
    ['unknown'] when the metadata or the entry is missing. *)
Definition derived_namespace (h : QueryResult) : pyval :=
  NamespacedRAGSystem.metadata_get h "namespace" (PStr "unknown").

(** The hit derives exactly the string [n]. *)
Definition derives (n : string) (h : QueryResult) : bool :=
  negb (NamespacedRAGSystem.ne_str (derived_namespace h) n).

(** The hit has no metadata at all. *)
Definition metadata_less (h : QueryResult) : bool :=
  match hit_metadata h with
  | None => true
  | Some _ => false
  end.

(** The progress line of the chunk can be printed. *)
Definition printable (c : NamespacedRAGSystem.ChunkInfo) : bool :=
  match NamespacedRAGSystem.print_chunk c with
  | Ok _ => true
  | Raise _ => false
  end.

(** What a namespace query answers from the raw hits: the chunks of the
    hits that derive the namespace, or nothing when one of them cannot be
    printed. *)
Definition filtered (n : string) (raw : list QueryResult) : list NamespacedRAGSystem.ChunkInfo :=
  let chunks := map NamespacedRAGSystem.chunk_info (List.filter (derives n) raw) in
  if forallb printable chunks then chunks else [].

(** A store that answers every query with the first [top_k] of a fixed
    ranking, a completion service that echoes, and upserts that succeed. *)
Definition ranked_store (ranking : list QueryResult) : Services :=
  {| index_query := fun _ top_k _ => Ok (take (Z.to_nat top_k) ranking);
     index_upsert := fun _ => Ok tt;
     chat_create := fun request => Ok (chat_user request) |}.

(** A store whose query call raises. *)
Definition failing_store (e : Exception) : Services :=
  {| index_query := fun _ _ _ => Raise e;
     index_upsert := fun _ => Raise e;
     chat_create := fun _ => Raise e |}.

(** A hit with the given id and namespace metadata. *)
Definition hit_in (hid ns : string) : QueryResult :=
  {| hit_id := hid; hit_score := 0.5%float;
     hit_metadata := Some (<["namespace" := PStr ns]> (<["title" := PStr hid]> ∅)) |}.

(** A hit without metadata. *)
Definition bare_hit (hid : string) : QueryResult :=
  {| hit_id := hid; hit_score := 0.5%float; hit_metadata := None |}.

(** A store that holds food chunks only. *)
Definition food_only_store : Services :=
  ranked_store [hit_in "food-food_1" "food"; hit_in "food-food_2" "food"].

(** A hit uploaded without a namespace entry in its metadata. *)
Definition legacy_hit : QueryResult :=
  {| hit_id := "legacy-1"; hit_score := 0.5%float;
     hit_metadata := Some (<["title" := PStr "Old upload"]> ∅) |}.

(** Three food hits ranked above three digital-twin hits. *)
Definition food_first_ranking : list QueryResult :=
  [ hit_in "food-food_1" "food"; hit_in "food-food_2" "food"; hit_in "food-food_3" "food";
    hit_in "dt-personal_1" "dt"; hit_in "dt-availability_2" "dt"; hit_in "dt-career_3" "dt" ].

(** The placeholder of [generate_response] for an empty chunk list. *)
Definition no_information (namespace_arg : string) : string :=
  "I couldn't find relevant information in the '" +:+ namespace_arg
  +:+ "' namespace for your query.".

(** A digital-twin chunk and a food chunk as the chunk builders make them. *)
Definition sample_dt_chunk : ContentChunk :=
  {| c_id := "personal_1"; c_title := "Professional Overview";
     c_content := "Jashandeep is a developer based in Brisbane.";
     c_type := "personal_info"; c_category := "overview";
     c_tags := ["professional"; "overview"; "introduction"] |}.

Definition sample_food_chunk : ContentChunk :=
  {| c_id := "food_1"; c_title := "Apple";
     c_content := "Food: Apple. Description: Fresh red apple";
     c_type := "food_item"; c_category := "nutrition";
     c_tags := ["food"; "australia"] |}.

(** The upload paths that write a namespace, with the namespace and the
    id prefix each writes and the calls a run makes. *)
Inductive uploader : Type :=
| DigitalTwinUpload
| FoodsUpload
| DigitalTwinReupload
| FoodReupload.

Definition uploader_namespace (u : uploader) : string :=
  match u with
  | DigitalTwinUpload => EmbedDigitalTwin.NAMESPACE
  | FoodsUpload => EmbedFoods.NAMESPACE
  | DigitalTwinReupload => "dt"
  | FoodReupload => "food"
  end.

Definition uploader_prefix (u : uploader) : string :=
  match u with
  | DigitalTwinUpload | DigitalTwinReupload => "dt-"
  | FoodsUpload | FoodReupload => "food-"
  end.

Definition upload_trace (u : uploader) (w : Services) (content_chunks : list ContentChunk)
  : list event :=
  match u with
  | DigitalTwinUpload => snd (run w (EmbedDigitalTwin.embed_digital_twin content_chunks))
  | FoodsUpload => snd (run w (EmbedFoods.embed_foods_data content_chunks))
  | DigitalTwinReupload =>
      snd (run w (ReorganizeNamespaces.reupload_digital_twin content_chunks))
  | FoodReupload => snd (run w (ReorganizeNamespaces.reupload_food content_chunks))
  end.

(** The question of the first end-to-end scenario. *)
Definition learning_question : string :=
  "Tell me about a time you learned something quickly".

(** A knowledge base without chunks. *)
Definition empty_knowledge_base : KnowledgeBase := {| content_chunks := None |}.

(** Every regular expression the sources hand to [re.search]. *)
Definition source_patterns : list string :=
  QueryClassifier.behavioral_patterns ++ QueryClassifier.technical_patterns
  ++ QueryClassifier.project_patterns ++ QueryClassifier.company_patterns
  ++ QueryClassifier.salary_patterns ++ QueryClassifier.availability_patterns
  ++ ResponseValidator.specific_patterns ++ ["(\d+)\s*years? of experience"].

(** Case analysis on every condition of the goal. *)
Ltac split_ifs :=
  repeat match goal with
         | |- context [if ?c then _ else _] => destruct c
         end.

(** The values a sub-score can take: the multiples of 5 up to 100. *)
Definition score_values : list Z := map (fun k => 5 * Z.of_nat k) (seq 0 21).

(** The overall score and the predicted satisfaction of four sub-scores,
    as [analyze_response_quality] computes them. *)
Definition weighted (c s i e : Z) : float :=
  (RecruiterSatisfactionTrainer.to_float c * 0.35
   + RecruiterSatisfactionTrainer.to_float s * 0.25
   + RecruiterSatisfactionTrainer.to_float i * 0.25
   + RecruiterSatisfactionTrainer.to_float e * 0.15)%float.

Definition predicted (overall : float) : float :=
  RecruiterSatisfactionTrainer.min_100 (overall * 0.92 + 8)%float.

(** [lo <= x <= hi] on floats. *)
Definition float_between (lo hi x : float) : bool :=
  PrimFloat.leb lo x && PrimFloat.leb x hi.

Definition scores_in_range (c s i e : Z) : bool :=
  float_between 0 100 (weighted c s i e)
  && float_between 8 100 (predicted (weighted c s i e)).

(** ** Vocabulary of the further properties *)

(** The id of the hit starts with [dt-]. *)
Definition dt_prefixed (h : QueryResult) : bool := Py.startswith "dt-" (hit_id h).

(** The vectors of all upsert calls of a run, successful or not. *)
Fixpoint attempted (trace : list event) : list vector :=
  match trace with
  | [] => []
  | EvUpsert vs :: rest => vs ++ attempted rest
  | _ :: rest => attempted rest
  end.

(** The vector an upload path prepares for a chunk. *)
Definition uploader_vector_of (u : uploader) (chunk : ContentChunk) : vector :=
  match u with
  | DigitalTwinUpload => EmbedDigitalTwin.vector_of chunk
  | FoodsUpload => EmbedFoods.vector_of chunk
  | DigitalTwinReupload => ReorganizeNamespaces.dt_vector_of chunk
  | FoodReupload => ReorganizeNamespaces.food_vector_of chunk
  end.

(** A hit of the namespace "dt" whose tags are a number. *)
Definition untagged_hit : QueryResult :=
  {| hit_id := "dt-career_3"; hit_score := 0.5%float;
     hit_metadata := Some (<["namespace" := PStr "dt"]> (<["tags" := PInt 3]> ∅)) |}.

(** An ASCII capital letter. *)
Definition is_upper (c : ascii) : bool := Py.between 65 90 c.

(** The text holds no capital letter. *)
Definition upper_free (s : list ascii) : Prop := forall c, c ∈ s -> is_upper c = false.

(** Every match of the expression reads a capital letter. *)
Fixpoint needs_upper (r : Re.regex) : bool :=
  match r with
  | Re.Chr c => is_upper c
  | Re.Cat r1 r2 => needs_upper r1 || needs_upper r2
  | Re.Alt r1 r2 => needs_upper r1 && needs_upper r2
  | _ => false
  end.

(** The text holds a decimal digit. *)
Definition has_digit (s : string) : bool :=
  existsb Py.is_digit (String.list_ascii_of_string s).

(** The expression can match from this position. *)
Definition can (r : Re.regex) (p : Re.pos) : Prop := exists q, matches r p q.

(** The expression of a literal text followed by [k]. *)
Definition lit_then (w : string) (k : Re.regex) : Re.regex :=
  fold_right (fun c r => Re.Cat (Re.Chr c) r) k (String.list_ascii_of_string w).

(** An alternation of one or more expressions. *)
Fixpoint alts (r : Re.regex) (rs : list Re.regex) : Re.regex :=
  match rs with
  | [] => r
  | r' :: rs' => Re.Alt r (alts r' rs')
  end.

(** The expression can match exactly where the text continues with [w]. *)
Definition reads_word (r : Re.regex) (w : string) : Prop :=
  forall p, can r p <-> exists t, snd p = String.list_ascii_of_string w ++ t.

(** The names and words that count as a specific detail. *)
Definition detail_words : list string :=
  [ "React"; "Next.js"; "Python"; "JavaScript"; "Vercel"; "AWS";
    "ausbiz"; "Victoria University"; "Food RAG Explorer";
    "week"; "month"; "day" ].

(** The word-count band outside which a response is reported as too short
    or too long. *)
Definition length_band (query_type : QueryType) : option (Z * Z) :=
  match query_type with
  | BEHAVIORAL => Some (80, 250)
  | TECHNICAL => Some (60, 200)
  | _ => None
  end.

(** The question selects a fixed text: its intent has one, or one of the
    keywords of the generator for its intent occurs in it. *)
Definition templated (question : string) : bool :=
  match QueryClassifier.classify_query question with
  | SALARY_LOCATION | AVAILABILITY | COMPANY_SPECIFIC => true
  | BEHAVIORAL =>
      Py.any_in
        ( ["challenging"; "difficult"; "problem"] ++ ["learn"; "technology"; "quickly"]
          ++ ["balance"; "multiple"; "responsibilities"] ++ ["mentor"; "help"; "explain"]
          ++ ["tell me about yourself"; "background"] )
        (Py.lower question)
  | TECHNICAL =>
      Py.any_in
        ( ["rag"] ++ ["full stack"; "full-stack"] ++ ["deploy"; "cloud"; "vercel"]
          ++ ["ai"; "ml"; "artificial intelligence"] )
        (Py.lower question)
  | _ => false
  end.

(** The texts given when neither a template nor a chunk applies. *)
Definition placeholders : list string :=
  [ "I'd be happy to share an example from my experience...";
    "I'd be happy to discuss my technical experience...";
    "I'd be happy to discuss that with you." ].

(** A knowledge base with one chunk of each of two types. *)
Definition sample_knowledge_base : KnowledgeBase :=
  {| content_chunks :=
       Some [ <["type" := "salary_location"]> (<["content" := "Brisbane"]> ∅);
              <["type" := "experience"]> (<["content" := "Internship"]> ∅) ] |}.

(** One call of [practice_response]: the clock reading and the three
    arguments. *)
Record practice_call : Type := {
  call_time : string;
  call_question : string;
  call_response : string;
  call_context : RecruiterSatisfactionTrainer.Context
}.

(** The trainer after a series of calls of [practice_response]. *)
Definition practice_all (calls : list practice_call)
    (self : RecruiterSatisfactionTrainer.Trainer) : RecruiterSatisfactionTrainer.Trainer :=
  fold_left
    (fun st c =>
       fst (RecruiterSatisfactionTrainer.practice_response
              (call_time c) st (call_question c) (call_response c) (call_context c)))
    calls self.

(** The trainer with only its last ten sessions. *)
Definition last_ten (self : RecruiterSatisfactionTrainer.Trainer)
    : RecruiterSatisfactionTrainer.Trainer :=
  {| RecruiterSatisfactionTrainer.target_satisfaction :=
       RecruiterSatisfactionTrainer.target_satisfaction self;
     RecruiterSatisfactionTrainer.current_score :=
       RecruiterSatisfactionTrainer.current_score self;
     RecruiterSatisfactionTrainer.practice_sessions :=
       RecruiterSatisfactionTrainer.last_slice 10
         (RecruiterSatisfactionTrainer.practice_sessions self) |}.

(** Two reports that differ at most in the number of sessions. *)
Definition same_but_count (r1 r2 : RecruiterSatisfactionTrainer.Report) : Prop :=
  match r1, r2 with
  | RecruiterSatisfactionTrainer.NoSessions m1, RecruiterSatisfactionTrainer.NoSessions m2 =>
      m1 = m2
  | RecruiterSatisfactionTrainer.Progress a1 t1 g1 _ tr1 ms1,
    RecruiterSatisfactionTrainer.Progress a2 t2 g2 _ tr2 ms2 =>
      a1 = a2 /\ t1 = t2 /\ g1 = g2 /\ tr1 = tr2 /\ ms1 = ms2
  | _, _ => False
  end.

(** The number of sub-scores below 70. *)
Definition low_scores (scores : RecruiterSatisfactionTrainer.ComponentScores) : nat :=
  length (List.filter (fun s => s <? 70)
            [ RecruiterSatisfactionTrainer.content scores;
              RecruiterSatisfactionTrainer.structure scores;
              RecruiterSatisfactionTrainer.impact scores;
              RecruiterSatisfactionTrainer.engagement scores ]).

(** ** From the foods file to content chunks ([create_food_chunks])

    [foods_data] is what [json.load] returns: any JSON value, here a
    [pyval] whose dicts have distinct keys.  The conversion of a value to
    text by an f-string or [str] is a parameter. *)

Module CreateFoodChunks.

(** The dict a chunk is; [fc_title] is the food's name as found, of
    whatever type. *)
Record FoodChunk : Type := {
  fc_id : string;
  fc_title : pyval;
  fc_content : string;
  fc_type : string;
  fc_category : string;
  fc_tags : list string;
  fc_original_data : pyval
}.

(** The truth value of a Python value. *)
Definition truthy (v : pyval) : bool :=
  match v with
  | PNone => false
  | PBool b => b
  | PInt z => negb (z =? 0)
  | PFloat f => negb (PrimFloat.eqb f 0)
  | PStr s => negb (String.eqb s EmptyString)
  | PList l => match l with [] => false | _ => true end
  | PDict d => match d with [] => false | _ => true end
  end.

Definition type_name (v : pyval) : string :=
  match v with
  | PNone => "NoneType"
  | PBool _ => "bool"
  | PInt _ => "int"
  | PFloat _ => "float"
  | PStr _ => "str"
  | PList _ => "list"
  | PDict _ => "dict"
  end.

(** [key in d] *)
Definition has_key (key : string) (d : list (string * pyval)) : bool :=
  existsb (fun kv => String.eqb (fst kv) key) d.

(** [d.get(key)]: [None] for a missing key. *)
Definition dict_get (d : list (string * pyval)) (key : string) : pyval :=
  match List.find (fun kv => String.eqb (fst kv) key) d with
  | Some kv => snd kv
  | None => PNone
  end.

(** [a or b] *)
Definition py_or (a b : pyval) : pyval := if truthy a then a else b.

Definition AttributeError (v : pyval) (attribute : string) : Exception :=
  Raised ("'" +:+ type_name v +:+ "' object has no attribute '" +:+ attribute +:+ "'").

Definition TypeError_not_iterable (v : pyval) : Exception :=
  Raised ("'" +:+ type_name v +:+ "' object is not iterable").

(** The list the function reads the foods from. *)
Definition foods_list_of (foods_data : pyval) : pyval :=
  match foods_data with
  | PList _ => foods_data
  | PDict d =>
      if has_key "foods" d then dict_get d "foods"
      else if has_key "items" d then dict_get d "items"
      else if has_key "data" d then dict_get d "data"
      else PList [foods_data]
  | _ => PList []
  end.

(** What a [for] loop over the value visits: the elements of a list, the
    keys of a dict, the characters of a string; other values cannot be
    iterated. *)
Definition iterate (v : pyval) : outcome (list pyval) :=
  match v with
  | PList l => Ok l
  | PDict d => Ok (map (fun kv => PStr (fst kv)) d)
  | PStr s => Ok (map (fun c => PStr (String c EmptyString)) (String.list_ascii_of_string s))
  | other => Raise (TypeError_not_iterable other)
  end.

Definition attributes : list string :=
  [ "description"; "ingredients"; "nutrition"; "calories";
    "country"; "origin"; "cuisine"; "category"; "type";
    "preparation"; "cooking_method"; "allergens"; "dietary_info";
    "taste"; "texture"; "color"; "season"; "benefits" ].

(** [tags.append(food[key].lower())] when [food.get(key)] is true: a value
    that is true and not a string has no [lower]. *)
Definition tag_of (d : list (string * pyval)) (key : string) : outcome (list string) :=
  let value := dict_get d key in
  if truthy value then
    match value with
    | PStr s => Ok [Py.lower s]
    | other => Raise (AttributeError other "lower")
    end
  else Ok [].

Section Chunks.

Variable py_str : pyval -> string.

(** The part of the description an attribute contributes. *)
Definition attribute_part (d : list (string * pyval)) (attr : string) : list string :=
  let value := dict_get d attr in
  if truthy value then
    match value with
    | PList l =>
        [Py.title (Py.replace_char "_" " " attr) +:+ ": " +:+ Py.join ", " (map py_str l)]
    | _ => [Py.title (Py.replace_char "_" " " attr) +:+ ": " +:+ py_str value]
    end
  else [].

(** One round of the loop: the chunk of the food at index [i]. *)
Definition chunk_of (i : nat) (food : pyval) : outcome FoodChunk :=
  match food with
  | PDict d =>
      let name :=
        py_or (dict_get d "name")
          (py_or (dict_get d "food_name")
             (py_or (dict_get d "title")
                (PStr ("Food Item " +:+ Py.str_of_nat (i + 1))))) in
      let content_parts :=
        ["Food: " +:+ py_str name] ++ flat_map (attribute_part d) attributes in
      let content := Py.join ". " content_parts in
      let tags := ["food"] in
      do country <- tag_of d "country" ;;;
      do cuisine <- tag_of d "cuisine" ;;;
      do category <- tag_of d "category" ;;;
      do type <- tag_of d "type" ;;;
      let tags := tags ++ country ++ cuisine ++ category ++ type in
      Ok {| fc_id := "food_" +:+ Py.str_of_nat (i + 1);
            fc_title := name;
            fc_content := content;
            fc_type := "food_item";
            fc_category := "nutrition";
            fc_tags := tags;
            fc_original_data := food |}
  | other => Raise (AttributeError other "get")
  end.

(** The loop over [enumerate(foods_list)], from index [i] on. *)
Fixpoint chunks_from (i : nat) (foods : list pyval) : outcome (list FoodChunk) :=
  match foods with
  | [] => Ok []
  | food :: rest =>
      do chunk <- chunk_of i food ;;;
      do chunks <- chunks_from (S i) rest ;;;
      Ok (chunk :: chunks)
  end.

Definition create_food_chunks (foods_data : pyval) : outcome (list FoodChunk) :=
  do foods <- iterate (foods_list_of foods_data) ;;;
  chunks_from 0 foods.

End Chunks.

End CreateFoodChunks.

(** A value the tag of a food can be made of: a string, or a value that
    is false and so is skipped. *)
Definition tag_value_ok (v : pyval) : bool :=
  negb (CreateFoodChunks.truthy v) || match v with PStr _ => true | _ => false end.

(** A food the conversion accepts: a dict whose country, cuisine, category
    and type are such values. *)
Definition food_ok (food : pyval) : bool :=
  match food with
  | PDict d =>
      forallb (fun key => tag_value_ok (CreateFoodChunks.dict_get d key))
              ["country"; "cuisine"; "category"; "type"]
  | _ => false
  end.

(** A conversion of values to text, for the examples: strings as they are,
    integers in decimal. *)
Definition sample_str (v : pyval) : string :=
  match v with
  | PStr s => s
  | PInt z => pretty z
  | _ => EmptyString
  end.

(** The foods file of the script's usage message. *)
Definition sample_foods : pyval :=
  PList [ PDict [ ("name", PStr "Apple"); ("description", PStr "Fresh red apple");
                  ("country", PStr "Australia"); ("calories", PInt 95);
                  ("nutrition", PStr "High in fiber and vitamin C") ] ].

(** The typed reading of a food chunk, as the upload takes it: there is
    one when the title is a string. *)
Definition as_content_chunk (chunk : CreateFoodChunks.FoodChunk) : option ContentChunk :=
  match CreateFoodChunks.fc_title chunk with
  | PStr s =>
      Some {| c_id := CreateFoodChunks.fc_id chunk;
              c_title := s;
              c_content := CreateFoodChunks.fc_content chunk;
              c_type := CreateFoodChunks.fc_type chunk;
              c_category := CreateFoodChunks.fc_category chunk;
              c_tags := CreateFoodChunks.fc_tags chunk |}
  | _ => None
  end.

(** The id of a vector. *)
Definition vector_id (v : vector) : string := fst (fst v).

(** * Properties *)


(** ** The string primitives and the matcher meet their descriptions *)

Lemma append_cons (a : ascii) (s t : string) : String a s +:+ t = String a (s +:+ t).
Proof. reflexivity. Qed.

Lemma startswith_spec (p s : string) :
  Py.startswith p s = true <-> exists t, s = p +:+ t.
Proof.
  revert s. induction p as [|a p IH]; intros s.
  - split; [intros _; by exists s|reflexivity].
  - destruct s as [|b s]; cbn [Py.startswith].
    + split; [discriminate|]. intros [t Ht]. rewrite append_cons in Ht. discriminate.
    + destruct (Ascii.eqb a b) eqn:Hab.
      * apply Ascii.eqb_eq in Hab as ->. rewrite IH. split.
        -- intros [t ->]. by exists t.
        -- intros [t Ht]. rewrite append_cons in Ht. injection Ht as ->. by exists t.
      * split; [discriminate|]. intros [t Ht]. rewrite append_cons in Ht.
        injection Ht as -> _. by rewrite Ascii.eqb_refl in Hab.
Qed.

(** [sub in s] holds exactly when [s] is some text, then [sub], then some
    text. *)
Lemma str_in_spec (sub s : string) :
  Py.str_in sub s = true <-> exists a b, s = a +:+ sub +:+ b.
Proof.
  induction s as [|c s IH].
  - cbn [Py.str_in]. destruct (Py.startswith sub EmptyString) eqn:Hp.
    + split; [|reflexivity]. intros _. apply startswith_spec in Hp as [t Ht].
      by exists EmptyString, t.
    + split; [discriminate|]. intros (a & b & Hab).
      destruct a; [|rewrite append_cons in Hab; discriminate].
      assert (Py.startswith sub EmptyString = true)
        by (apply startswith_spec; by exists b).
      congruence.
  - cbn [Py.str_in]. destruct (Py.startswith sub (String c s)) eqn:Hp.
    + split; [|reflexivity]. intros _. apply startswith_spec in Hp as [t Ht].
      by exists EmptyString, t.
    + rewrite IH. split.
      * intros (a & b & ->). by exists (String c a), b.
      * intros (a & b & Hab). destruct a as [|c' a].
        -- assert (Py.startswith sub (String c s) = true)
             by (apply startswith_spec; by exists b).
           congruence.
        -- rewrite append_cons in Hab. injection Hab as -> ->. by exists a, b.
Qed.

Example split_sample :
  Py.split ("  **Task:** I needed" +:+ nl +:+ nl +:+ "to learn ") = ["**Task:**"; "I"; "needed"; "to"; "learn"].
Proof. vm_compute. reflexivity. Qed.

Lemma elem_of_flat_map {A B : Type} (f : A -> list B) (l : list A) (y : B) :
  y ∈ flat_map f l <-> exists x, x ∈ l /\ y ∈ f x.
Proof.
  rewrite list_elem_of_In, in_flat_map. split; intros (x & Hx & Hy); exists x.
  - by rewrite !list_elem_of_In.
  - by rewrite <- !list_elem_of_In.
Qed.

Lemma elem_of_eat (ok : ascii -> bool) (p q : Re.pos) :
  q ∈ Re.eat ok p <->
  exists a t, snd p = a :: t /\ ok a = true /\ q = (Some a, t).
Proof.
  unfold Re.eat. destruct (snd p) as [|a t].
  - split; [by intros ?%elem_of_nil|]. by intros (? & ? & ? & _).
  - destruct (ok a) eqn:Ha.
    + rewrite list_elem_of_singleton. split.
      * intros ->. by exists a, t.
      * by intros (? & ? & [= <- <-] & _ & ->).
    + split; [by intros ?%elem_of_nil|]. intros (? & ? & [= <- <-] & ? & _). congruence.
Qed.

Lemma elem_of_star_succ (f : Re.pos -> list Re.pos) (n : nat) (p q : Re.pos) :
  q ∈ Re.star f (S n) p <->
  q = p \/ exists p', p' ∈ f p /\ (length (snd p') < length (snd p))%nat
                      /\ q ∈ Re.star f n p'.
Proof.
  cbn [Re.star]. rewrite elem_of_cons, elem_of_flat_map. split.
  - intros [->|(p' & Hp' & Hq)]; [by left|right].
    destruct (Nat.ltb_spec (length (snd p')) (length (snd p))) as [Hlt|Hge].
    + by exists p'.
    + by apply elem_of_nil in Hq.
  - intros [->|(p' & Hp' & Hlt & Hq)]; [by left|right].
    exists p'. split; [exact Hp'|]. by apply Nat.ltb_lt in Hlt as ->.
Qed.

Lemma star_sound (r : Re.regex) :
  (forall p q, q ∈ Re.step r p -> matches r p q) ->
  forall n p q, q ∈ Re.star (Re.step r) n p -> matches (Re.Star r) p q.
Proof.
  intros Hr. induction n as [|n IH]; intros p q.
  - cbn. intros ->%list_elem_of_singleton. constructor.
  - intros [->|(p' & Hp' & _ & Hq)]%elem_of_star_succ; [constructor|].
    eapply matches_star_cons; [by apply Hr|by apply IH].
Qed.

(** Every end position the matcher lists is a match. *)
Lemma step_sound (r : Re.regex) : forall p q, q ∈ Re.step r p -> matches r p q.
Proof.
  induction r as [|c| | | | |r1 IH1 r2 IH2|r1 IH1 r2 IH2|r IH]; intros p q; cbn [Re.step].
  - intros ->%list_elem_of_singleton. constructor.
  - intros (a & t & Hp & ->%Ascii.eqb_eq & ->)%elem_of_eat.
    destruct p as [prev s]; cbn in Hp; subst s. constructor.
  - intros (a & t & Hp & Ha & ->)%elem_of_eat.
    destruct p as [prev s]; cbn in Hp; subst s. constructor.
    by apply negb_true_iff.
  - intros (a & t & Hp & Ha & ->)%elem_of_eat.
    destruct p as [prev s]; cbn in Hp; subst s. by constructor.
  - intros (a & t & Hp & Ha & ->)%elem_of_eat.
    destruct p as [prev s]; cbn in Hp; subst s. by constructor.
  - destruct (Re.at_boundary p) eqn:Hb; [|by intros ?%elem_of_nil].
    intros ->%list_elem_of_singleton. by constructor.
  - intros (m & Hm & Hq)%elem_of_flat_map. eapply matches_cat; eauto.
  - intros [H|H]%elem_of_app; [apply matches_alt_l|apply matches_alt_r]; auto.
  - by apply star_sound.
Qed.

(** A match never moves backwards, and one that consumes nothing ends
    where it began. *)
Lemma matches_shrinks (r : Re.regex) (p q : Re.pos) :
  matches r p q ->
  (length (snd q) <= length (snd p))%nat
  /\ (length (snd q) = length (snd p) -> q = p).
Proof.
  induction 1 as [p|c prev t|a prev t Ha|a prev t Ha|a prev t Ha|p Hb
                  |r1 r2 p q s _ [IH1 IH1'] _ [IH2 IH2']
                  |r1 r2 p q _ IH|r1 r2 p q _ IH
                  |r p|r p q s _ [IH1 IH1'] _ [IH2 IH2']];
    cbn [snd length]; try (split; [lia|]; intros; (reflexivity || lia)); try exact IH.
  - split; [lia|]. intros He.
    assert (q = p) by (apply IH1'; lia). subst q. by apply IH2'.
  - split; [lia|]. intros He.
    assert (q = p) by (apply IH1'; lia). subst q. by apply IH2'.
Qed.

Lemma star_fuel_mono (f : Re.pos -> list Re.pos) (n m : nat) (p q : Re.pos) :
  (n <= m)%nat -> q ∈ Re.star f n p -> q ∈ Re.star f m p.
Proof.
  revert m p. induction n as [|n IH]; intros m p Hnm.
  - cbn. intros ->%list_elem_of_singleton.
    destruct m; [by left|]. apply elem_of_star_succ. by left.
  - destruct m as [|m]; [lia|].
    intros [->|(p' & Hp' & Hlt & Hq)]%elem_of_star_succ; apply elem_of_star_succ;
      [by left|right].
    exists p'. split; [exact Hp'|split; [exact Hlt|]]. apply IH; [lia|exact Hq].
Qed.

(** Every match is among the end positions the matcher lists. *)
Lemma step_complete (r : Re.regex) (p q : Re.pos) : matches r p q -> q ∈ Re.step r p.
Proof.
  induction 1 as [p|c prev t|a prev t Ha|a prev t Ha|a prev t Ha|p Hb
                  |r1 r2 p q s _ IH1 _ IH2
                  |r1 r2 p q _ IH|r1 r2 p q _ IH
                  |r p|r p q s H1 IH1 H2 IH2];
    cbn [Re.step].
  - by left.
  - apply elem_of_eat. exists c, t. by rewrite Ascii.eqb_refl.
  - apply elem_of_eat. exists a, t. by rewrite Ha.
  - apply elem_of_eat. by exists a, t.
  - apply elem_of_eat. by exists a, t.
  - rewrite Hb. by left.
  - apply elem_of_flat_map. by exists q.
  - apply elem_of_app. by left.
  - apply elem_of_app. by right.
  - destruct (length (snd p)); [by left|]. apply elem_of_star_succ. by left.
  - destruct (matches_shrinks r p q H1) as [Hle Heq].
    destruct (decide (length (snd q) = length (snd p))) as [He|Hne].
    + rewrite (Heq He) in IH2. exact IH2.
    + cbn [Re.step] in IH2.
      destruct (length (snd p)) as [|n] eqn:Hn; [lia|].
      apply elem_of_star_succ. right. exists q.
      split; [exact IH1|split; [lia|]].
      apply (star_fuel_mono _ (length (snd q))); [lia|exact IH2].
Qed.

Lemma prev_after_cons (prev : option ascii) (c : ascii) (a : list ascii) :
  prev_after prev (c :: a) = prev_after (Some c) a.
Proof.
  unfold prev_after. destruct a as [|d a]; [reflexivity|].
  rewrite last_cons_cons. destruct (last (d :: a)) eqn:Hl; [reflexivity|].
  apply last_None in Hl. discriminate.
Qed.

(** [search_from] answers whether the expression matches from some
    position of the text. *)
Lemma search_from_spec (r : Re.regex) (s : list ascii) (prev : option ascii) :
  Re.search_from r prev s = true <->
  exists a b q, s = a ++ b /\ matches r (prev_after prev a, b) q.
Proof.
  revert prev. induction s as [|c s IH]; intros prev.
  - cbn [Re.search_from]. unfold Re.matches_at.
    destruct (Re.step r (prev, [])) as [|q l] eqn:Hs.
    + split; [discriminate|]. intros (a & b & q & Hab & Hm).
      symmetry in Hab. apply app_eq_nil in Hab as [-> ->].
      apply step_complete in Hm. cbn in Hm. rewrite Hs in Hm.
      by apply elem_of_nil in Hm.
    + split; [|reflexivity]. intros _. exists [], [], q. split; [reflexivity|].
      apply step_sound. cbn. rewrite Hs. by left.
  - cbn [Re.search_from]. unfold Re.matches_at.
    destruct (Re.step r (prev, c :: s)) as [|q l] eqn:Hs.
    + rewrite IH. split.
      * intros (a & b & q & -> & Hm). exists (c :: a), b, q.
        split; [reflexivity|]. by rewrite prev_after_cons.
      * intros (a & b & q & Hab & Hm). destruct a as [|c' a].
        -- cbn in Hab. subst b. apply step_complete in Hm. cbn in Hm.
           rewrite Hs in Hm. by apply elem_of_nil in Hm.
        -- injection Hab as <- ->. exists a, b, q. split; [reflexivity|].
           rewrite prev_after_cons in Hm. exact Hm.
    + split; [|reflexivity]. intros _. exists [], (c :: s), q. split; [reflexivity|].
      apply step_sound. cbn. rewrite Hs. by left.
Qed.

(** [re.search(pattern, text)] is true exactly when the pattern parses to
    an expression that matches from some position of the text. *)
Lemma search_spec (pattern text : string) :
  Re.search pattern text = true <->
  exists r, Re.parse pattern = Some r
            /\ exists a b q, String.list_ascii_of_string text = a ++ b
                             /\ matches r (prev_after None a, b) q.
Proof.
  unfold Re.search. destruct (Re.parse pattern) as [r|].
  - rewrite search_from_spec. split.
    + intros H. by exists r.
    + by intros (r' & [= <-] & H).
  - split; [discriminate|]. by intros (r & [=] & _).
Qed.
(** ** Properties of the classifier *)

Section FirstMatch.
Context {A : Type} (f : A -> bool).

Lemma find_none_iff (l : list A) :
  (forall x, x ∈ l -> f x = false) -> List.find f l = None.
Proof.
  induction l as [|a l IH]; intros H; [reflexivity|].
  cbn. rewrite (H a) by (left). apply IH. intros x Hx. apply H. by right.
Qed.

Lemma find_first_match (pre post : list A) (g : A) :
  f g = true -> (forall h, h ∈ pre -> f h = false) ->
  List.find f (pre ++ g :: post) = Some g.
Proof.
  intros Hg. induction pre as [|a pre IH]; intros Hpre; cbn.
  - by rewrite Hg.
  - rewrite (Hpre a) by (left). apply IH. intros h Hh. apply Hpre. by right.
Qed.
End FirstMatch.

(** Every pattern of the sources lies in the parsed fragment. *)
Lemma source_patterns_parse :
  forallb (fun p => bool_decide (is_Some (Re.parse p))) source_patterns = true.
Proof. vm_compute. reflexivity. Qed.

(** The sample questions of the test script: five get the intent the
    script expects; "Tell me about your Food RAG Explorer", for which it
    expects PROJECT_SPECIFIC, gets GENERAL, since the pattern with capital
    letters cannot match a lower-cased question. *)
Example classify_query_samples :
  map QueryClassifier.classify_query
    [ "Tell me about a challenging project you worked on";
      "Explain your experience with RAG systems";
      "Why do you want to work at our company?";
      "What are your salary expectations?";
      "When can you start?";
      "Tell me about your Food RAG Explorer" ]
  = [BEHAVIORAL; TECHNICAL; COMPANY_SPECIFIC; SALARY_LOCATION; AVAILABILITY; GENERAL].
Proof. vm_compute. reflexivity. Qed.

Lemma classify_query_refines (q : string) :
  QueryClassifier.classify_query q = ClassifierSpec.classify_by_priority q.
Proof.
  unfold QueryClassifier.classify_query, ClassifierSpec.classify_by_priority,
    ClassifierSpec.priority_order, ClassifierSpec.group_matches.
  cbn [List.find snd fst].
  repeat (match goal with
          | |- context [Re.any_search ?p ?t] => destruct (Re.any_search p t)
          end; try reflexivity).
Qed.

(** C3. [classify_query] is total and deterministic: every question gets
    one of the seven intents the classifier can produce, equal inputs get
    equal results, the result is GENERAL when no pattern group matches the
    lower-cased question, and when several groups match, the group that
    comes first in the order BEHAVIORAL, TECHNICAL, PROJECT_SPECIFIC,
    COMPANY_SPECIFIC, SALARY_LOCATION, AVAILABILITY gives the result. *)
Theorem classify_query_total_priority (q : string) :
  (exists t, QueryClassifier.classify_query q = t /\
             t ∈ [BEHAVIORAL; TECHNICAL; PROJECT_SPECIFIC; COMPANY_SPECIFIC;
                  SALARY_LOCATION; AVAILABILITY; GENERAL])
  /\ (forall q', q' = q ->
        QueryClassifier.classify_query q' = QueryClassifier.classify_query q)
  /\ ((forall g, g ∈ ClassifierSpec.priority_order ->
         ClassifierSpec.group_matches q g = false) ->
      QueryClassifier.classify_query q = GENERAL)
  /\ (forall pre g post,
        ClassifierSpec.priority_order = pre ++ g :: post ->
        ClassifierSpec.group_matches q g = true ->
        (forall h, h ∈ pre -> ClassifierSpec.group_matches q h = false) ->
        QueryClassifier.classify_query q = fst g).
Proof.
  repeat split.
  - eexists; split; [reflexivity|].
    unfold QueryClassifier.classify_query.
    repeat (match goal with
            | |- context [Re.any_search ?p ?t] => destruct (Re.any_search p t)
            end; [set_solver|]).
    set_solver.
  - intros q' ->. reflexivity.
  - intros Hnone. rewrite classify_query_refines.
    unfold ClassifierSpec.classify_by_priority.
    by rewrite (find_none_iff _ _ Hnone).
  - intros pre g post Hsplit Hg Hpre. rewrite classify_query_refines.
    unfold ClassifierSpec.classify_by_priority.
    rewrite Hsplit. by rewrite (find_first_match _ pre post g Hg Hpre).
Qed.

(** A question that the TECHNICAL and the PROJECT_SPECIFIC group both
    match and the BEHAVIORAL group does not: TECHNICAL wins. *)
Lemma classify_query_total_priority_witness :
  ClassifierSpec.group_matches "Explain the database of your project"
    (PROJECT_SPECIFIC, QueryClassifier.project_patterns) = true
  /\ QueryClassifier.classify_query "Explain the database of your project" = TECHNICAL.
Proof.
  split; [vm_compute; reflexivity|].
  destruct (classify_query_total_priority "Explain the database of your project")
    as (_ & _ & _ & Hprio).
  apply (Hprio [(BEHAVIORAL, QueryClassifier.behavioral_patterns)]
               (TECHNICAL, QueryClassifier.technical_patterns)
               [ (PROJECT_SPECIFIC, QueryClassifier.project_patterns);
                 (COMPANY_SPECIFIC, QueryClassifier.company_patterns);
                 (SALARY_LOCATION, QueryClassifier.salary_patterns);
                 (AVAILABILITY, QueryClassifier.availability_patterns) ]).
  - reflexivity.
  - vm_compute; reflexivity.
  - intros h Hh. apply list_elem_of_singleton in Hh. subst h. vm_compute; reflexivity.
Defined.

(** ** Properties of namespace-scoped retrieval *)

Lemma collect_closed_form (n : string) (results : list QueryResult) :
  forall acc,
    match NamespacedRAGSystem.collect n results acc with
    | Ok out =>
        out = acc ++ map NamespacedRAGSystem.chunk_info (List.filter (derives n) results)
        /\ forallb printable
             (map NamespacedRAGSystem.chunk_info (List.filter (derives n) results)) = true
    | Raise _ =>
        forallb printable
          (map NamespacedRAGSystem.chunk_info (List.filter (derives n) results)) = false
    end.
Proof.
  induction results as [|h rest IH]; intros acc.
  - cbn. by rewrite app_nil_r.
  - cbn [NamespacedRAGSystem.collect List.filter].
    change (NamespacedRAGSystem.metadata_get h "namespace" (PStr "unknown"))
      with (derived_namespace h).
    assert (Hd : derives n h = negb (NamespacedRAGSystem.ne_str (derived_namespace h) n))
      by reflexivity.
    destruct (NamespacedRAGSystem.ne_str (derived_namespace h) n);
      cbn [negb] in Hd; rewrite Hd.
    + apply IH.
    + cbn [map forallb]. unfold printable at 1 3.
      destruct (NamespacedRAGSystem.print_chunk (NamespacedRAGSystem.chunk_info h));
        cbn [obind andb]; [|reflexivity].
      specialize (IH (acc ++ [NamespacedRAGSystem.chunk_info h])).
      destruct (NamespacedRAGSystem.collect n rest _); [|exact IH].
      destruct IH as [-> Hp]. split; [|exact Hp].
      by rewrite <- app_assoc.
Qed.

(** What a namespace query returns and which call it makes, for any
    behaviour of the store. *)
Lemma query_namespace_run (w : Services) (q n : string) (k : Z) :
  run w (NamespacedRAGSystem.query_namespace q n k)
  = (match index_query w q k true with
     | Ok raw => filtered n raw
     | Raise _ => []
     end, [EvQuery q k true]).
Proof.
  unfold NamespacedRAGSystem.query_namespace. cbn [run]. f_equal.
  unfold NamespacedRAGSystem.query_namespace_body.
  destruct (index_query w q k true) as [raw|e]; cbn [obind]; [|reflexivity].
  unfold filtered.
  destruct raw as [|h rest]; [reflexivity|].
  pose proof (collect_closed_form n (h :: rest) []) as H.
  destruct (NamespacedRAGSystem.collect n (h :: rest) []).
  - destruct H as [-> ->]. reflexivity.
  - by rewrite H.
Qed.

Lemma elem_of_filtered (n : string) (raw : list QueryResult) (c : NamespacedRAGSystem.ChunkInfo) :
  c ∈ filtered n raw ->
  exists h, h ∈ raw /\ derives n h = true /\ c = NamespacedRAGSystem.chunk_info h.
Proof.
  unfold filtered. destruct (forallb printable _); [|by intros ?%elem_of_nil].
  intros Hc. apply list_elem_of_fmap in Hc as (h & -> & Hh).
  apply list_elem_of_In, filter_In in Hh as [Hh Hd].
  exists h. by rewrite list_elem_of_In.
Qed.

Lemma derives_inv (n : string) (h : QueryResult) :
  derives n h = true -> derived_namespace h = PStr n.
Proof.
  unfold derives, NamespacedRAGSystem.ne_str.
  destruct (derived_namespace h); try discriminate.
  rewrite negb_involutive. intros ?%String.eqb_eq. by subst.
Qed.

Lemma derives_metadata (n : string) (h : QueryResult) :
  n <> "unknown" -> derives n h = true ->
  exists md, hit_metadata h = Some md /\ md !! "namespace" = Some (PStr n).
Proof.
  intros Hn Hd%derives_inv. revert Hd.
  unfold derived_namespace, NamespacedRAGSystem.metadata_get.
  destruct (hit_metadata h) as [md|]; [|intros [=]; congruence].
  case_bool_decide; [intros [=]; congruence|].
  destruct (md !! "namespace") as [v|] eqn:Hv; [|intros [=]; congruence].
  intros ->. by exists md.
Qed.

Lemma metadata_less_derives (h : QueryResult) :
  hit_metadata h = None -> derived_namespace h = PStr "unknown".
Proof.
  unfold derived_namespace, NamespacedRAGSystem.metadata_get. by intros ->.
Qed.

Lemma other_namespace_not_derived (n other : string) (h : QueryResult) (md : gmap string pyval) :
  hit_metadata h = Some md -> md !! "namespace" = Some (PStr other) -> other <> n ->
  derives n h = false.
Proof.
  intros Hmd Hns Hne.
  unfold derives, derived_namespace, NamespacedRAGSystem.metadata_get.
  rewrite Hmd. case_bool_decide as He.
  - subst md. by rewrite lookup_empty in Hns.
  - rewrite Hns. cbn. rewrite negb_involutive. by apply String.eqb_neq.
Qed.

Lemma no_hit_derived (n : string) (raw : list QueryResult) :
  (forall h, h ∈ raw ->
     exists md other, hit_metadata h = Some md
                      /\ md !! "namespace" = Some (PStr other) /\ other <> n) ->
  List.filter (derives n) raw = [].
Proof.
  induction raw as [|h rest IH]; intros Hall; [reflexivity|].
  cbn. destruct (Hall h) as (md & other & Hmd & Hns & Hne); [left|].
  rewrite (other_namespace_not_derived n other h md Hmd Hns Hne).
  apply IH. intros h' Hh'. apply Hall. by right.
Qed.

Lemma chunk_namespace (h : QueryResult) :
  NamespacedRAGSystem.namespace (NamespacedRAGSystem.chunk_info h) = derived_namespace h.
Proof. reflexivity. Qed.

(** C1. A query for the namespace "dt" or "food" returns only chunks
    whose hit carries that namespace in its metadata, whatever the store
    answers: nothing of namespace "food" or "foods" in a "dt" query and
    nothing of "dt" or "digitaltwin" in a "food" query; a hit without
    metadata is dropped; and when every hit belongs to another namespace,
    or the store raises, the result is the empty list. *)
Theorem query_namespace_isolates (w : Services) (q n : string) (k : Z) :
  n = "dt" \/ n = "food" ->
  let res := fst (run w (NamespacedRAGSystem.query_namespace q n k)) in
  (forall c, c ∈ res ->
     NamespacedRAGSystem.namespace c = PStr n
     /\ (n = "dt" -> NamespacedRAGSystem.namespace c <> PStr "food"
                     /\ NamespacedRAGSystem.namespace c <> PStr "foods")
     /\ (n = "food" -> NamespacedRAGSystem.namespace c <> PStr "dt"
                       /\ NamespacedRAGSystem.namespace c <> PStr "digitaltwin")
     /\ exists raw h md,
          index_query w q k true = Ok raw /\ h ∈ raw
          /\ c = NamespacedRAGSystem.chunk_info h
          /\ hit_metadata h = Some md /\ md !! "namespace" = Some (PStr n))
  /\ (forall raw h,
        index_query w q k true = Ok raw -> h ∈ raw -> hit_metadata h = None ->
        NamespacedRAGSystem.chunk_info h ∉ res)
  /\ (forall raw,
        index_query w q k true = Ok raw ->
        (forall h, h ∈ raw ->
           exists md other, hit_metadata h = Some md
                            /\ md !! "namespace" = Some (PStr other) /\ other <> n) ->
        res = [])
  /\ (forall e, index_query w q k true = Raise e -> res = []).
Proof.
  intros Hn res.
  assert (Hunk : n <> "unknown") by (destruct Hn; subst n; discriminate).
  assert (Hres : forall c, c ∈ res ->
            exists raw h, index_query w q k true = Ok raw /\ h ∈ raw
                          /\ derives n h = true /\ c = NamespacedRAGSystem.chunk_info h).
  { subst res. rewrite query_namespace_run. cbn [fst].
    destruct (index_query w q k true) as [raw|e]; [|by intros c ?%elem_of_nil].
    intros c (h & Hh & Hd & ->)%elem_of_filtered. by exists raw, h. }
  repeat split.
  - apply Hres in H as (raw & h & _ & _ & Hd & ->).
    rewrite chunk_namespace. by apply derives_inv.
  - apply Hres in H as (raw & h & _ & _ & Hd%derives_inv & ->).
    rewrite chunk_namespace, Hd. subst n. discriminate.
  - apply Hres in H as (raw & h & _ & _ & Hd%derives_inv & ->).
    rewrite chunk_namespace, Hd. subst n. discriminate.
  - apply Hres in H as (raw & h & _ & _ & Hd%derives_inv & ->).
    rewrite chunk_namespace, Hd. subst n. discriminate.
  - apply Hres in H as (raw & h & _ & _ & Hd%derives_inv & ->).
    rewrite chunk_namespace, Hd. subst n. discriminate.
  - apply Hres in H as (raw & h & Hq & Hh & Hd & ->).
    destruct (derives_metadata n h Hunk Hd) as (md & Hmd & Hns).
    by exists raw, h, md.
  - intros raw h Hq Hh Hnone Hin.
    apply Hres in Hin as (raw' & h' & _ & _ & Hd%derives_inv & Hc).
    apply (f_equal NamespacedRAGSystem.namespace) in Hc.
    rewrite !chunk_namespace, Hd, (metadata_less_derives h Hnone) in Hc.
    congruence.
  - intros raw Hq Hall. subst res. rewrite query_namespace_run, Hq. cbn [fst].
    unfold filtered.
    by rewrite (no_hit_derived n raw Hall).
  - intros e Hq. subst res. by rewrite query_namespace_run, Hq.
Qed.

(** The scenario of the specification: a "dt" query against a store that
    holds food chunks only returns the empty list. *)
Lemma query_namespace_isolates_witness :
  ("dt" = "dt" \/ "dt" = "food")
  /\ fst (run food_only_store
            (NamespacedRAGSystem.query_namespace "nutrition protein" "dt" 3)) = [].
Proof.
  split; [left; reflexivity|].
  destruct (query_namespace_isolates food_only_store "nutrition protein" "dt" 3
              (or_introl eq_refl)) as (_ & _ & Hother & _).
  apply (Hother [hit_in "food-food_1" "food"; hit_in "food-food_2" "food"]);
    [reflexivity|].
  intros h Hh.
  exists (<["namespace" := PStr "food"]> (<["title" := PStr (hit_id h)]> ∅)), "food".
  apply list_elem_of_In in Hh. cbn in Hh.
  destruct Hh as [<-|[<-|[]]]; (split; [reflexivity|split; [reflexivity|discriminate]]).
Defined.

(** C10, as stated, fails: with the namespace argument "unknown" the query
    also returns a hit that has metadata but no [namespace] entry, so the
    result is not the list of metadata-less hits. *)
Lemma unknown_query_not_only_metadata_less :
  fst (run (ranked_store [bare_hit "a"; legacy_hit])
         (NamespacedRAGSystem.query_namespace "anything" "unknown" 5))
  <> map NamespacedRAGSystem.chunk_info (List.filter metadata_less [bare_hit "a"; legacy_hit]).
Proof.
  intros H. apply (f_equal length) in H. vm_compute in H. discriminate.
Qed.

Lemma derives_unknown_iff (h : QueryResult) :
  derives "unknown" h = true <->
  hit_metadata h = None
  \/ exists md, hit_metadata h = Some md
                /\ (md = ∅ \/ md !! "namespace" = None
                    \/ md !! "namespace" = Some (PStr "unknown")).
Proof.
  unfold derives, derived_namespace, NamespacedRAGSystem.metadata_get.
  destruct (hit_metadata h) as [md|]; [|split; [by left|reflexivity]].
  case_bool_decide as He.
  { split; [|reflexivity]. intros _. right. exists md. split; [reflexivity|by left]. }
  destruct (md !! "namespace") as [v|] eqn:Hv.
  - split.
    + intros Hd. right. exists md. split; [reflexivity|]. right; right.
      unfold NamespacedRAGSystem.ne_str in Hd. destruct v; try discriminate.
      rewrite negb_involutive in Hd. apply String.eqb_eq in Hd. by subst.
    + intros [Hn|(md' & [= <-] & [Hm|[Hm|Hm]])]; try congruence.
      rewrite Hv in Hm. injection Hm as ->. reflexivity.
  - split; [|reflexivity]. intros _. right. exists md. split; [reflexivity|]. by right; left.
Qed.

(** C10, amended. With the namespace argument "unknown" the query returns
    exactly the chunks of the raw hits that derive the namespace 'unknown'
    (and nothing when the tags of one of them cannot be printed): these
    are the hits without metadata, which get the title 'Untitled', the
    empty content and the type 'unknown', and also the hits whose metadata
    is empty, has no [namespace] entry or has the entry 'unknown'.  Every
    other namespace argument excludes the hits without metadata. *)
Theorem query_namespace_unknown (w : Services) (q : string) (k : Z) (raw : list QueryResult) :
  index_query w q k true = Ok raw ->
  let chunks := map NamespacedRAGSystem.chunk_info (List.filter (derives "unknown") raw) in
  fst (run w (NamespacedRAGSystem.query_namespace q "unknown" k))
  = (if forallb printable chunks then chunks else [])
  /\ (forall h, hit_metadata h = None ->
        derives "unknown" h = true
        /\ printable (NamespacedRAGSystem.chunk_info h) = true
        /\ NamespacedRAGSystem.title (NamespacedRAGSystem.chunk_info h) = PStr "Untitled"
        /\ NamespacedRAGSystem.content (NamespacedRAGSystem.chunk_info h) = PStr EmptyString
        /\ NamespacedRAGSystem.type (NamespacedRAGSystem.chunk_info h) = PStr "unknown")
  /\ (forall h, derives "unknown" h = true <->
        hit_metadata h = None
        \/ exists md, hit_metadata h = Some md
                      /\ (md = ∅ \/ md !! "namespace" = None
                          \/ md !! "namespace" = Some (PStr "unknown")))
  /\ (forall n h, n <> "unknown" -> h ∈ raw -> hit_metadata h = None ->
        NamespacedRAGSystem.chunk_info h
          ∉ fst (run w (NamespacedRAGSystem.query_namespace q n k))).
Proof.
  intros Hq chunks. split; [|split; [|split]].
  - by rewrite query_namespace_run, Hq.
  - intros h Hnone.
    unfold derives, printable, NamespacedRAGSystem.print_chunk,
      NamespacedRAGSystem.chunk_info, derived_namespace, NamespacedRAGSystem.metadata_get.
    rewrite Hnone. cbn. repeat split; reflexivity.
  - apply derives_unknown_iff.
  - intros n h Hn Hh Hnone Hin.
    rewrite query_namespace_run, Hq in Hin. cbn [fst] in Hin.
    apply elem_of_filtered in Hin as (h' & _ & Hd%derives_inv & Hc).
    apply (f_equal NamespacedRAGSystem.namespace) in Hc.
    rewrite !chunk_namespace, Hd, (metadata_less_derives h Hnone) in Hc.
    congruence.
Qed.

Lemma query_namespace_unknown_witness :
  index_query (ranked_store [bare_hit "a"; legacy_hit; hit_in "dt-personal_1" "dt"])
    "anything" 5 true
  = Ok [bare_hit "a"; legacy_hit; hit_in "dt-personal_1" "dt"]
  /\ fst (run (ranked_store [bare_hit "a"; legacy_hit; hit_in "dt-personal_1" "dt"])
            (NamespacedRAGSystem.query_namespace "anything" "unknown" 5))
     = map NamespacedRAGSystem.chunk_info [bare_hit "a"; legacy_hit].
Proof.
  split; [reflexivity|].
  destruct (query_namespace_unknown
              (ranked_store [bare_hit "a"; legacy_hit; hit_in "dt-personal_1" "dt"])
              "anything" 5 [bare_hit "a"; legacy_hit; hit_in "dt-personal_1" "dt"]
              eq_refl) as [Hres _].
  rewrite Hres. vm_compute. reflexivity.
Defined.

(** C4. The call [query_namespace] makes asks the store for exactly
    [top_k] hits, not more, and hits are matched on the namespace metadata
    alone.  Against a ranking of three food hits above three digital-twin
    hits, a "dt" query for 3 chunks asks for 3 hits and returns nothing,
    where [query_vectors] of digitaltwin_rag.py asks for 9 and returns the
    three digital-twin hits; a hit with the id prefix [dt-] and no metadata
    is dropped as well. *)
Theorem query_namespace_underfetch :
  (forall w q n k,
     snd (run w (NamespacedRAGSystem.query_namespace q n k)) = [EvQuery q k true])
  /\ run (ranked_store food_first_ranking)
         (NamespacedRAGSystem.query_namespace "nutrition protein" "dt" 3)
     = ([], [EvQuery "nutrition protein" 3 true])
  /\ run (ranked_store food_first_ranking)
         (DigitalTwinRag.query_vectors "nutrition protein" 3)
     = (Some [hit_in "dt-personal_1" "dt"; hit_in "dt-availability_2" "dt";
              hit_in "dt-career_3" "dt"],
        [EvQuery "nutrition protein" 9 true])
  /\ run (ranked_store [bare_hit "dt-personal_1"])
         (NamespacedRAGSystem.query_namespace "nutrition protein" "dt" 3)
     = ([], [EvQuery "nutrition protein" 3 true]).
Proof.
  split; [|split; [|split]].
  - intros w q n k. by rewrite query_namespace_run.
  - vm_compute. reflexivity.
  - vm_compute. reflexivity.
  - vm_compute. reflexivity.
Qed.

Lemma generate_response_empty (py_str : pyval -> string) (w : Services) (q n : string) :
  run w (NamespacedRAGSystem.generate_response py_str q [] n) = (no_information n, []).
Proof. reflexivity. Qed.

(** Whatever the two services do, a namespace query ends with an
    answer: the placeholder after the one retrieval call when no chunk is
    found, and otherwise, after one completion call, the text of the
    completion service or the error text of its exception. *)
Lemma namespace_query_outcomes (py_str : pyval -> string) (w : Services)
    (q n : string) (k : Z) :
  let answer := fst (run w (NamespacedRAGSystem.namespace_query py_str n q k)) in
  let trace := snd (run w (NamespacedRAGSystem.namespace_query py_str n q k)) in
  (NamespacedRAGSystem.a_relevant_chunks answer = []
   /\ NamespacedRAGSystem.a_response answer = no_information n
   /\ trace = [EvQuery q k true])
  \/ (NamespacedRAGSystem.a_relevant_chunks answer <> []
      /\ exists request,
           trace = [EvQuery q k true; EvChat request]
           /\ (chat_create w request = Ok (NamespacedRAGSystem.a_response answer)
               \/ exists e, chat_create w request = Raise e
                            /\ NamespacedRAGSystem.a_response answer
                               = "Error generating response: " +:+ message_of e)).
Proof.
  unfold NamespacedRAGSystem.namespace_query, NamespacedRAGSystem.query_namespace.
  cbn [io_bind run].
  destruct (match NamespacedRAGSystem.query_namespace_body n (index_query w q k true) with
            | Ok relevant_chunks => relevant_chunks
            | Raise _ => []
            end) as [|c chunks].
  - left. cbn. repeat split; reflexivity.
  - right. cbn [NamespacedRAGSystem.generate_response io_bind run].
    match goal with
    | |- context [chat_create w ?r] =>
        set (request := r); destruct (chat_create w request) as [text|e] eqn:Hc
    end;
      cbn [fst snd NamespacedRAGSystem.a_response NamespacedRAGSystem.a_relevant_chunks];
      (split; [discriminate|]); exists request; (split; [reflexivity|]).
    + left. exact Hc.
    + right. exists e. split; [exact Hc|reflexivity].
Qed.

(** C8. When the store's query call raises, [query_namespace] returns the
    empty list; [generate_response] on an empty chunk list returns the
    placeholder without a call to the completion service; so a query whose
    retrieval fails ends with the placeholder and one call, the failed
    one; an exception of the completion service becomes an error text
    instead of propagating; and whatever the two services do, the query
    ends with an answer. *)
Theorem service_errors_are_absorbed (py_str : pyval -> string) (w : Services)
    (q n : string) (k : Z) (e : Exception) :
  index_query w q k true = Raise e ->
  run w (NamespacedRAGSystem.query_namespace q n k) = ([], [EvQuery q k true])
  /\ (forall w', run w' (NamespacedRAGSystem.generate_response py_str q [] n)
                 = (no_information n, []))
  /\ run w (NamespacedRAGSystem.namespace_query py_str n q k)
     = ({| NamespacedRAGSystem.a_query := q;
           NamespacedRAGSystem.a_namespace := n;
           NamespacedRAGSystem.a_relevant_chunks := [];
           NamespacedRAGSystem.a_response := no_information n;
           NamespacedRAGSystem.a_sources_count := 0 |},
        [EvQuery q k true])
  /\ (forall w' c chunks e',
        (forall request, chat_create w' request = Raise e') ->
        fst (run w' (NamespacedRAGSystem.generate_response py_str q (c :: chunks) n))
        = "Error generating response: " +:+ message_of e')
  /\ (forall w',
        let answer := fst (run w' (NamespacedRAGSystem.namespace_query py_str n q k)) in
        let trace := snd (run w' (NamespacedRAGSystem.namespace_query py_str n q k)) in
        (NamespacedRAGSystem.a_relevant_chunks answer = []
         /\ NamespacedRAGSystem.a_response answer = no_information n
         /\ trace = [EvQuery q k true])
        \/ (NamespacedRAGSystem.a_relevant_chunks answer <> []
            /\ exists request,
                 trace = [EvQuery q k true; EvChat request]
                 /\ (chat_create w' request = Ok (NamespacedRAGSystem.a_response answer)
                     \/ exists e', chat_create w' request = Raise e'
                                   /\ NamespacedRAGSystem.a_response answer
                                      = "Error generating response: " +:+ message_of e'))).
Proof.
  intros Hq. split; [|split; [|split; [|split]]]; [| | | |intros w'; apply namespace_query_outcomes].
  - by rewrite query_namespace_run, Hq.
  - intros w'. apply generate_response_empty.
  - unfold NamespacedRAGSystem.namespace_query, NamespacedRAGSystem.query_namespace.
    cbn [io_bind run]. rewrite Hq. reflexivity.
  - intros w' c chunks e' Hchat.
    cbn [NamespacedRAGSystem.generate_response run]. rewrite Hchat. reflexivity.
Qed.

Lemma service_errors_are_absorbed_witness :
  index_query (failing_store (Raised "connection timed out")) "nutrition protein" 5 true
  = Raise (Raised "connection timed out")
  /\ NamespacedRAGSystem.a_response
       (fst (run (failing_store (Raised "connection timed out"))
               (NamespacedRAGSystem.digital_twin_query (fun _ => EmptyString)
                  "nutrition protein" 5)))
     = "I couldn't find relevant information in the 'dt' namespace for your query.".
Proof.
  split; [reflexivity|].
  destruct (service_errors_are_absorbed (fun _ => EmptyString)
              (failing_store (Raised "connection timed out"))
              "nutrition protein" "dt" 5 (Raised "connection timed out") eq_refl)
    as (_ & _ & Hflow & _).
  unfold NamespacedRAGSystem.digital_twin_query. rewrite Hflow. reflexivity.
Defined.

(** ** Properties of the upload *)

Lemma batches_go_elem {A : Type} (fuel size : nat) (l b : list A) (v : A) :
  b ∈ batches_go fuel size l -> v ∈ b -> v ∈ l.
Proof.
  revert l. induction fuel as [|f IH]; intros l Hb Hv.
  - destruct l; cbn in Hb; by apply elem_of_nil in Hb.
  - destruct l as [|a l']; [cbn in Hb; by apply elem_of_nil in Hb|].
    cbn [batches_go] in Hb. apply elem_of_cons in Hb as [->|Hb].
    + rewrite <- (take_drop size (a :: l')). apply elem_of_app. by left.
    + rewrite <- (take_drop size (a :: l')). apply elem_of_app. right.
      by apply IH.
Qed.

Lemma upserted_upload (w : Services) (todo : list (list vector)) (n : Z) (v : vector) :
  v ∈ upserted w (snd (run w (upload todo n))) -> exists b, b ∈ todo /\ v ∈ b.
Proof.
  revert n. induction todo as [|b rest IH]; intros n; cbn [upload run].
  - cbn. by intros ?%elem_of_nil.
  - destruct (index_upsert w b) as [u|e] eqn:Hb.
    + destruct (run w (upload rest (n + Z.of_nat (length b)))) as [r tr] eqn:Hr.
      cbn [snd upserted]. rewrite Hb. intros [Hv|Hv]%elem_of_app.
      * exists b. split; [left|exact Hv].
      * specialize (IH (n + Z.of_nat (length b))). rewrite Hr in IH.
        destruct (IH Hv) as (b' & Hb' & Hv'). exists b'. split; [by right|exact Hv'].
    + destruct (run w (upload rest n)) as [r tr] eqn:Hr.
      cbn [snd upserted]. rewrite Hb. intros Hv.
      specialize (IH n). rewrite Hr in IH.
      destruct (IH Hv) as (b' & Hb' & Hv'). exists b'. split; [by right|exact Hv'].
Qed.

Lemma run_bind_trace {A B : Type} (w : Services) (p : io A) (f : A -> io B) :
  snd (run w (io_bind p f)) = snd (run w p) ++ snd (run w (f (fst (run w p)))).
Proof.
  induction p as [a|d n i k IH|v k IH|q k IH]; cbn [io_bind run].
  - reflexivity.
  - specialize (IH (index_query w d n i)).
    destruct (run w (io_bind _ f)), (run w (k _)). cbn in *. by rewrite IH.
  - specialize (IH (index_upsert w v)).
    destruct (run w (io_bind _ f)), (run w (k _)). cbn in *. by rewrite IH.
  - specialize (IH (chat_create w q)).
    destruct (run w (io_bind _ f)), (run w (k _)). cbn in *. by rewrite IH.
Qed.

Lemma metadata_of_lookup (chunk : ContentChunk) (ns src : string) :
  metadata_of chunk ns src !! "namespace" = Some (PStr ns)
  /\ metadata_of chunk ns src !! "tags" = Some (PList (map PStr (c_tags chunk)))
  /\ metadata_of chunk ns src <> ∅.
Proof.
  assert (Hns : metadata_of chunk ns src !! "namespace" = Some (PStr ns)).
  { unfold metadata_of. cbn [list_to_map foldr uncurry].
    by repeat (rewrite lookup_insert_ne by discriminate); rewrite lookup_insert_eq. }
  split; [exact Hns|split].
  - unfold metadata_of. cbn [list_to_map foldr uncurry].
    by repeat (rewrite lookup_insert_ne by discriminate); rewrite lookup_insert_eq.
  - intros He. rewrite He, lookup_empty in Hns. discriminate.
Qed.

Lemma tags_print (l : list string) (n : nat) :
  forallb NamespacedRAGSystem.is_str (Py.slice_to n (map PStr l)) = true.
Proof.
  revert n. induction l as [|a l IH]; intros [|n]; cbn; try reflexivity. apply IH.
Qed.

(** A vector prepared with the namespace [ns], seen again as a hit,
    derives [ns] and prints. *)
Lemma stored_hit_passes (chunk : ContentChunk) (vid data ns src : string) (relevance : float) :
  let h := stored_hit (vid, data, metadata_of chunk ns src) relevance in
  derives ns h = true /\ printable (NamespacedRAGSystem.chunk_info h) = true.
Proof.
  destruct (metadata_of_lookup chunk ns src) as (Hns & Htags & Hne).
  cbn zeta. split.
  - unfold derives, derived_namespace, NamespacedRAGSystem.metadata_get, stored_hit.
    cbn [hit_metadata snd]. rewrite bool_decide_eq_false_2 by exact Hne.
    rewrite Hns. cbn. by rewrite String.eqb_refl.
  - unfold printable, NamespacedRAGSystem.print_chunk, NamespacedRAGSystem.chunk_info.
    cbn [NamespacedRAGSystem.tags]. unfold NamespacedRAGSystem.metadata_get, stored_hit.
    cbn [hit_metadata snd]. rewrite bool_decide_eq_false_2 by exact Hne.
    rewrite Htags. by rewrite tags_print.
Qed.

Lemma startswith_append (p s : string) : Py.startswith p (p +:+ s) = true.
Proof.
  induction p as [|a p IH]; [reflexivity|].
  change (String a p +:+ s) with (String a (p +:+ s)).
  cbn [Py.startswith]. by rewrite Ascii.eqb_refl.
Qed.

Lemma prepared_vector_agrees (chunk : ContentChunk) (vid data ns src : string)
    (relevance : float) :
  let v : vector := (vid, data, metadata_of chunk ns src) in
  snd v !! "namespace" = Some (PStr ns)
  /\ derives ns (stored_hit v relevance) = true
  /\ (forall w q k,
        index_query w q k true = Ok [stored_hit v relevance] ->
        fst (run w (NamespacedRAGSystem.query_namespace q ns k))
        = [NamespacedRAGSystem.chunk_info (stored_hit v relevance)]).
Proof.
  intros v.
  destruct (stored_hit_passes chunk vid data ns src relevance) as [Hd Hp].
  split; [apply metadata_of_lookup|split; [exact Hd|]].
  intros w q k Hq. rewrite query_namespace_run, Hq. cbn [fst].
  unfold filtered. cbn [List.filter]. fold v in Hd, Hp. rewrite Hd.
  cbn [map forallb]. by rewrite Hp.
Qed.

Lemma upserted_from_prepared (w : Services) (vectors : list vector) (v : vector) :
  v ∈ upserted w (snd (run w (upload (batches 50 vectors) 0))) -> v ∈ vectors.
Proof.
  intros (b & Hb & Hv)%upserted_upload. by apply (batches_go_elem (length vectors) 50 vectors b).
Qed.

(** What agrees.  Every vector that an upload path upserts ([embed_digital_twin],
    [embed_foods_data] and the two re-upload loops of the reorganisation
    script) has an id with the prefix of its namespace ([dt-] for
    digital-twin chunks, [food-] for food chunks) and carries the
    namespace of its path in the [namespace] metadata; seen again as a
    hit, it passes the filter of [query_namespace] for that namespace and
    is returned. *)
Theorem upserted_vector_agrees (u : uploader) (w : Services)
    (content_chunks : list ContentChunk) (v : vector) (relevance : float) :
  v ∈ upserted w (upload_trace u w content_chunks) ->
  Py.startswith (uploader_prefix u) (fst (fst v)) = true
  /\ snd v !! "namespace" = Some (PStr (uploader_namespace u))
  /\ derives (uploader_namespace u) (stored_hit v relevance) = true
  /\ (forall w' q k,
        index_query w' q k true = Ok [stored_hit v relevance] ->
        fst (run w' (NamespacedRAGSystem.query_namespace q (uploader_namespace u) k))
        = [NamespacedRAGSystem.chunk_info (stored_hit v relevance)]).
Proof.
  destruct u; cbn [upload_trace uploader_prefix uploader_namespace]; intros Hv.
  - unfold EmbedDigitalTwin.embed_digital_twin in Hv.
    apply upserted_from_prepared in Hv.
    apply list_elem_of_fmap in Hv as (chunk & -> & _).
    split; [apply startswith_append|]. apply prepared_vector_agrees.
  - unfold EmbedFoods.embed_foods_data in Hv.
    destruct content_chunks as [|c cs]; [cbn in Hv; by apply elem_of_nil in Hv|].
    rewrite run_bind_trace in Hv. cbn [run snd] in Hv. rewrite app_nil_r in Hv.
    apply upserted_from_prepared in Hv.
    apply list_elem_of_fmap in Hv as (chunk & -> & _).
    split; [apply startswith_append|]. apply prepared_vector_agrees.
  - unfold ReorganizeNamespaces.reupload_digital_twin in Hv.
    apply upserted_from_prepared in Hv.
    apply list_elem_of_fmap in Hv as (chunk & -> & _).
    split; [apply startswith_append|]. apply prepared_vector_agrees.
  - unfold ReorganizeNamespaces.reupload_food in Hv.
    apply upserted_from_prepared in Hv.
    apply list_elem_of_fmap in Hv as (chunk & -> & _).
    split; [apply startswith_append|]. apply prepared_vector_agrees.
Qed.

(** The chunk of a food upload, queried in the namespace "foods". *)
Lemma upserted_vector_agrees_witness :
  EmbedFoods.vector_of sample_food_chunk
    ∈ upserted (ranked_store []) (upload_trace FoodsUpload (ranked_store []) [sample_food_chunk])
  /\ derives "foods" (stored_hit (EmbedFoods.vector_of sample_food_chunk) 0.5%float) = true.
Proof.
  assert (H : EmbedFoods.vector_of sample_food_chunk
                ∈ upserted (ranked_store [])
                    (upload_trace FoodsUpload (ranked_store []) [sample_food_chunk])).
  { vm_compute. left. }
  split; [exact H|].
  exact (proj1 (proj2 (proj2
    (upserted_vector_agrees FoodsUpload (ranked_store []) [sample_food_chunk]
       (EmbedFoods.vector_of sample_food_chunk) 0.5%float H)))).
Defined.

(** The two namespace conventions of the repository: a chunk stored by
    [embed_digital_twin] carries "digitaltwin", so [query_namespace] finds
    it under "digitaltwin" and not under "dt", the namespace of
    [digital_twin_query]. *)
Remark digitaltwin_chunk_under_both_names :
  let hit := stored_hit (EmbedDigitalTwin.vector_of sample_dt_chunk) 0.5%float in
  fst (run (ranked_store [hit])
         (NamespacedRAGSystem.query_namespace "overview" "digitaltwin" 5))
  = [NamespacedRAGSystem.chunk_info hit]
  /\ fst (run (ranked_store [hit])
            (NamespacedRAGSystem.query_namespace "overview" "dt" 5)) = [].
Proof. split; vm_compute; reflexivity. Qed.

(** ** The learning scenario *)

Lemma learning_question_is_behavioral :
  QueryClassifier.classify_query learning_question = BEHAVIORAL.
Proof. vm_compute. reflexivity. Qed.

Lemma learning_question_template (context : list (gmap string string)) :
  ResponseTemplateGenerator.generate_behavioral_response learning_question context
  = ResponseTemplateGenerator._format_learning_response.
Proof.
  unfold ResponseTemplateGenerator.generate_behavioral_response. cbv zeta.
  set (c1 := Py.any_in ["challenging"; "difficult"; "problem"] _).
  set (c2 := Py.any_in ["learn"; "technology"; "quickly"] _).
  vm_compute in c1. vm_compute in c2. subst c1 c2. reflexivity.
Qed.

(** C5, as stated, fails: the learning template has 251 words, one more
    than the validator allows for a behavioral answer, so the response of
    the scenario is not valid. *)
Lemma learning_scenario_is_not_valid :
  ~ (let r := InterviewOptimizedDigitalTwin.process_interview_question
                empty_knowledge_base learning_question None in
     InterviewOptimizedDigitalTwin.r_query_type r = BEHAVIORAL
     /\ InterviewOptimizedDigitalTwin.r_response r
        = ResponseTemplateGenerator._format_learning_response
     /\ Py.str_in "ausbiz Consulting" (InterviewOptimizedDigitalTwin.r_response r) = true
     /\ Py.str_in "10 weeks" (InterviewOptimizedDigitalTwin.r_response r) = true
     /\ 120 <= Py.word_count (InterviewOptimizedDigitalTwin.r_response r) <= 300
     /\ is_valid (ResponseValidator.validate_response
                    (InterviewOptimizedDigitalTwin.r_response r) BEHAVIORAL) = true).
Proof.
  intros (_ & _ & _ & _ & _ & H). vm_compute in H. discriminate.
Qed.

(** C5, amended. For the question "Tell me about a time you learned
    something quickly" the pipeline classifies BEHAVIORAL and the
    generator returns the fixed learning template, whatever the knowledge
    base holds; the template contains "ausbiz Consulting" and "10 weeks"
    and has 251 words, between 120 and 300; the validator, for BEHAVIORAL,
    reports it not valid, with the single issue that the response is too
    long. *)
Theorem learning_scenario (knowledge_base : KnowledgeBase) :
  let r := InterviewOptimizedDigitalTwin.process_interview_question
             knowledge_base learning_question None in
  InterviewOptimizedDigitalTwin.r_query_type r = BEHAVIORAL
  /\ InterviewOptimizedDigitalTwin.r_response r
     = ResponseTemplateGenerator._format_learning_response
  /\ Py.str_in "ausbiz Consulting" (InterviewOptimizedDigitalTwin.r_response r) = true
  /\ Py.str_in "10 weeks" (InterviewOptimizedDigitalTwin.r_response r) = true
  /\ Py.word_count (InterviewOptimizedDigitalTwin.r_response r) = 251
  /\ 120 <= Py.word_count (InterviewOptimizedDigitalTwin.r_response r) <= 300
  /\ InterviewOptimizedDigitalTwin.r_validation r
     = ResponseValidator.validate_response
         (InterviewOptimizedDigitalTwin.r_response r) BEHAVIORAL
  /\ ResponseValidator.validate_response
       (InterviewOptimizedDigitalTwin.r_response r) BEHAVIORAL
     = {| is_valid := false;
          issues := ["Behavioral response too long (should be 120-200 words)"];
          suggestions := ["Adjust response length to match question complexity"] |}.
Proof.
  intros r.
  assert (Ht : InterviewOptimizedDigitalTwin.r_query_type r = BEHAVIORAL)
    by apply learning_question_is_behavioral.
  assert (Hr : InterviewOptimizedDigitalTwin.r_response r
               = ResponseTemplateGenerator._format_learning_response).
  { subst r. unfold InterviewOptimizedDigitalTwin.process_interview_question.
    cbv zeta. cbn [InterviewOptimizedDigitalTwin.r_response].
    rewrite learning_question_is_behavioral. apply learning_question_template. }
  assert (Hv : InterviewOptimizedDigitalTwin.r_validation r
               = ResponseValidator.validate_response
                   (InterviewOptimizedDigitalTwin.r_response r) BEHAVIORAL).
  { subst r. unfold InterviewOptimizedDigitalTwin.process_interview_question.
    cbv zeta. cbn [InterviewOptimizedDigitalTwin.r_validation
                   InterviewOptimizedDigitalTwin.r_response].
    by rewrite learning_question_is_behavioral. }
  rewrite Hr.
  repeat split; try assumption; try (vm_compute; reflexivity);
    try (vm_compute; discriminate).
Qed.

(** ** Properties of the scorer *)

Lemma count_in_nonneg (keywords : list string) (s : string) : 0 <= Py.count_in keywords s.
Proof. unfold Py.count_in. lia. Qed.

Lemma content_score_bounds (response : string) (context : RecruiterSatisfactionTrainer.Context) :
  0 <= RecruiterSatisfactionTrainer._analyze_content_quality response context <= 100
  /\ RecruiterSatisfactionTrainer._analyze_content_quality response context mod 5 = 0.
Proof.
  unfold RecruiterSatisfactionTrainer._analyze_content_quality,
    RecruiterSatisfactionTrainer.add_if.
  cbv zeta. split_ifs; (split; [lia|Z.to_euclidean_division_equations; lia]).
Qed.

Lemma structure_score_bounds (response question : string) :
  0 <= RecruiterSatisfactionTrainer._analyze_structure response question <= 100
  /\ RecruiterSatisfactionTrainer._analyze_structure response question mod 5 = 0.
Proof.
  unfold RecruiterSatisfactionTrainer._analyze_structure,
    RecruiterSatisfactionTrainer.add_if.
  cbv zeta.
  pose proof (count_in_nonneg ["situation"; "task"; "action"; "result"] (Py.lower response)).
  split_ifs; (split; [lia|Z.to_euclidean_division_equations; lia]).
Qed.

Lemma impact_score_bounds (response : string) :
  0 <= RecruiterSatisfactionTrainer._analyze_professional_impact response <= 100
  /\ RecruiterSatisfactionTrainer._analyze_professional_impact response mod 5 = 0.
Proof.
  unfold RecruiterSatisfactionTrainer._analyze_professional_impact,
    RecruiterSatisfactionTrainer.add_if.
  cbv zeta.
  pose proof (count_in_nonneg
                ["led"; "managed"; "coordinated"; "initiated"; "drove"; "spearheaded"]
                (Py.lower response)).
  split_ifs; (split; [lia|Z.to_euclidean_division_equations; lia]).
Qed.

Lemma engagement_score_bounds (response : string) :
  0 <= RecruiterSatisfactionTrainer._analyze_engagement response <= 100
  /\ RecruiterSatisfactionTrainer._analyze_engagement response mod 5 = 0.
Proof.
  unfold RecruiterSatisfactionTrainer._analyze_engagement,
    RecruiterSatisfactionTrainer.add_if.
  cbv zeta. split_ifs; (split; [lia|Z.to_euclidean_division_equations; lia]).
Qed.

Lemma multiple_of_5_in_values (z : Z) :
  0 <= z <= 100 -> z mod 5 = 0 -> In z score_values.
Proof.
  intros Hz Hm. unfold score_values. apply in_map_iff.
  exists (Z.to_nat (z / 5)).
  split; [|apply in_seq]; Z.to_euclidean_division_equations; lia.
Qed.

(** The weighted sums stay in range for all sub-scores there are: every
    combination is computed. *)
Lemma all_scores_in_range :
  forallb (fun c => forallb (fun s => forallb (fun i => forallb (fun e =>
    scores_in_range c s i e) score_values) score_values) score_values) score_values = true.
Proof. vm_compute. reflexivity. Qed.

Lemma scores_in_range_of_values (c s i e : Z) :
  In c score_values -> In s score_values -> In i score_values -> In e score_values ->
  scores_in_range c s i e = true.
Proof.
  intros Hc Hs Hi He. pose proof all_scores_in_range as H.
  rewrite forallb_forall in H. specialize (H c Hc).
  rewrite forallb_forall in H. specialize (H s Hs).
  rewrite forallb_forall in H. specialize (H i Hi).
  rewrite forallb_forall in H. exact (H e He).
Qed.

(** C6. For every response, question and context each of the four
    sub-scores lies between 0 and 100; the overall score is
    content * 0.35 + structure * 0.25 + impact * 0.25 + engagement * 0.15
    and the predicted satisfaction is min(overall * 0.92 + 8, 100), in
    binary64 arithmetic; the overall score then lies between 0 and 100 and
    the prediction between 8 and 100. *)
Theorem analyze_response_quality_scores (response question : string)
    (context : RecruiterSatisfactionTrainer.Context) :
  let a := RecruiterSatisfactionTrainer.analyze_response_quality response question context in
  let s := RecruiterSatisfactionTrainer.component_scores a in
  0 <= RecruiterSatisfactionTrainer.content s <= 100
  /\ 0 <= RecruiterSatisfactionTrainer.structure s <= 100
  /\ 0 <= RecruiterSatisfactionTrainer.impact s <= 100
  /\ 0 <= RecruiterSatisfactionTrainer.engagement s <= 100
  /\ RecruiterSatisfactionTrainer.overall_score a
     = (RecruiterSatisfactionTrainer.to_float (RecruiterSatisfactionTrainer.content s) * 0.35
        + RecruiterSatisfactionTrainer.to_float (RecruiterSatisfactionTrainer.structure s) * 0.25
        + RecruiterSatisfactionTrainer.to_float (RecruiterSatisfactionTrainer.impact s) * 0.25
        + RecruiterSatisfactionTrainer.to_float (RecruiterSatisfactionTrainer.engagement s) * 0.15)%float
  /\ RecruiterSatisfactionTrainer.satisfaction_prediction a
     = RecruiterSatisfactionTrainer.min_100
         (RecruiterSatisfactionTrainer.overall_score a * 0.92 + 8)%float
  /\ float_between 0 100 (RecruiterSatisfactionTrainer.overall_score a) = true
  /\ float_between 8 100 (RecruiterSatisfactionTrainer.satisfaction_prediction a) = true.
Proof.
  cbv zeta.
  unfold RecruiterSatisfactionTrainer.analyze_response_quality. cbv zeta.
  cbn [RecruiterSatisfactionTrainer.component_scores RecruiterSatisfactionTrainer.content
       RecruiterSatisfactionTrainer.structure RecruiterSatisfactionTrainer.impact
       RecruiterSatisfactionTrainer.engagement RecruiterSatisfactionTrainer.overall_score
       RecruiterSatisfactionTrainer.satisfaction_prediction].
  destruct (content_score_bounds response context) as [Hc Hc5].
  destruct (structure_score_bounds response question) as [Hs Hs5].
  destruct (impact_score_bounds response) as [Hi Hi5].
  destruct (engagement_score_bounds response) as [He He5].
  do 4 (split; [assumption|]).
  do 2 (split; [reflexivity|]).
  apply andb_prop.
  apply (scores_in_range_of_values
           (RecruiterSatisfactionTrainer._analyze_content_quality response context)
           (RecruiterSatisfactionTrainer._analyze_structure response question)
           (RecruiterSatisfactionTrainer._analyze_professional_impact response)
           (RecruiterSatisfactionTrainer._analyze_engagement response));
    by apply multiple_of_5_in_values.
Qed.

(** The scores of the learning template as an answer to the learning
    question, for a technical role. *)
Example analyze_response_quality_sample :
  let a := RecruiterSatisfactionTrainer.analyze_response_quality
             ResponseTemplateGenerator._format_learning_response learning_question
             {| RecruiterSatisfactionTrainer.role_type := Some "technical";
                RecruiterSatisfactionTrainer.company := Some "Ausbiz";
                RecruiterSatisfactionTrainer.key_skills := Some ["React"; "Cobol"] |} in
  RecruiterSatisfactionTrainer.component_scores a
  = {| RecruiterSatisfactionTrainer.content := 40;
       RecruiterSatisfactionTrainer.structure := 100;
       RecruiterSatisfactionTrainer.impact := 35;
       RecruiterSatisfactionTrainer.engagement := 75 |}
  /\ RecruiterSatisfactionTrainer.overall_score a = 59%float
  /\ RecruiterSatisfactionTrainer.satisfaction_prediction a = 62.28%float.
Proof. vm_compute. repeat split; reflexivity. Qed.

(** ** Properties of context selection *)

Lemma elem_str_spec (x : string) (xs : list string) :
  Py.elem_str x xs = true <-> x ∈ xs.
Proof.
  unfold Py.elem_str. rewrite existsb_exists. split.
  - intros (y & Hy & ->%String.eqb_eq). by apply list_elem_of_In.
  - intros Hx. exists x. split; [by apply list_elem_of_In|apply String.eqb_refl].
Qed.

Lemma filter_sublist {A : Type} (f : A -> bool) (l : list A) :
  List.filter f l `sublist_of` l.
Proof.
  induction l as [|a l IH]; cbn; [constructor|].
  destruct (f a); by constructor.
Qed.

(** C7. For every intent and every supplied chunk list, context selection
    returns at most 3 chunks; the type of each is on the allow-list of the
    intent; they are the first chunks of the supplied list with such a
    type, in the order supplied (all of them when fewer than 3 are
    returned); and GENERAL and PERSONAL_STORY, which have no mapping, use
    the allow-list ['experience', 'skills']. *)
Theorem context_selection (knowledge_base : KnowledgeBase) (question : string)
    (intent : QueryType) :
  let supplied := default [] (content_chunks knowledge_base) in
  let allowed := InterviewOptimizedDigitalTwin.target_types intent in
  let selected :=
    InterviewOptimizedDigitalTwin._extract_relevant_context knowledge_base question intent in
  (length selected <= 3)%nat
  /\ (forall c, c ∈ selected -> exists t, c !! "type" = Some t /\ t ∈ allowed)
  /\ selected `sublist_of` supplied
  /\ selected `prefix_of` List.filter (type_in allowed) supplied
  /\ ((length selected < 3)%nat -> selected = List.filter (type_in allowed) supplied)
  /\ (InterviewOptimizedDigitalTwin.relevant_types intent = None <->
      intent = GENERAL \/ intent = PERSONAL_STORY)
  /\ (InterviewOptimizedDigitalTwin.relevant_types intent = None ->
      allowed = ["experience"; "skills"])
  /\ (forall ts, InterviewOptimizedDigitalTwin.relevant_types intent = Some ts -> allowed = ts).
Proof.
  intros supplied allowed selected.
  assert (Hsel : selected = take 3 (List.filter (type_in allowed) supplied)).
  { subst selected supplied allowed.
    unfold InterviewOptimizedDigitalTwin._extract_relevant_context, Py.slice_to.
    by destruct (content_chunks knowledge_base). }
  split; [rewrite Hsel, length_take; lia|].
  split.
  { intros c Hc. rewrite Hsel in Hc.
    assert (Hin : c ∈ List.filter (type_in allowed) supplied).
    { rewrite <- (take_drop 3 (List.filter (type_in allowed) supplied)).
      apply elem_of_app. by left. }
    apply list_elem_of_In, filter_In in Hin as [_ Ht].
    unfold type_in in Ht. destruct (c !! "type") as [t|]; [|discriminate].
    exists t. split; [reflexivity|by apply elem_str_spec]. }
  split.
  { rewrite Hsel. etrans; [apply sublist_take|apply filter_sublist]. }
  split; [rewrite Hsel; apply prefix_take|].
  split.
  { intros Hlt. rewrite Hsel. apply take_ge.
    rewrite Hsel, length_take in Hlt. lia. }
  subst allowed. unfold InterviewOptimizedDigitalTwin.target_types.
  split; [|split].
  - destruct intent; cbn; split; intros H; try discriminate; try (by auto);
      destruct H; discriminate.
  - by intros ->.
  - by intros ts ->.
Qed.

(** ** Properties of company customization *)

Lemma append_empty (s : string) : s +:+ EmptyString = s.
Proof.
  induction s as [|a s IH]; [reflexivity|].
  change (String a s +:+ EmptyString) with (String a (s +:+ EmptyString)).
  by rewrite IH.
Qed.

Lemma add_customizations_appends (base : string) (customizations : list string) :
  exists addition,
    CompanyResponseCustomizer.add_customizations base customizations = base +:+ addition.
Proof.
  destruct customizations as [|c cs].
  - exists EmptyString. unfold CompanyResponseCustomizer.add_customizations.
    by rewrite append_empty.
  - by eexists.
Qed.

Lemma known_company_appends (base query_type : string)
    (company_profile : CompanyResponseCustomizer.CompanyProfile) :
  exists addition,
    CompanyResponseCustomizer._customize_for_known_company base company_profile query_type
    = base +:+ addition.
Proof.
  unfold CompanyResponseCustomizer._customize_for_known_company. cbv zeta.
  apply add_customizations_appends.
Qed.

Lemma generic_appends (base context query_type : string) :
  exists addition,
    CompanyResponseCustomizer._add_generic_customization base context query_type
    = base +:+ addition.
Proof.
  unfold CompanyResponseCustomizer._add_generic_customization. cbv zeta.
  destruct (String.eqb query_type "company_specific").
  - by eexists.
  - exists EmptyString. by rewrite append_empty.
Qed.

Lemma industry_appends (base context query_type : string) :
  exists addition,
    CompanyResponseCustomizer._customize_for_industry base context query_type
    = base +:+ addition.
Proof.
  unfold CompanyResponseCustomizer._customize_for_industry. cbv zeta.
  destruct (List.find _ _) as [ip|].
  - unfold CompanyResponseCustomizer._add_industry_customization. cbv zeta.
    apply add_customizations_appends.
  - apply generic_appends.
Qed.

(** C9. Company customization only appends: for every base response,
    company context and query type the result of [customize_response] is
    the base response followed by an addition (possibly empty), on the
    known-company path, the industry path and the generic path alike, and
    so is the result of [_customize_for_company]. *)
Theorem customization_is_additive (base company_context query_type : string) :
  (exists addition,
     CompanyResponseCustomizer.customize_response base company_context query_type
     = base +:+ addition)
  /\ Py.startswith base
       (CompanyResponseCustomizer.customize_response base company_context query_type) = true
  /\ (forall company_profile, exists addition,
        CompanyResponseCustomizer._customize_for_known_company base company_profile query_type
        = base +:+ addition)
  /\ (exists addition,
        CompanyResponseCustomizer._customize_for_industry base company_context query_type
        = base +:+ addition)
  /\ (exists addition,
        CompanyResponseCustomizer._add_generic_customization base company_context query_type
        = base +:+ addition)
  /\ (exists addition,
        InterviewOptimizedDigitalTwin._customize_for_company base company_context
        = base +:+ addition).
Proof.
  assert (H : exists addition,
            CompanyResponseCustomizer.customize_response base company_context query_type
            = base +:+ addition).
  { unfold CompanyResponseCustomizer.customize_response.
    destruct (CompanyResponseCustomizer._identify_company company_context).
    - apply known_company_appends.
    - apply industry_appends. }
  split; [exact H|].
  split; [destruct H as [a ->]; apply startswith_append|].
  split; [intros p; apply known_company_appends|].
  split; [apply industry_appends|].
  split; [apply generic_appends|].
  unfold InterviewOptimizedDigitalTwin._customize_for_company.
  destruct company_context.
  - exists EmptyString. by rewrite append_empty.
  - by eexists.
Qed.

(** ** Further properties of retrieval *)

(** X1. The chunks a namespace query returns are the chunks of hits the
    store returned, in the store's order and without repetition of a hit:
    nothing is added, and when the store returns at most [top_k] hits the
    result has at most [top_k] chunks. *)
Theorem query_namespace_keeps_order (w : Services) (q n : string) (k : Z)
    (raw : list QueryResult) :
  index_query w q k true = Ok raw ->
  exists kept,
    kept `sublist_of` raw
    /\ fst (run w (NamespacedRAGSystem.query_namespace q n k))
       = map NamespacedRAGSystem.chunk_info kept
    /\ (forall h, h ∈ kept -> derives n h = true)
    /\ (length kept <= length raw)%nat
    /\ (Z.of_nat (length raw) <= k -> Z.of_nat (length kept) <= k).
Proof.
  intros Hq. rewrite query_namespace_run, Hq. cbn [fst]. unfold filtered.
  destruct (forallb printable _).
  - exists (List.filter (derives n) raw).
    pose proof (filter_sublist (derives n) raw) as Hs.
    pose proof (sublist_length _ _ Hs).
    repeat split; try done; try lia.
    intros h Hh. by apply list_elem_of_In, filter_In in Hh as [_ ?].
  - exists []. repeat split; try done; try (cbn; lia).
    + apply sublist_nil_l.
    + by intros h ?%elem_of_nil.
Qed.

Lemma query_namespace_keeps_order_witness :
  index_query (ranked_store food_first_ranking) "nutrition protein" 4 true
  = Ok (take 4 food_first_ranking)
  /\ exists kept,
       kept `sublist_of` take 4 food_first_ranking
       /\ fst (run (ranked_store food_first_ranking)
                 (NamespacedRAGSystem.query_namespace "nutrition protein" "dt" 4))
          = map NamespacedRAGSystem.chunk_info kept.
Proof.
  split; [reflexivity|].
  destruct (query_namespace_keeps_order (ranked_store food_first_ranking)
              "nutrition protein" "dt" 4 (take 4 food_first_ranking) eq_refl)
    as (kept & Hs & Hr & _).
  exists kept. split; [exact Hs|exact Hr].
Defined.

(** X2. The result is all or nothing: when the tags of every hit of the
    requested namespace can be joined, every such hit is returned, in
    order; when one of them has tags that cannot (not a string or a list
    whose first five items are strings), the whole result is empty, the
    well-formed hits included. *)
Theorem query_namespace_all_or_nothing (w : Services) (q n : string) (k : Z)
    (raw : list QueryResult) :
  index_query w q k true = Ok raw ->
  ((forall h, h ∈ raw -> derives n h = true ->
      printable (NamespacedRAGSystem.chunk_info h) = true) ->
   fst (run w (NamespacedRAGSystem.query_namespace q n k))
   = map NamespacedRAGSystem.chunk_info (List.filter (derives n) raw))
  /\ (forall h, h ∈ raw -> derives n h = true ->
        printable (NamespacedRAGSystem.chunk_info h) = false ->
        fst (run w (NamespacedRAGSystem.query_namespace q n k)) = []).
Proof.
  intros Hq. rewrite query_namespace_run, Hq. cbn [fst]. unfold filtered. split.
  - intros Hall.
    replace (forallb printable _) with true; [reflexivity|].
    symmetry. apply forallb_forall. intros c Hc.
    apply in_map_iff in Hc as (h & <- & Hh). apply filter_In in Hh as [Hh Hd].
    apply Hall; [by apply list_elem_of_In|exact Hd].
  - intros h Hh Hd Hp.
    destruct (forallb printable _) eqn:Hf; [|reflexivity].
    rewrite forallb_forall in Hf.
    rewrite Hf in Hp; [discriminate|].
    apply in_map. apply filter_In. split; [by apply list_elem_of_In|exact Hd].
Qed.

(** A well-formed hit is lost when a hit with a number as tags follows. *)
Lemma query_namespace_all_or_nothing_witness :
  index_query (ranked_store [hit_in "dt-personal_1" "dt"; untagged_hit]) "overview" 5 true
  = Ok [hit_in "dt-personal_1" "dt"; untagged_hit]
  /\ fst (run (ranked_store [hit_in "dt-personal_1" "dt"; untagged_hit])
            (NamespacedRAGSystem.query_namespace "overview" "dt" 5)) = [].
Proof.
  split; [reflexivity|].
  apply (proj2 (query_namespace_all_or_nothing
                  (ranked_store [hit_in "dt-personal_1" "dt"; untagged_hit])
                  "overview" "dt" 5 [hit_in "dt-personal_1" "dt"; untagged_hit] eq_refl)
           untagged_hit).
  - right. left.
  - vm_compute. reflexivity.
  - vm_compute. reflexivity.
Defined.

Lemma any_in_spec (keywords : list string) (s : string) :
  Py.any_in keywords s = true <->
  exists kw pre post, kw ∈ keywords /\ s = pre +:+ kw +:+ post.
Proof.
  unfold Py.any_in. rewrite existsb_exists. split.
  - intros (kw & Hkw & (pre & post & ->)%str_in_spec).
    exists kw, pre, post. by rewrite list_elem_of_In.
  - intros (kw & pre & post & Hkw & ->). exists kw.
    split; [by apply list_elem_of_In|]. apply str_in_spec. by exists pre, post.
Qed.

Lemma namespace_query_fields (py_str : pyval -> string) (w : Services) (n q : string) (k : Z) :
  let answer := fst (run w (NamespacedRAGSystem.namespace_query py_str n q k)) in
  NamespacedRAGSystem.a_query answer = q
  /\ NamespacedRAGSystem.a_namespace answer = n
  /\ NamespacedRAGSystem.a_relevant_chunks answer
     = fst (run w (NamespacedRAGSystem.query_namespace q n k))
  /\ NamespacedRAGSystem.a_sources_count answer
     = Z.of_nat (length (NamespacedRAGSystem.a_relevant_chunks answer)).
Proof.
  unfold NamespacedRAGSystem.namespace_query, NamespacedRAGSystem.query_namespace.
  cbn [io_bind run fst].
  destruct (match NamespacedRAGSystem.query_namespace_body n (index_query w q k true) with
            | Ok relevant_chunks => relevant_chunks
            | Raise _ => []
            end) as [|c chunks].
  - cbn. repeat split; reflexivity.
  - cbn [NamespacedRAGSystem.generate_response io_bind run].
    match goal with
    | |- context [chat_create w ?r] => destruct (chat_create w r)
    end; cbn; repeat split; reflexivity.
Qed.

Lemma returned_chunk_namespace (w : Services) (q n : string) (k : Z)
    (c : NamespacedRAGSystem.ChunkInfo) :
  c ∈ fst (run w (NamespacedRAGSystem.query_namespace q n k)) ->
  NamespacedRAGSystem.namespace c = PStr n.
Proof.
  rewrite query_namespace_run. cbn [fst].
  destruct (index_query w q k true) as [raw|e]; [|by intros ?%elem_of_nil].
  intros (h & _ & Hd%derives_inv & ->)%elem_of_filtered.
  by rewrite chunk_namespace.
Qed.

(** X3. [smart_query] answers from the namespace "food" exactly when the
    lower-cased query contains one of the food keywords as a substring
    (inside a longer word too) and from "dt" otherwise; the chunks of the
    answer are those of [query_namespace] for the namespace chosen, all
    carry it, and the source count is their number. *)
Theorem smart_query_routing (py_str : pyval -> string) (w : Services) (q : string) (k : Z) :
  let answer := fst (run w (NamespacedRAGSystem.smart_query py_str q k)) in
  NamespacedRAGSystem.a_query answer = q
  /\ (NamespacedRAGSystem.a_namespace answer = "food"
      \/ NamespacedRAGSystem.a_namespace answer = "dt")
  /\ (NamespacedRAGSystem.a_namespace answer = "food" <->
      exists kw pre post,
        kw ∈ NamespacedRAGSystem.food_keywords /\ Py.lower q = pre +:+ kw +:+ post)
  /\ NamespacedRAGSystem.a_relevant_chunks answer
     = fst (run w (NamespacedRAGSystem.query_namespace q
                     (NamespacedRAGSystem.a_namespace answer) k))
  /\ (forall c, c ∈ NamespacedRAGSystem.a_relevant_chunks answer ->
        NamespacedRAGSystem.namespace c = PStr (NamespacedRAGSystem.a_namespace answer))
  /\ NamespacedRAGSystem.a_sources_count answer
     = Z.of_nat (length (NamespacedRAGSystem.a_relevant_chunks answer)).
Proof.
  unfold NamespacedRAGSystem.smart_query. cbv zeta.
  rewrite <- any_in_spec.
  destruct (Py.any_in NamespacedRAGSystem.food_keywords (Py.lower q)).
  - unfold NamespacedRAGSystem.food_query.
    destruct (namespace_query_fields py_str w "food" q k) as (Hq & Hn & Hc & Hs).
    rewrite Hn. split; [exact Hq|]. split; [by left|]. split; [done|].
    split; [exact Hc|]. split; [|exact Hs].
    intros c Hin. rewrite Hc in Hin. by apply returned_chunk_namespace in Hin.
  - unfold NamespacedRAGSystem.digital_twin_query.
    destruct (namespace_query_fields py_str w "dt" q k) as (Hq & Hn & Hc & Hs).
    rewrite Hn. split; [exact Hq|]. split; [by right|]. split; [done|].
    split; [exact Hc|]. split; [|exact Hs].
    intros c Hin. rewrite Hc in Hin. by apply returned_chunk_namespace in Hin.
Qed.

(** ** The id-prefix retrieval *)

Lemma dt_loop_closed_form (top_k : Z) (results acc : list QueryResult) :
  (length acc < Z.to_nat (Z.max top_k 1))%nat ->
  DigitalTwinRag.dt_loop top_k results acc
  = take (Z.to_nat (Z.max top_k 1)) (acc ++ List.filter dt_prefixed results).
Proof.
  revert acc. induction results as [|r rest IH]; intros acc Hacc.
  - cbn. rewrite app_nil_r. symmetry. apply take_ge. lia.
  - cbn [DigitalTwinRag.dt_loop List.filter].
    assert (Hdt : negb (String.eqb (hit_id r) EmptyString) && Py.startswith "dt-" (hit_id r)
                  = dt_prefixed r).
    { unfold dt_prefixed. destruct (hit_id r); reflexivity. }
    rewrite Hdt. destruct (dt_prefixed r).
    + destruct (Z.geb_spec (Z.of_nat (length (acc ++ [r]))) top_k) as [Hge|Hlt].
      * rewrite length_app in Hge. cbn in Hge.
        replace (acc ++ r :: List.filter dt_prefixed rest)
          with ((acc ++ [r]) ++ List.filter dt_prefixed rest)
          by (by rewrite <- app_assoc).
        symmetry. apply take_app_length'. rewrite length_app. cbn. lia.
      * rewrite IH; [by rewrite <- app_assoc|].
        rewrite length_app in *. cbn in *. lia.
    + by apply IH.
Qed.

(** X4. [query_vectors] asks the store for three times [top_k] hits and
    returns, in the store's order, the first [top_k] hits whose id starts
    with [dt-] (fewer when there are fewer; at most one when [top_k] is
    not positive); when the store raises it returns None. *)
Theorem query_vectors_result (w : Services) (q : string) (k : Z) :
  snd (run w (DigitalTwinRag.query_vectors q k)) = [EvQuery q (k * 3) true]
  /\ (forall raw, index_query w q (k * 3) true = Ok raw ->
        exists found,
          fst (run w (DigitalTwinRag.query_vectors q k)) = Some found
          /\ found = take (Z.to_nat (Z.max k 1)) (List.filter dt_prefixed raw)
          /\ found `sublist_of` raw
          /\ (forall h, h ∈ found -> Py.startswith "dt-" (hit_id h) = true)
          /\ Z.of_nat (length found) <= Z.max k 1)
  /\ (forall e, index_query w q (k * 3) true = Raise e ->
        fst (run w (DigitalTwinRag.query_vectors q k)) = None).
Proof.
  unfold DigitalTwinRag.query_vectors. cbn [run fst snd].
  split; [reflexivity|]. split.
  - intros raw ->. eexists. split; [reflexivity|].
    rewrite dt_loop_closed_form by (cbn; lia). cbn [app].
    split; [reflexivity|]. split; [|split].
    + etrans; [apply sublist_take|apply filter_sublist].
    + intros h Hh. apply elem_of_take in Hh as (i & Hi & _).
      apply list_elem_of_lookup_2, list_elem_of_In, filter_In in Hi as [_ Hd].
      exact Hd.
    + rewrite length_take. lia.
  - by intros e ->.
Qed.

(** ** Further properties of the upload *)

Lemma batches_go_concat {A : Type} (fuel size : nat) (l : list A) :
  (0 < size)%nat -> (length l <= fuel)%nat -> concat (batches_go fuel size l) = l.
Proof.
  intros Hs. revert l. induction fuel as [|f IH]; intros l Hl.
  - destruct l; [reflexivity|cbn in Hl; lia].
  - destruct l as [|a l']; [reflexivity|].
    cbn [batches_go concat]. rewrite IH; [apply take_drop|].
    rewrite length_drop. cbn in *. lia.
Qed.

Lemma batches_go_sizes {A : Type} (fuel size : nat) (l b : list A) :
  (0 < size)%nat -> b ∈ batches_go fuel size l -> (0 < length b <= size)%nat.
Proof.
  intros Hs. revert l. induction fuel as [|f IH]; intros l Hb.
  - destruct l; by apply elem_of_nil in Hb.
  - destruct l as [|a l']; [by apply elem_of_nil in Hb|].
    cbn [batches_go] in Hb. apply elem_of_cons in Hb as [->|Hb]; [|by eapply IH].
    rewrite length_take. cbn. lia.
Qed.

Lemma batches_go_lookup {A : Type} (fuel size : nat) (l b : list A) (i : nat) :
  batches_go fuel size l !! i = Some b -> b = take size (drop (i * size) l).
Proof.
  revert l i. induction fuel as [|f IH]; intros l i Hb.
  - destruct l; discriminate.
  - destruct l as [|a l']; [discriminate|].
    cbn [batches_go] in Hb. destruct i as [|i].
    + cbn in Hb. injection Hb as <-. reflexivity.
    + cbn [lookup list_lookup] in Hb. apply IH in Hb. rewrite Hb, drop_drop.
      reflexivity.
Qed.

(** X5. Cutting the vectors into batches loses and repeats nothing: the
    batches, one after the other, are the vector list; batch number [i]
    (from 0) is the slice from [i * batch_size] of length [batch_size];
    and each batch holds at least one and at most [batch_size] vectors. *)
Theorem batches_partition {A : Type} (batch_size : nat) (vectors : list A) :
  (0 < batch_size)%nat ->
  concat (batches batch_size vectors) = vectors
  /\ (forall i b, batches batch_size vectors !! i = Some b ->
        b = take batch_size (drop (i * batch_size) vectors))
  /\ (forall b, b ∈ batches batch_size vectors -> (0 < length b <= batch_size)%nat)
  /\ (vectors = [] -> batches batch_size vectors = []).
Proof.
  intros Hs. unfold batches. split; [by apply batches_go_concat|]. split; [|split].
  - intros i b. apply batches_go_lookup.
  - intros b. by apply batches_go_sizes.
  - by intros ->.
Qed.

Lemma batches_partition_witness :
  (0 < 50)%nat
  /\ concat (batches 50 (seq 0 120)) = seq 0 120.
Proof.
  split; [lia|]. apply (batches_partition 50 (seq 0 120)). lia.
Defined.

Lemma upload_accounting (w : Services) (todo : list (list vector)) (n : Z) :
  attempted (snd (run w (upload todo n))) = concat todo
  /\ fst (run w (upload todo n))
     = n + Z.of_nat (length (upserted w (snd (run w (upload todo n)))))
  /\ upserted w (snd (run w (upload todo n))) `sublist_of` concat todo
  /\ ((forall b, b ∈ todo -> exists u, index_upsert w b = Ok u) ->
      upserted w (snd (run w (upload todo n))) = concat todo).
Proof.
  revert n. induction todo as [|b rest IH]; intros n.
  - cbn. repeat split; try done. lia.
  - cbn [upload run concat].
    destruct (index_upsert w b) as [u|e] eqn:Hb.
    + destruct (IH (n + Z.of_nat (length b))) as (Ha & Hc & Hs & Hall).
      destruct (run w (upload rest (n + Z.of_nat (length b)))) as [r tr].
      cbn [fst snd attempted upserted] in *. rewrite Hb.
      split; [by rewrite Ha|]. split; [rewrite Hc, length_app; lia|].
      split; [by apply sublist_app|].
      intros Hok. rewrite Hall; [reflexivity|]. intros b' Hb'. apply Hok. by right.
    + destruct (IH n) as (Ha & Hc & Hs & Hall).
      destruct (run w (upload rest n)) as [r tr].
      cbn [fst snd attempted upserted] in *. rewrite Hb.
      split; [by rewrite Ha|]. split; [exact Hc|].
      split; [by apply sublist_inserts_l|].
      intros Hok. destruct (Hok b) as [u Hu]; [left|]. congruence.
Qed.

(** X6. A run of [embed_digital_twin] sends every prepared vector to the
    store exactly once, in order, whatever batches fail; the number it
    reports is the number of vectors of the batches that succeeded, which
    are some of the prepared vectors in order, never more than there are
    chunks, and all of them when no upsert raises. *)
Theorem embed_digital_twin_accounting (w : Services) (content_chunks : list ContentChunk) :
  let uploaded := fst (run w (EmbedDigitalTwin.embed_digital_twin content_chunks)) in
  let trace := snd (run w (EmbedDigitalTwin.embed_digital_twin content_chunks)) in
  attempted trace = EmbedDigitalTwin.prepare_vectors content_chunks
  /\ uploaded = Z.of_nat (length (upserted w trace))
  /\ upserted w trace `sublist_of` EmbedDigitalTwin.prepare_vectors content_chunks
  /\ 0 <= uploaded <= Z.of_nat (length content_chunks)
  /\ ((forall b, exists u, index_upsert w b = Ok u) ->
      upserted w trace = EmbedDigitalTwin.prepare_vectors content_chunks
      /\ uploaded = Z.of_nat (length content_chunks)).
Proof.
  unfold EmbedDigitalTwin.embed_digital_twin. cbv zeta.
  destruct (upload_accounting w (batches 50 (EmbedDigitalTwin.prepare_vectors content_chunks)) 0)
    as (Ha & Hc & Hs & Hall).
  assert (Hcat : concat (batches 50 (EmbedDigitalTwin.prepare_vectors content_chunks))
                 = EmbedDigitalTwin.prepare_vectors content_chunks)
    by (apply batches_go_concat; lia).
  rewrite Hcat in *.
  assert (Hlen : length (EmbedDigitalTwin.prepare_vectors content_chunks)
                 = length content_chunks)
    by apply length_map.
  split; [exact Ha|]. split; [rewrite Hc; lia|]. split; [exact Hs|].
  split.
  - apply sublist_length in Hs. rewrite Hc. lia.
  - intros Hok. rewrite Hc, Hall; [by rewrite Hlen|]. intros b _. apply Hok.
Qed.

Lemma run_bind_result {A B : Type} (w : Services) (p : io A) (f : A -> io B) :
  fst (run w (io_bind p f)) = fst (run w (f (fst (run w p)))).
Proof.
  induction p as [a|d n i k IH|v k IH|q k IH]; cbn [io_bind run].
  - reflexivity.
  - specialize (IH (index_query w d n i)).
    destruct (run w (io_bind _ f)), (run w (k _)). exact IH.
  - specialize (IH (index_upsert w v)).
    destruct (run w (io_bind _ f)), (run w (k _)). exact IH.
  - specialize (IH (chat_create w q)).
    destruct (run w (io_bind _ f)), (run w (k _)). exact IH.
Qed.

(** X7. [embed_foods_data] makes no call at all when there are no food
    chunks; otherwise it sends every prepared vector once, in order, and
    reports the number of vectors of the batches that succeeded. *)
Theorem embed_foods_data_accounting (w : Services) (content_chunks : list ContentChunk) :
  let result := fst (run w (EmbedFoods.embed_foods_data content_chunks)) in
  let trace := snd (run w (EmbedFoods.embed_foods_data content_chunks)) in
  (content_chunks = [] -> result = None /\ trace = [])
  /\ (content_chunks <> [] ->
      result = Some (Z.of_nat (length (upserted w trace)))
      /\ attempted trace = EmbedFoods.prepare_vectors content_chunks
      /\ upserted w trace `sublist_of` EmbedFoods.prepare_vectors content_chunks).
Proof.
  cbv zeta. split; [by intros ->|].
  intros Hne. unfold EmbedFoods.embed_foods_data.
  destruct content_chunks as [|c cs]; [done|].
  set (vs := EmbedFoods.prepare_vectors (c :: cs)).
  destruct (upload_accounting w (batches 50 vs) 0) as (Ha & Hc & Hs & _).
  assert (Hcat : concat (batches 50 vs) = vs) by (apply batches_go_concat; lia).
  rewrite Hcat in *.
  assert (Ht : snd (run w (io_bind (upload (batches 50 vs) 0) (fun n => Ret (Some n))))
               = snd (run w (upload (batches 50 vs) 0))).
  { rewrite run_bind_trace. cbn [run snd]. by rewrite app_nil_r. }
  assert (Hr : fst (run w (io_bind (upload (batches 50 vs) 0) (fun n => Ret (Some n))))
               = Some (fst (run w (upload (batches 50 vs) 0))))
    by (by rewrite run_bind_result).
  rewrite Ht, Hr, Hc. split; [f_equal; lia|]. split; [exact Ha|exact Hs].
Qed.

(** X8. Round trip of an upload: the chunk of a prepared vector, as
    [query_namespace] builds it from the stored hit, has the prefixed id,
    the score of the hit and, as title, type, category, content, tags and
    namespace, what the uploaded chunk had. *)
Theorem upload_round_trip (u : uploader) (chunk : ContentChunk) (relevance : float) :
  NamespacedRAGSystem.chunk_info (stored_hit (uploader_vector_of u chunk) relevance)
  = {| NamespacedRAGSystem.id := uploader_prefix u +:+ c_id chunk;
       NamespacedRAGSystem.score := relevance;
       NamespacedRAGSystem.title := PStr (c_title chunk);
       NamespacedRAGSystem.type := PStr (c_type chunk);
       NamespacedRAGSystem.category := PStr (c_category chunk);
       NamespacedRAGSystem.content := PStr (c_content chunk);
       NamespacedRAGSystem.tags := PList (map PStr (c_tags chunk));
       NamespacedRAGSystem.namespace := PStr (uploader_namespace u) |}.
Proof.
  assert (H : forall vid data ns src,
            NamespacedRAGSystem.chunk_info
              (stored_hit (vid, data, metadata_of chunk ns src) relevance)
            = {| NamespacedRAGSystem.id := vid;
                 NamespacedRAGSystem.score := relevance;
                 NamespacedRAGSystem.title := PStr (c_title chunk);
                 NamespacedRAGSystem.type := PStr (c_type chunk);
                 NamespacedRAGSystem.category := PStr (c_category chunk);
                 NamespacedRAGSystem.content := PStr (c_content chunk);
                 NamespacedRAGSystem.tags := PList (map PStr (c_tags chunk));
                 NamespacedRAGSystem.namespace := PStr ns |}).
  { intros vid data ns src.
    destruct (metadata_of_lookup chunk ns src) as (_ & _ & Hne).
    unfold NamespacedRAGSystem.chunk_info, NamespacedRAGSystem.metadata_get, stored_hit.
    cbn [hit_metadata hit_id hit_score fst snd].
    rewrite bool_decide_eq_false_2 by exact Hne.
    unfold metadata_of. cbn [list_to_map foldr uncurry].
    repeat (first [rewrite lookup_insert_eq | rewrite lookup_insert_ne by discriminate]).
    reflexivity. }
  destruct u; apply H.
Qed.

Lemma append_prefix_inj (p a b : string) : p +:+ a = p +:+ b -> a = b.
Proof.
  induction p as [|c p IH]; [done|]. rewrite !append_cons. intros [= H]. by apply IH.
Qed.

(** X9. Vector ids keep the namespaces apart: two prepared vectors have
    the same id only if their paths write the same prefix and the chunks
    have the same id; a digital-twin vector and a food vector never share
    an id. *)
Theorem vector_ids_distinct (u1 u2 : uploader) (c1 c2 : ContentChunk) :
  fst (fst (uploader_vector_of u1 c1)) = fst (fst (uploader_vector_of u2 c2)) ->
  uploader_prefix u1 = uploader_prefix u2 /\ c_id c1 = c_id c2.
Proof.
  destruct u1, u2; cbn; intros H; try discriminate;
    (split; [reflexivity|]);
    first [by apply (append_prefix_inj "dt-") | by apply (append_prefix_inj "food-")].
Qed.

Lemma vector_ids_distinct_witness :
  fst (fst (uploader_vector_of DigitalTwinUpload sample_dt_chunk))
  = fst (fst (uploader_vector_of DigitalTwinReupload sample_dt_chunk))
  /\ uploader_prefix DigitalTwinUpload = uploader_prefix DigitalTwinReupload.
Proof.
  split; [reflexivity|].
  exact (proj1 (vector_ids_distinct DigitalTwinUpload DigitalTwinReupload
                  sample_dt_chunk sample_dt_chunk eq_refl)).
Defined.

(** ** Letter case in the classifier and the pipeline *)

Lemma char_lower_not_upper (c : ascii) : is_upper (Py.char_lower c) = false.
Proof. destruct c as [[] [] [] [] [] [] [] []]; vm_compute; reflexivity. Qed.

Lemma lower_upper_free (s : string) : upper_free (String.list_ascii_of_string (Py.lower s)).
Proof.
  induction s as [|a s IH]; intros c Hc; cbn in Hc.
  - by apply elem_of_nil in Hc.
  - apply elem_of_cons in Hc as [->|Hc]; [apply char_lower_not_upper|by apply IH].
Qed.

Lemma matches_suffix (r : Re.regex) (p q : Re.pos) :
  matches r p q -> exists read, snd p = read ++ snd q.
Proof.
  induction 1 as [p|c prev t|a prev t Ha|a prev t Ha|a prev t Ha|p Hb
                  |r1 r2 p q s _ [x1 IH1] _ [x2 IH2]
                  |r1 r2 p q _ IH|r1 r2 p q _ IH
                  |r p|r p q s _ [x1 IH1] _ [x2 IH2]];
    cbn [snd]; try (by exists []); try (by eexists [_]); try exact IH.
  - exists (x1 ++ x2). by rewrite IH1, IH2, app_assoc.
  - exists (x1 ++ x2). by rewrite IH1, IH2, app_assoc.
Qed.

Lemma needs_upper_reads (r : Re.regex) (p q : Re.pos) :
  matches r p q -> needs_upper r = true -> exists c, c ∈ snd p /\ is_upper c = true.
Proof.
  induction 1 as [p|c prev t|a prev t Ha|a prev t Ha|a prev t Ha|p Hb
                  |r1 r2 p q s H1 IH1 H2 IH2
                  |r1 r2 p q _ IH|r1 r2 p q _ IH
                  |r p|r p q s _ IH1 _ IH2];
    cbn [needs_upper]; try discriminate.
  - intros Hc. exists c. split; [left|exact Hc].
  - intros [Hn|Hn]%orb_true_iff; [by apply IH1|].
    destruct (IH2 Hn) as (c & Hc & Hu). destruct (matches_suffix _ _ _ H1) as [read Hr].
    exists c. split; [|exact Hu]. rewrite Hr. apply elem_of_app. by right.
  - intros [Hn _]%andb_true_iff. by apply IH.
  - intros [_ Hn]%andb_true_iff. by apply IH.
Qed.

Lemma upper_free_app_r (a b : list ascii) : upper_free (a ++ b) -> upper_free b.
Proof. intros H c Hc. apply H, elem_of_app. by right. Qed.

Lemma search_from_dead (r : Re.regex) (prev : option ascii) (s : list ascii) :
  needs_upper r = true -> upper_free s -> Re.search_from r prev s = false.
Proof.
  intros Hn Hs. destruct (Re.search_from r prev s) eqn:Hf; [|reflexivity].
  apply search_from_spec in Hf as (a & b & q & -> & Hm).
  destruct (needs_upper_reads _ _ _ Hm Hn) as (c & Hc & Hu).
  rewrite (upper_free_app_r _ _ Hs c Hc) in Hu. discriminate.
Qed.

Lemma search_from_ext (ra rb : Re.regex) (prev : option ascii) (s : list ascii) :
  (forall p q, upper_free (snd p) -> matches ra p q <-> matches rb p q) ->
  upper_free s -> Re.search_from ra prev s = Re.search_from rb prev s.
Proof.
  intros Heq Hs. apply eq_true_iff_eq. rewrite !search_from_spec.
  split; intros (a & b & q & -> & Hm); exists a, b, q; (split; [reflexivity|]);
    apply (Heq (prev_after prev a, b) q); try exact Hm; by apply upper_free_app_r in Hs.
Qed.

Lemma alt_dead_l (r1 r2 : Re.regex) (p q : Re.pos) :
  needs_upper r1 = true -> upper_free (snd p) ->
  matches (Re.Alt r1 r2) p q <-> matches r2 p q.
Proof.
  intros Hn Hp. split; [|by apply matches_alt_r].
  inversion 1; subst; [|assumption].
  match goal with H : matches r1 _ _ |- _ =>
    destruct (needs_upper_reads _ _ _ H Hn) as (c & Hc & Hu) end.
  rewrite (Hp c Hc) in Hu. discriminate.
Qed.

Lemma alt_dead_middle (r1 r2 r3 : Re.regex) (p q : Re.pos) :
  needs_upper r2 = true -> upper_free (snd p) ->
  matches (Re.Alt r1 (Re.Alt r2 r3)) p q <-> matches (Re.Alt r1 r3) p q.
Proof.
  intros Hn Hp. split.
  - inversion 1; subst; [by apply matches_alt_l|].
    apply matches_alt_r. by apply (alt_dead_l r2 r3).
  - inversion 1; subst; [by apply matches_alt_l|].
    apply matches_alt_r. by apply matches_alt_r.
Qed.

(** X10. The patterns written with capital letters cannot match, since
    the classifier searches the lower-cased question: "Food RAG Explorer"
    and "React|Next\.js|Python|JavaScript" match no question, and of
    "RAG|AI|ML|vector|embedding" and "database|API|framework" only the
    lower-case alternatives count. *)
Theorem capital_patterns_are_dead (question : string) :
  Re.search "Food RAG Explorer" (Py.lower question) = false
  /\ Re.search "React|Next\.js|Python|JavaScript" (Py.lower question) = false
  /\ Re.search "RAG|AI|ML|vector|embedding" (Py.lower question)
     = Re.search "vector|embedding" (Py.lower question)
  /\ Re.search "database|API|framework" (Py.lower question)
     = Re.search "database|framework" (Py.lower question).
Proof.
  pose proof (lower_upper_free question) as Hs.
  unfold Re.search. repeat split.
  - set (pr := Re.parse _). vm_compute in pr. subst pr.
    by apply search_from_dead.
  - set (pr := Re.parse _). vm_compute in pr. subst pr.
    by apply search_from_dead.
  - set (pr := Re.parse "RAG|AI|ML|vector|embedding"). vm_compute in pr. subst pr.
    set (pr := Re.parse "vector|embedding"). vm_compute in pr. subst pr.
    apply search_from_ext; [|exact Hs]. intros p q Hp.
    rewrite alt_dead_l by done. rewrite alt_dead_l by done. by rewrite alt_dead_l by done.
  - set (pr := Re.parse "database|API|framework"). vm_compute in pr. subst pr.
    set (pr := Re.parse "database|framework"). vm_compute in pr. subst pr.
    apply search_from_ext; [|exact Hs]. intros p q Hp.
    by apply alt_dead_middle.
Qed.

(** X11. The letter case of a question does not matter: two questions
    with the same lower-cased text get the same intent, the same context,
    the same response and the same validation, with or without a company
    context. *)
Theorem question_case_is_ignored (knowledge_base : KnowledgeBase) (q1 q2 : string)
    (company_context : option string) :
  Py.lower q1 = Py.lower q2 ->
  let r1 := InterviewOptimizedDigitalTwin.process_interview_question
              knowledge_base q1 company_context in
  let r2 := InterviewOptimizedDigitalTwin.process_interview_question
              knowledge_base q2 company_context in
  InterviewOptimizedDigitalTwin.r_query_type r1 = InterviewOptimizedDigitalTwin.r_query_type r2
  /\ InterviewOptimizedDigitalTwin.r_response r1 = InterviewOptimizedDigitalTwin.r_response r2
  /\ InterviewOptimizedDigitalTwin.r_validation r1
     = InterviewOptimizedDigitalTwin.r_validation r2
  /\ InterviewOptimizedDigitalTwin.r_context_used r1
     = InterviewOptimizedDigitalTwin.r_context_used r2.
Proof.
  intros Hl.
  assert (Hc : QueryClassifier.classify_query q1 = QueryClassifier.classify_query q2)
    by (unfold QueryClassifier.classify_query; by rewrite Hl).
  assert (Hb : forall ctx, ResponseTemplateGenerator.generate_behavioral_response q1 ctx
                           = ResponseTemplateGenerator.generate_behavioral_response q2 ctx)
    by (intros ctx; unfold ResponseTemplateGenerator.generate_behavioral_response;
        by rewrite Hl).
  assert (Ht : forall ctx, ResponseTemplateGenerator.generate_technical_response q1 ctx
                           = ResponseTemplateGenerator.generate_technical_response q2 ctx)
    by (intros ctx; unfold ResponseTemplateGenerator.generate_technical_response;
        by rewrite Hl).
  cbv zeta. unfold InterviewOptimizedDigitalTwin.process_interview_question.
  cbv zeta. cbn [InterviewOptimizedDigitalTwin.r_query_type
                 InterviewOptimizedDigitalTwin.r_response
                 InterviewOptimizedDigitalTwin.r_validation
                 InterviewOptimizedDigitalTwin.r_context_used].
  rewrite Hc.
  change (InterviewOptimizedDigitalTwin._extract_relevant_context knowledge_base q1)
    with (InterviewOptimizedDigitalTwin._extract_relevant_context knowledge_base q2).
  change (InterviewOptimizedDigitalTwin._generate_contextual_response q1)
    with (InterviewOptimizedDigitalTwin._generate_contextual_response q2).
  rewrite Hb, Ht. repeat split; reflexivity.
Qed.

Lemma question_case_is_ignored_witness :
  Py.lower "WHAT ARE YOUR SALARY EXPECTATIONS?" = Py.lower "What are your salary expectations?"
  /\ InterviewOptimizedDigitalTwin.r_query_type
       (InterviewOptimizedDigitalTwin.process_interview_question empty_knowledge_base
          "WHAT ARE YOUR SALARY EXPECTATIONS?" None)
     = InterviewOptimizedDigitalTwin.r_query_type
         (InterviewOptimizedDigitalTwin.process_interview_question empty_knowledge_base
            "What are your salary expectations?" None).
Proof.
  split; [reflexivity|].
  exact (proj1 (question_case_is_ignored empty_knowledge_base
                  "WHAT ARE YOUR SALARY EXPECTATIONS?" "What are your salary expectations?"
                  None eq_refl)).
Defined.

(** ** The validator *)

Lemma list_ascii_app (a b : string) :
  String.list_ascii_of_string (a +:+ b)
  = String.list_ascii_of_string a ++ String.list_ascii_of_string b.
Proof.
  induction a as [|c a IH]; [reflexivity|].
  rewrite append_cons. cbn. by rewrite IH.
Qed.

Lemma string_of_list_app (a b : list ascii) :
  String.string_of_list_ascii (a ++ b)
  = String.string_of_list_ascii a +:+ String.string_of_list_ascii b.
Proof.
  induction a as [|c a IH]; [reflexivity|].
  cbn [app String.string_of_list_ascii]. by rewrite IH.
Qed.

Lemma can_alt (r1 r2 : Re.regex) (p : Re.pos) :
  can (Re.Alt r1 r2) p <-> can r1 p \/ can r2 p.
Proof.
  split.
  - intros [q Hm]. inversion Hm; subst; [left|right]; by exists q.
  - intros [[q Hm]|[q Hm]]; exists q; [by apply matches_alt_l|by apply matches_alt_r].
Qed.

Lemma can_lit_then (w : string) (k : Re.regex) (prev : option ascii) (t : list ascii) :
  can (lit_then w k) (prev, t) <->
  exists t', t = String.list_ascii_of_string w ++ t'
             /\ can k (prev_after prev (String.list_ascii_of_string w), t').
Proof.
  unfold lit_then. revert prev t.
  induction (String.list_ascii_of_string w) as [|c l IH]; intros prev t; cbn [fold_right].
  - split; [intros Hk; by exists t|by intros (t' & -> & Hk)].
  - split.
    + intros [q Hm]. inversion Hm as [| | | | | |r1 r2 p0 q0 s0 H1 H2| | | |]; subst.
      inversion H1; subst.
      destruct (proj1 (IH (Some c) _) (ex_intro _ q H2)) as (t' & -> & Hk).
      exists t'. split; [reflexivity|]. by rewrite prev_after_cons.
    + intros (t' & -> & Hk). rewrite prev_after_cons in Hk.
      destruct (proj2 (IH (Some c) (l ++ t')) (ex_intro _ t' (conj eq_refl Hk))) as [q Hq].
      exists q. eapply matches_cat; [apply matches_chr|exact Hq].
Qed.

Lemma reads_lit (w : string) : reads_word (lit_then w Re.Eps) w.
Proof.
  intros [prev t]. rewrite can_lit_then. cbn [snd]. split.
  - intros (t' & -> & _). by exists t'.
  - intros [t' ->]. exists t'. split; [reflexivity|]. eexists. apply matches_eps.
Qed.

Lemma reads_lit_opt (w : string) (c : ascii) :
  reads_word (lit_then w (Re.Cat (Re.Opt (Re.Chr c)) Re.Eps)) w.
Proof.
  intros [prev t]. rewrite can_lit_then. cbn [snd]. split.
  - intros (t' & -> & _). by exists t'.
  - intros [t' ->]. exists t'. split; [reflexivity|]. eexists.
    eapply matches_cat; [apply matches_alt_r, matches_eps|apply matches_eps].
Qed.

Lemma can_alts (r : Re.regex) (rs : list Re.regex) (w : string) (ws : list string) :
  Forall2 reads_word (r :: rs) (w :: ws) ->
  forall p, can (alts r rs) p <->
            exists w' t, w' ∈ w :: ws /\ snd p = String.list_ascii_of_string w' ++ t.
Proof.
  revert r w ws. induction rs as [|r' rs IH]; intros r w ws H p.
  - apply Forall2_cons_1 in H as [Hr Hn]. apply Forall2_nil_inv_l in Hn as ->.
    cbn [alts]. rewrite (Hr p). split.
    + intros [t Ht]. exists w, t. split; [left|exact Ht].
    + intros (w' & t & ->%list_elem_of_singleton & Ht). by exists t.
  - apply Forall2_cons_1 in H as [Hr Hn].
    destruct ws as [|w2 ws]; [by apply Forall2_nil_inv_r in Hn|].
    cbn [alts]. rewrite can_alt, (Hr p), (IH r' w2 ws Hn p). split.
    + intros [[t Ht]|(w' & t & Hw & Ht)].
      * exists w, t. split; [left|exact Ht].
      * exists w', t. split; [by right|exact Ht].
    + intros (w' & t & [->|Hw]%elem_of_cons & Ht); [left; by exists t|].
      right. by exists w', t.
Qed.

Lemma search_from_words (r : Re.regex) (rs : list Re.regex) (w : string) (ws : list string)
    (text : string) :
  Forall2 reads_word (r :: rs) (w :: ws) ->
  Re.search_from (alts r rs) None (String.list_ascii_of_string text)
  = Py.any_in (w :: ws) text.
Proof.
  intros H. apply eq_true_iff_eq. rewrite search_from_spec, any_in_spec. split.
  - intros (a & b & q & Hs & Hm).
    destruct (proj1 (can_alts r rs w ws H _) (ex_intro _ q Hm)) as (w' & t & Hw & Ht).
    cbn [snd] in Ht. subst b.
    exists w', (String.string_of_list_ascii a), (String.string_of_list_ascii t).
    split; [exact Hw|].
    rewrite <- (String.string_of_list_ascii_of_string text), Hs, !string_of_list_app.
    by rewrite String.string_of_list_ascii_of_string.
  - intros (w' & pre & post & Hw & ->).
    destruct (proj2 (can_alts r rs w ws H
                       (prev_after None (String.list_ascii_of_string pre),
                        String.list_ascii_of_string w' ++ String.list_ascii_of_string post)))
      as [q Hq].
    { exists w', (String.list_ascii_of_string post). by split. }
    exists (String.list_ascii_of_string pre),
           (String.list_ascii_of_string w' ++ String.list_ascii_of_string post), q.
    split; [by rewrite !list_ascii_app|exact Hq].
Qed.

Lemma search_from_digits (prev : option ascii) (s : list ascii) :
  Re.search_from (Re.Cat (Re.Cat Re.Digit (Re.Star Re.Digit)) Re.Eps) prev s
  = existsb Py.is_digit s.
Proof.
  apply eq_true_iff_eq. rewrite search_from_spec, existsb_exists. split.
  - intros (a & b & q & -> & Hm).
    inversion Hm as [| | | | | |r1 r2 p0 q0 s0 H1 _| | | |]; subst.
    inversion H1 as [| | | | | |r1 r2 p0 q1 s1 H2 _| | | |]; subst.
    inversion H2; subst. eexists. split; [|eassumption].
    apply list_elem_of_In, elem_of_app. right. left.
  - intros (d & Hd%list_elem_of_In & Hdig).
    apply list_elem_of_split in Hd as (a & b & ->).
    exists a, (d :: b), (Some d, b). split; [reflexivity|].
    eapply matches_cat; [|apply matches_eps].
    eapply matches_cat; [by apply matches_digit|apply matches_star_nil].
Qed.

Lemma search_from_year (prev : option ascii) (s : list ascii) :
  Re.search_from
    (Re.Cat Re.WordB
       (Re.Cat (Re.Cat Re.Digit (Re.Cat Re.Digit (Re.Cat Re.Digit (Re.Cat Re.Digit Re.Eps))))
          (Re.Cat Re.WordB Re.Eps))) prev s = true ->
  existsb Py.is_digit s = true.
Proof.
  rewrite search_from_spec, existsb_exists.
  intros (a & b & q & -> & Hm).
  inversion Hm as [| | | | | |r1 r2 p0 q0 s0 H1 H2| | | |]; subst.
  inversion H1; subst.
  inversion H2 as [| | | | | |r1 r2 p0 q1 s1 H3 _| | | |]; subst.
  inversion H3 as [| | | | | |r1 r2 p0 q2 s2 H4 _| | | |]; subst.
  inversion H4; subst. eexists. split; [|eassumption].
  apply list_elem_of_In, elem_of_app. right. left.
Qed.

(** X12. What counts as a specific detail: a response has one exactly
    when it holds a decimal digit or one of twelve fixed words (six
    technology names, three names of employers and projects, and "week",
    "month" or "day", also inside a longer word).  The four-digit-year
    pattern adds nothing to the digit pattern. *)
Theorem specific_details_are_digits_or_words (response : string) :
  ResponseValidator._has_specific_details response
  = has_digit response || Py.any_in detail_words response.
Proof.
  unfold ResponseValidator._has_specific_details, ResponseValidator.specific_patterns,
    Re.any_search, has_digit.
  cbn [existsb]. unfold Re.search.
  replace (Re.parse "\d+")
    with (Some (Re.Cat (Re.Cat Re.Digit (Re.Star Re.Digit)) Re.Eps))
    by (vm_compute; reflexivity).
  replace (Re.parse "React|Next\.js|Python|JavaScript|Vercel|AWS")
    with (Some (alts (lit_then "React" Re.Eps)
                  [lit_then "Next.js" Re.Eps; lit_then "Python" Re.Eps;
                   lit_then "JavaScript" Re.Eps; lit_then "Vercel" Re.Eps;
                   lit_then "AWS" Re.Eps]))
    by (vm_compute; reflexivity).
  replace (Re.parse "ausbiz|Victoria University|Food RAG Explorer")
    with (Some (alts (lit_then "ausbiz" Re.Eps)
                  [lit_then "Victoria University" Re.Eps;
                   lit_then "Food RAG Explorer" Re.Eps]))
    by (vm_compute; reflexivity).
  replace (Re.parse "\b\d{4}\b")
    with (Some (Re.Cat Re.WordB
                  (Re.Cat (Re.Cat Re.Digit (Re.Cat Re.Digit (Re.Cat Re.Digit
                                                                (Re.Cat Re.Digit Re.Eps))))
                     (Re.Cat Re.WordB Re.Eps))))
    by (vm_compute; reflexivity).
  replace (Re.parse "weeks?|months?|days?")
    with (Some (alts (lit_then "week" (Re.Cat (Re.Opt (Re.Chr "s")) Re.Eps))
                  [lit_then "month" (Re.Cat (Re.Opt (Re.Chr "s")) Re.Eps);
                   lit_then "day" (Re.Cat (Re.Opt (Re.Chr "s")) Re.Eps)]))
    by (vm_compute; reflexivity).
  rewrite search_from_digits.
  rewrite (search_from_words _ _ "React" ["Next.js"; "Python"; "JavaScript"; "Vercel"; "AWS"])
    by (repeat (constructor; [apply reads_lit|]); constructor).
  rewrite (search_from_words _ _ "ausbiz" ["Victoria University"; "Food RAG Explorer"])
    by (repeat (constructor; [apply reads_lit|]); constructor).
  rewrite (search_from_words _ _ "week" ["month"; "day"])
    by (repeat (constructor; [apply reads_lit_opt|]); constructor).
  change detail_words
    with (["React"; "Next.js"; "Python"; "JavaScript"; "Vercel"; "AWS"]
          ++ ["ausbiz"; "Victoria University"; "Food RAG Explorer"]
          ++ ["week"; "month"; "day"]).
  unfold Py.any_in. rewrite !existsb_app.
  pose proof (search_from_year None (String.list_ascii_of_string response)) as Hy.
  destruct (existsb Py.is_digit (String.list_ascii_of_string response)); [reflexivity|].
  destruct (Re.search_from _ None _) eqn:Hyear in Hy |- *.
  { by specialize (Hy eq_refl). }
  repeat match goal with |- context [existsb ?f ?l] => destruct (existsb f l) end;
    reflexivity.
Qed.

Lemma check_response_length_band (response : string) (query_type : QueryType) :
  (ResponseValidator.truthy (ResponseValidator._check_response_length response query_type)
   = None <->
   forall lo hi, length_band query_type = Some (lo, hi) ->
                 lo <= Py.word_count response <= hi)
  /\ ResponseValidator.truthy (ResponseValidator._check_response_length response query_type)
     = ResponseValidator._check_response_length response query_type.
Proof.
  unfold ResponseValidator._check_response_length, length_band. cbv zeta.
  destruct query_type; cbn [ResponseValidator.truthy];
    try (split; [split; [intros _ lo hi [=]|reflexivity]|reflexivity]).
  - destruct (Z.ltb_spec (Py.word_count response) 80);
      [|destruct (Z.gtb_spec (Py.word_count response) 250)];
      cbn [ResponseValidator.truthy]; (split; [|reflexivity]); split;
      try discriminate; try (intros _ lo hi [= <- <-]; lia); try (intros _; reflexivity);
      intros Hb; specialize (Hb _ _ eq_refl); lia.
  - destruct (Z.ltb_spec (Py.word_count response) 60);
      [|destruct (Z.gtb_spec (Py.word_count response) 200)];
      cbn [ResponseValidator.truthy]; (split; [|reflexivity]); split;
      try discriminate; try (intros _ lo hi [= <- <-]; lia); try (intros _; reflexivity);
      intros Hb; specialize (Hb _ _ eq_refl); lia.
Qed.

Lemma validate_response_shape (response : string) (query_type : QueryType) :
  let v := ResponseValidator.validate_response response query_type in
  exists flagged,
    issues v = flagged ++ ResponseValidator._check_for_hallucinations response
    /\ length flagged = length (suggestions v)
    /\ (length flagged <= 4)%nat
    /\ is_valid v = (length (issues v) =? 0)%nat
    /\ (flagged = [] <->
          ResponseValidator._has_first_person_perspective response = true
          /\ ResponseValidator._has_specific_details response = true
          /\ ResponseValidator.truthy
               (ResponseValidator._check_response_length response query_type) = None
          /\ (query_type = BEHAVIORAL ->
               ResponseValidator._has_star_structure response = true)).
Proof.
  cbv zeta. unfold ResponseValidator.validate_response. cbv zeta.
  destruct (ResponseValidator.truthy
              (ResponseValidator._check_response_length response query_type))
    as [length_issue|];
    destruct (ResponseValidator._has_first_person_perspective response);
    destruct (ResponseValidator._has_specific_details response);
    destruct (ResponseValidator._has_star_structure response);
    destruct query_type;
    cbn [negb fst snd issues suggestions is_valid];
    (eexists; split; [reflexivity|]);
    (split; [reflexivity|]); (split; [cbn; lia|]); (split; [reflexivity|]);
    cbn [app]; intuition congruence.
Qed.

(** X13. The verdict of the validator.  A response is valid exactly when
    it is in the first person, has a specific detail, has a word count
    inside the band of its intent (80 to 250 words for a behavioural
    question, 60 to 200 for a technical one, no band otherwise), has a STAR
    structure if the question is behavioural, and raises no hallucination
    issue.  The issues are the flagged checks, one suggestion each and at
    most four, followed by the hallucination issues, which come without a
    suggestion. *)
Theorem validate_response_verdict (response : string) (query_type : QueryType) :
  let v := ResponseValidator.validate_response response query_type in
  (is_valid v = true <->
     ResponseValidator._has_first_person_perspective response = true
     /\ ResponseValidator._has_specific_details response = true
     /\ (forall lo hi, length_band query_type = Some (lo, hi) ->
                       lo <= Py.word_count response <= hi)
     /\ (query_type = BEHAVIORAL -> ResponseValidator._has_star_structure response = true)
     /\ ResponseValidator._check_for_hallucinations response = [])
  /\ (exists flagged,
        issues v = flagged ++ ResponseValidator._check_for_hallucinations response
        /\ length flagged = length (suggestions v))
  /\ (length (suggestions v) <= 4)%nat
  /\ (length (issues v) <= 6)%nat
  /\ (is_valid v = true <-> issues v = [])
  /\ (is_valid v = true -> suggestions v = []).
Proof.
  destruct (check_response_length_band response query_type) as [Hband _].
  destruct (validate_response_shape response query_type)
    as (flagged & Hi & Hs & H4 & Hv & Hf).
  assert (Hh : (length (ResponseValidator._check_for_hallucinations response) <= 2)%nat).
  { unfold ResponseValidator._check_for_hallucinations. cbv zeta.
    split_ifs; cbn; lia. }
  cbv zeta in *.
  set (v := ResponseValidator.validate_response response query_type) in *.
  assert (Hnil : is_valid v = true <-> issues v = []).
  { rewrite Hv. destruct (issues v); cbn; split; congruence. }
  assert (Happ : issues v = [] <->
                 flagged = []
                 /\ ResponseValidator._check_for_hallucinations response = []).
  { rewrite Hi. split; [apply app_eq_nil|by intros [-> ->]]. }
  split; [|split; [|split; [|split; [|split]]]].
  - rewrite Hnil, Happ, Hf, Hband. tauto.
  - exists flagged. by split.
  - lia.
  - rewrite Hi, length_app. lia.
  - exact Hnil.
  - rewrite Hnil, Happ. intros [-> _].
    destruct (suggestions v); [reflexivity|cbn in Hs; discriminate Hs].
Qed.

(** ** The generator and the knowledge base *)

Lemma any_in_app (l1 l2 : list string) (s : string) :
  Py.any_in (l1 ++ l2) s = Py.any_in l1 s || Py.any_in l2 s.
Proof. unfold Py.any_in. apply existsb_app. Qed.

(** X14. The knowledge base has no influence on the answer to a question
    that selects a fixed text: a question about salary or location,
    availability or the company, a behavioural question with one of the
    fourteen keywords of the behavioural generator, or a technical one with
    one of its nine keywords.  Response and validation are the same
    whatever the knowledge base holds. *)
Theorem templated_response_ignores_knowledge_base (kb1 kb2 : KnowledgeBase)
    (question : string) (company_context : option string) :
  templated question = true ->
  let r1 := InterviewOptimizedDigitalTwin.process_interview_question
              kb1 question company_context in
  let r2 := InterviewOptimizedDigitalTwin.process_interview_question
              kb2 question company_context in
  InterviewOptimizedDigitalTwin.r_response r1 = InterviewOptimizedDigitalTwin.r_response r2
  /\ InterviewOptimizedDigitalTwin.r_validation r1
     = InterviewOptimizedDigitalTwin.r_validation r2.
Proof.
  unfold templated. intros Ht. cbv zeta.
  unfold InterviewOptimizedDigitalTwin.process_interview_question. cbv zeta.
  cbn [InterviewOptimizedDigitalTwin.r_response InterviewOptimizedDigitalTwin.r_validation].
  set (c1 := InterviewOptimizedDigitalTwin._extract_relevant_context kb1 question _).
  set (c2 := InterviewOptimizedDigitalTwin._extract_relevant_context kb2 question _).
  clearbody c1 c2.
  assert (Hr : match QueryClassifier.classify_query question with
               | BEHAVIORAL =>
                   ResponseTemplateGenerator.generate_behavioral_response question c1
               | TECHNICAL =>
                   ResponseTemplateGenerator.generate_technical_response question c1
               | _ => InterviewOptimizedDigitalTwin._generate_contextual_response
                        question (QueryClassifier.classify_query question) c1
               end
               = match QueryClassifier.classify_query question with
                 | BEHAVIORAL =>
                     ResponseTemplateGenerator.generate_behavioral_response question c2
                 | TECHNICAL =>
                     ResponseTemplateGenerator.generate_technical_response question c2
                 | _ => InterviewOptimizedDigitalTwin._generate_contextual_response
                          question (QueryClassifier.classify_query question) c2
                 end).
  { destruct (QueryClassifier.classify_query question); try discriminate Ht;
      try reflexivity.
    - rewrite !any_in_app in Ht.
      unfold ResponseTemplateGenerator.generate_behavioral_response. cbv zeta.
      repeat match goal with
             | |- context [Py.any_in ?l ?s] => destruct (Py.any_in l s); try reflexivity
             end.
      discriminate Ht.
    - rewrite !any_in_app in Ht.
      unfold ResponseTemplateGenerator.generate_technical_response. cbv zeta.
      change (Py.any_in ["rag"] (Py.lower question))
        with (Py.str_in "rag" (Py.lower question) || false) in Ht.
      destruct (Py.str_in "rag" (Py.lower question)); [reflexivity|].
      repeat match goal with
             | |- context [Py.any_in ?l ?s] => destruct (Py.any_in l s); try reflexivity
             end.
      discriminate Ht. }
  rewrite Hr. split; reflexivity.
Qed.

Lemma templated_response_ignores_knowledge_base_witness :
  templated "What are your salary expectations?" = true
  /\ InterviewOptimizedDigitalTwin.r_response
       (InterviewOptimizedDigitalTwin.process_interview_question
          empty_knowledge_base "What are your salary expectations?" None)
     = InterviewOptimizedDigitalTwin.r_response
         (InterviewOptimizedDigitalTwin.process_interview_question
            sample_knowledge_base "What are your salary expectations?" None).
Proof.
  split; [vm_compute; reflexivity|].
  refine (proj1 (templated_response_ignores_knowledge_base empty_knowledge_base
                   sample_knowledge_base "What are your salary expectations?" None _)).
  vm_compute; reflexivity.
Defined.

(** X15. A question that selects no fixed text, asked when the knowledge
    base has no chunk of the types its intent reads, is answered with one
    of three placeholder sentences. *)
Theorem untemplated_question_without_context (knowledge_base : KnowledgeBase)
    (question : string) :
  templated question = false ->
  InterviewOptimizedDigitalTwin._extract_relevant_context knowledge_base question
    (QueryClassifier.classify_query question) = [] ->
  InterviewOptimizedDigitalTwin.r_response
    (InterviewOptimizedDigitalTwin.process_interview_question knowledge_base question None)
  ∈ placeholders
  /\ InterviewOptimizedDigitalTwin.r_context_used
       (InterviewOptimizedDigitalTwin.process_interview_question knowledge_base question None)
     = [].
Proof.
  unfold templated. intros Ht Hc.
  unfold InterviewOptimizedDigitalTwin.process_interview_question. cbv zeta.
  cbn [InterviewOptimizedDigitalTwin.r_response InterviewOptimizedDigitalTwin.r_context_used].
  rewrite Hc. split; [|reflexivity]. unfold placeholders.
  destruct (QueryClassifier.classify_query question); try discriminate Ht.
  - rewrite !any_in_app in Ht.
    unfold ResponseTemplateGenerator.generate_behavioral_response. cbv zeta.
    repeat match goal with
           | |- context [Py.any_in ?l ?s] =>
               destruct (Py.any_in l s); try discriminate Ht
           end.
    cbn. left.
  - rewrite !any_in_app in Ht.
    unfold ResponseTemplateGenerator.generate_technical_response. cbv zeta.
    change (Py.any_in ["rag"] (Py.lower question))
      with (Py.str_in "rag" (Py.lower question) || false) in Ht.
    destruct (Py.str_in "rag" (Py.lower question)); [discriminate Ht|].
    repeat match goal with
           | |- context [Py.any_in ?l ?s] =>
               destruct (Py.any_in l s); try discriminate Ht
           end.
    cbn. right. left.
  - cbn. do 2 right. left.
  - cbn. do 2 right. left.
  - cbn. do 2 right. left.
Qed.

Lemma untemplated_question_without_context_witness :
  templated "Good morning" = false
  /\ InterviewOptimizedDigitalTwin.r_response
       (InterviewOptimizedDigitalTwin.process_interview_question
          empty_knowledge_base "Good morning" None)
     ∈ placeholders.
Proof.
  split; [vm_compute; reflexivity|].
  refine (proj1 (untemplated_question_without_context empty_knowledge_base
                   "Good morning" _ _)); vm_compute; reflexivity.
Defined.

(** ** Company customization: what is added and what never is *)

(** X16. Without an identified company, only a behavioural or a
    company-specific answer is customized: for every other query type the
    response comes back unchanged, whatever the company context says. *)
Theorem unknown_company_other_query_unchanged (base_response company_context query_type : string) :
  CompanyResponseCustomizer._identify_company company_context = None ->
  Py.elem_str query_type ["behavioral"; "company_specific"] = false ->
  CompanyResponseCustomizer.customize_response base_response company_context query_type
  = base_response.
Proof.
  intros Hid Hq. unfold CompanyResponseCustomizer.customize_response. rewrite Hid.
  assert (Hb : String.eqb query_type "behavioral" = false
               /\ String.eqb query_type "company_specific" = false).
  { unfold Py.elem_str in Hq. cbn [existsb] in Hq.
    destruct (String.eqb query_type "behavioral"); [discriminate Hq|].
    destruct (String.eqb query_type "company_specific"); [discriminate Hq|]. by split. }
  destruct Hb as [Hb Hc].
  unfold CompanyResponseCustomizer._customize_for_industry. cbv zeta.
  destruct (List.find _ CompanyResponseCustomizer.industry_patterns) as [[industry_name patterns]|].
  - unfold CompanyResponseCustomizer._add_industry_customization. cbn [fst snd].
    rewrite Hq, Hb, !andb_false_r. reflexivity.
  - unfold CompanyResponseCustomizer._add_generic_customization. by rewrite Hc.
Qed.

Lemma unknown_company_other_query_unchanged_witness :
  CompanyResponseCustomizer._identify_company "Acme Robotics, a banking startup" = None
  /\ CompanyResponseCustomizer.customize_response
       "I build web applications." "Acme Robotics, a banking startup" "technical"
     = "I build web applications.".
Proof.
  split; [vm_compute; reflexivity|].
  apply unknown_company_other_query_unchanged; vm_compute; reflexivity.
Defined.

Lemma find_some_elem {A : Type} (f : A -> bool) (l : list A) (x : A) :
  List.find f l = Some x -> x ∈ l /\ f x = true.
Proof.
  intros [Hin Hf]%find_some. split; [by apply list_elem_of_In|exact Hf].
Qed.

(** X17. An identified company is one of the four profiles of the table,
    and for none of them the test for a customer value succeeds: the test
    is list membership of "Customer" (or of "customer" among the
    lower-cased values), and the values are phrases such as "Customer
    First".  The customer-centricity paragraph is therefore never added,
    while every profile shares a technology with the candidate. *)
Theorem customer_paragraph_is_never_added (company_context : string)
    (company : CompanyResponseCustomizer.CompanyProfile) :
  CompanyResponseCustomizer._identify_company company_context = Some company ->
  company ∈ map snd CompanyResponseCustomizer.brisbane_companies
  /\ Py.elem_str "Customer" (CompanyResponseCustomizer.values company)
     || Py.elem_str "customer" (map Py.lower (CompanyResponseCustomizer.values company))
     = false
  /\ List.filter
       (fun tech => Py.elem_str tech
                      ["Python"; "JavaScript"; "TypeScript"; "React"; "Next.js"; "AWS"; "Node.js"])
       (CompanyResponseCustomizer.tech_stack company) <> [].
Proof.
  unfold CompanyResponseCustomizer._identify_company. cbv zeta.
  destruct (List.find _ CompanyResponseCustomizer.brisbane_companies) as [kp|] eqn:Hf;
    [|discriminate].
  intros [= <-]. apply find_some_elem in Hf as [Hin _].
  split; [by apply list_elem_of_fmap_2|].
  unfold CompanyResponseCustomizer.brisbane_companies in Hin.
  repeat (apply elem_of_cons in Hin as [->|Hin]; [split; [vm_compute; reflexivity|discriminate]|]).
  by apply elem_of_nil in Hin.
Qed.

Lemma customer_paragraph_is_never_added_witness :
  match CompanyResponseCustomizer._identify_company "We are Suncorp, an insurer" with
  | Some company =>
      Py.elem_str "Customer" (CompanyResponseCustomizer.values company)
      || Py.elem_str "customer" (map Py.lower (CompanyResponseCustomizer.values company))
      = false
  | None => False
  end.
Proof.
  exact (proj1 (proj2 (customer_paragraph_is_never_added
                         "We are Suncorp, an insurer" _ eq_refl))).
Defined.

(** X18. The letter case of the company context does not matter: two
    contexts with the same lower-cased text give the same customized
    response. *)
Theorem company_context_case_is_ignored (base_response c1 c2 query_type : string) :
  Py.lower c1 = Py.lower c2 ->
  CompanyResponseCustomizer.customize_response base_response c1 query_type
  = CompanyResponseCustomizer.customize_response base_response c2 query_type.
Proof.
  intros Hl.
  unfold CompanyResponseCustomizer.customize_response,
    CompanyResponseCustomizer._identify_company,
    CompanyResponseCustomizer._customize_for_industry,
    CompanyResponseCustomizer._add_generic_customization.
  cbv zeta. by rewrite Hl.
Qed.

Lemma company_context_case_is_ignored_witness :
  Py.lower "XERO Limited" = Py.lower "Xero limited"
  /\ CompanyResponseCustomizer.customize_response "I like accounting software."
       "XERO Limited" "technical"
     = CompanyResponseCustomizer.customize_response "I like accounting software."
         "Xero limited" "technical".
Proof.
  split; [reflexivity|]. by apply company_context_case_is_ignored.
Defined.

(** ** The trainer: advice, score ranges and the practice log *)

(** X19. The advice follows the sub-scores: three recommendations for
    each sub-score below 70, in the order content, structure, impact,
    engagement, and none when every sub-score is at least 70.  The analysis
    of a response carries the advice of its own sub-scores, and its lists
    of strengths and improvement areas are always empty. *)
Theorem recommendations_follow_scores (response question : string)
    (context : RecruiterSatisfactionTrainer.Context)
    (scores : RecruiterSatisfactionTrainer.ComponentScores) :
  (length (RecruiterSatisfactionTrainer._generate_recommendations scores)
   = 3 * low_scores scores)%nat
  /\ (RecruiterSatisfactionTrainer._generate_recommendations scores = [] <->
      70 <= RecruiterSatisfactionTrainer.content scores
      /\ 70 <= RecruiterSatisfactionTrainer.structure scores
      /\ 70 <= RecruiterSatisfactionTrainer.impact scores
      /\ 70 <= RecruiterSatisfactionTrainer.engagement scores)
  /\ (let a := RecruiterSatisfactionTrainer.analyze_response_quality
                 response question context in
      RecruiterSatisfactionTrainer.recommendations a
      = RecruiterSatisfactionTrainer._generate_recommendations
          (RecruiterSatisfactionTrainer.component_scores a)
      /\ RecruiterSatisfactionTrainer.strengths a = []
      /\ RecruiterSatisfactionTrainer.improvement_areas a = []).
Proof.
  unfold RecruiterSatisfactionTrainer._generate_recommendations,
    RecruiterSatisfactionTrainer.extend_if, low_scores.
  cbv zeta. cbn [List.filter].
  destruct (Z.ltb_spec (RecruiterSatisfactionTrainer.content scores) 70);
    destruct (Z.ltb_spec (RecruiterSatisfactionTrainer.structure scores) 70);
    destruct (Z.ltb_spec (RecruiterSatisfactionTrainer.impact scores) 70);
    destruct (Z.ltb_spec (RecruiterSatisfactionTrainer.engagement scores) 70);
    (split; [reflexivity|]);
    (split; [split; [try discriminate; intros _; lia|try reflexivity; lia]
            |repeat split]).
Qed.

(** X20. The structure score is at least 10, since every word count falls
    in one of the three length cases.  When the question holds none of the
    three behavioural phrases the score is at most 70, and it is 70 exactly
    when the response has a flow marker, a conclusion marker and between
    225 and 450 words. *)
Theorem structure_score_range (response question : string) :
  10 <= RecruiterSatisfactionTrainer._analyze_structure response question
  /\ (Py.any_in ["tell me about"; "describe a time"; "give me an example"]
        (Py.lower question) = false ->
      RecruiterSatisfactionTrainer._analyze_structure response question <= 70
      /\ (RecruiterSatisfactionTrainer._analyze_structure response question = 70 <->
          Py.any_in ["first"; "then"; "next"; "finally"; "as a result"; "this led to"]
            (Py.lower response) = true
          /\ Py.any_in ["in summary"; "overall"; "this experience"; "as a result"; "ultimately"]
               (Py.lower response) = true
          /\ 225 <= Py.word_count response <= 450)).
Proof.
  unfold RecruiterSatisfactionTrainer._analyze_structure,
    RecruiterSatisfactionTrainer.add_if.
  cbv zeta.
  pose proof (count_in_nonneg ["situation"; "task"; "action"; "result"] (Py.lower response)).
  destruct (Py.any_in ["tell me about"; "describe a time"; "give me an example"]
              (Py.lower question));
    destruct (Py.any_in ["first"; "then"; "next"; "finally"; "as a result"; "this led to"]
                (Py.lower response));
    destruct (Py.any_in ["in summary"; "overall"; "this experience"; "as a result"; "ultimately"]
                (Py.lower response));
    destruct (Z.leb_spec 225 (Py.word_count response));
    destruct (Z.leb_spec (Py.word_count response) 450);
    destruct (Z.leb_spec 180 (Py.word_count response));
    destruct (Z.ltb_spec (Py.word_count response) 225);
    destruct (Z.ltb_spec 450 (Py.word_count response));
    destruct (Z.leb_spec (Py.word_count response) 500);
    destruct (Z.ltb_spec (Py.word_count response) 180);
    destruct (Z.gtb_spec (Py.word_count response) 500);
    cbn [andb orb]; try lia;
    (split; [lia|]); intros Hq; try discriminate Hq;
    (split; [lia|]); (split; [intros Hs; try lia; repeat split; try lia
                             |intros (H1 & H2 & H3); try discriminate; lia]).
Qed.

(** X21. With a role other than technical and no company name in the
    context, the content score is at most 65, so the analysis of every
    response carries the three pieces of content advice first. *)
Theorem content_advice_without_company (response question : string)
    (context : RecruiterSatisfactionTrainer.Context) :
  Py.opt_eq (RecruiterSatisfactionTrainer.role_type context) "technical" = false ->
  match RecruiterSatisfactionTrainer.company context with
  | Some c => c = EmptyString
  | None => True
  end ->
  RecruiterSatisfactionTrainer._analyze_content_quality response context <= 65
  /\ [ "Add specific, quantifiable examples with metrics";
       "Include more technical details relevant to the role";
       "Research and reference the company's specific challenges/goals" ]
     `prefix_of` RecruiterSatisfactionTrainer.recommendations
                   (RecruiterSatisfactionTrainer.analyze_response_quality
                      response question context).
Proof.
  intros Hrole Hcompany.
  assert (Hc : RecruiterSatisfactionTrainer._analyze_content_quality response context <= 65).
  { unfold RecruiterSatisfactionTrainer._analyze_content_quality,
      RecruiterSatisfactionTrainer.add_if.
    cbv zeta. rewrite Hrole.
    destruct (RecruiterSatisfactionTrainer.company context) as [c|]; [subst c|];
      cbn [Py.lower String.eqb negb andb]; split_ifs; lia. }
  split; [exact Hc|].
  unfold RecruiterSatisfactionTrainer.analyze_response_quality. cbv zeta.
  cbn [RecruiterSatisfactionTrainer.recommendations].
  unfold RecruiterSatisfactionTrainer._generate_recommendations,
    RecruiterSatisfactionTrainer.extend_if.
  cbv zeta. cbn [RecruiterSatisfactionTrainer.content RecruiterSatisfactionTrainer.structure
                 RecruiterSatisfactionTrainer.impact RecruiterSatisfactionTrainer.engagement].
  destruct (Z.ltb_spec (RecruiterSatisfactionTrainer._analyze_content_quality response context)
              70); [|lia].
  split_ifs; cbn [app]; eexists; reflexivity.
Qed.

Lemma content_advice_without_company_witness :
  RecruiterSatisfactionTrainer._analyze_content_quality
    "I improved the build and, for example, reduced the load time by 40%."
    {| RecruiterSatisfactionTrainer.role_type := Some "graduate";
       RecruiterSatisfactionTrainer.company := None;
       RecruiterSatisfactionTrainer.key_skills := Some ["build"] |} <= 65.
Proof.
  refine (proj1 (content_advice_without_company _ "How do you work?" _ _ _));
    [reflexivity|exact I].
Defined.

Lemma practice_all_sessions (calls : list practice_call)
    (self : RecruiterSatisfactionTrainer.Trainer) :
  RecruiterSatisfactionTrainer.practice_sessions (practice_all calls self)
  = RecruiterSatisfactionTrainer.practice_sessions self
    ++ map (fun c =>
              {| RecruiterSatisfactionTrainer.s_timestamp := call_time c;
                 RecruiterSatisfactionTrainer.s_question := call_question c;
                 RecruiterSatisfactionTrainer.s_response := call_response c;
                 RecruiterSatisfactionTrainer.s_context := call_context c;
                 RecruiterSatisfactionTrainer.s_analysis :=
                   RecruiterSatisfactionTrainer.analyze_response_quality
                     (call_response c) (call_question c) (call_context c) |}) calls
  /\ RecruiterSatisfactionTrainer.target_satisfaction (practice_all calls self)
     = RecruiterSatisfactionTrainer.target_satisfaction self.
Proof.
  revert self. induction calls as [|c calls IH]; intros self.
  - cbn. by rewrite app_nil_r.
  - cbn [practice_all fold_left].
    destruct (IH (fst (RecruiterSatisfactionTrainer.practice_response
                         (call_time c) self (call_question c) (call_response c)
                         (call_context c)))) as [Hs Ht].
    unfold practice_all in Hs, Ht. rewrite Hs, Ht. cbn. by rewrite <- app_assoc.
Qed.

Lemma between_slice_length {A : Type} (xs : list A) :
  length (RecruiterSatisfactionTrainer.between_slice 10 5 xs)
  = Nat.min (length xs - 5) 5.
Proof.
  unfold RecruiterSatisfactionTrainer.between_slice.
  rewrite length_drop, length_take. lia.
Qed.

Lemma calculate_trend_cases (py_sum : list float -> float)
    (self : RecruiterSatisfactionTrainer.Trainer) :
  let n := length (RecruiterSatisfactionTrainer.practice_sessions self) in
  let trend := RecruiterSatisfactionTrainer._calculate_trend py_sum self in
  (trend = "Insufficient data" <-> (n < 5)%nat)
  /\ (trend = "Building baseline" <-> n = 5%nat)
  /\ ((5 < n)%nat -> trend ∈ ["Improving"; "Declining"; "Stable"]).
Proof.
  cbv zeta. unfold RecruiterSatisfactionTrainer._calculate_trend. cbv zeta.
  pose proof (between_slice_length (RecruiterSatisfactionTrainer.practice_sessions self)) as Hl.
  destruct (Nat.ltb_spec (length (RecruiterSatisfactionTrainer.practice_sessions self)) 5)
    as [Hn|Hn].
  { repeat split; try done; try lia. }
  destruct (RecruiterSatisfactionTrainer.between_slice 10 5
              (RecruiterSatisfactionTrainer.practice_sessions self)) as [|s earlier];
    cbn [map length] in *.
  { repeat split; try done; try lia. }
  split_ifs; (split; [split; [discriminate|lia]|]);
    (split; [split; [discriminate|lia]|]); intros _.
  - left.
  - right. left.
  - do 2 right. left.
Qed.

(** X22. The practice log.  After a series of practice calls on a new
    trainer the log holds one session per call, in call order, each with
    the analysis of its response.  The progress report is the message
    "No practice sessions recorded yet" when nothing was practised;
    otherwise it counts every session, names the target 85 and exactly one
    milestone, and its trend is "Insufficient data" for fewer than five
    sessions, "Building baseline" for exactly five, and one of
    "Improving", "Declining" and "Stable" from the sixth session on. *)
Theorem progress_report_after_practice (py_sum : list float -> float)
    (py_round : float -> Z -> float) (calls : list practice_call) :
  let self := practice_all calls RecruiterSatisfactionTrainer.new_trainer in
  map RecruiterSatisfactionTrainer.s_analysis
      (RecruiterSatisfactionTrainer.practice_sessions self)
  = map (fun c => RecruiterSatisfactionTrainer.analyze_response_quality
                    (call_response c) (call_question c) (call_context c)) calls
  /\ match RecruiterSatisfactionTrainer.get_progress_report py_sum py_round self with
     | RecruiterSatisfactionTrainer.NoSessions message =>
         calls = [] /\ message = "No practice sessions recorded yet"
     | RecruiterSatisfactionTrainer.Progress _ target _ sessions_completed trend
         next_milestones =>
         calls <> []
         /\ sessions_completed = length calls
         /\ target = 85
         /\ length next_milestones = 1%nat
         /\ (trend = "Insufficient data" <-> (length calls < 5)%nat)
         /\ (trend = "Building baseline" <-> length calls = 5%nat)
         /\ ((5 < length calls)%nat -> trend ∈ ["Improving"; "Declining"; "Stable"])
     end.
Proof.
  cbv zeta.
  destruct (practice_all_sessions calls RecruiterSatisfactionTrainer.new_trainer) as [Hs Ht].
  cbn [RecruiterSatisfactionTrainer.new_trainer
       RecruiterSatisfactionTrainer.practice_sessions
       RecruiterSatisfactionTrainer.target_satisfaction app] in Hs, Ht.
  split.
  { rewrite Hs, map_map. reflexivity. }
  pose proof (calculate_trend_cases py_sum
                (practice_all calls RecruiterSatisfactionTrainer.new_trainer)) as Htrend.
  cbv zeta in Htrend.
  assert (Hlen : length (RecruiterSatisfactionTrainer.practice_sessions
                           (practice_all calls RecruiterSatisfactionTrainer.new_trainer))
                 = length calls) by (by rewrite Hs, length_map).
  rewrite Hlen in Htrend.
  unfold RecruiterSatisfactionTrainer.get_progress_report. cbv zeta.
  destruct (RecruiterSatisfactionTrainer.practice_sessions
              (practice_all calls RecruiterSatisfactionTrainer.new_trainer)) as [|s l] eqn:Hp.
  - split; [|reflexivity]. destruct calls; [reflexivity|discriminate Hs].
  - split; [by destruct calls|]. split; [exact Hlen|]. split; [exact Ht|].
    split; [|exact Htrend].
    unfold RecruiterSatisfactionTrainer._get_next_milestones. cbv zeta.
    split_ifs; reflexivity.
Qed.

Lemma last_slice_idempotent {A : Type} (a b : nat) (xs : list A) :
  (a <= b)%nat ->
  RecruiterSatisfactionTrainer.last_slice a (RecruiterSatisfactionTrainer.last_slice b xs)
  = RecruiterSatisfactionTrainer.last_slice a xs.
Proof.
  intros Hab. unfold RecruiterSatisfactionTrainer.last_slice.
  rewrite drop_drop, length_drop. f_equal. lia.
Qed.

Lemma between_slice_last_slice {A : Type} (xs : list A) :
  RecruiterSatisfactionTrainer.between_slice 10 5 (RecruiterSatisfactionTrainer.last_slice 10 xs)
  = RecruiterSatisfactionTrainer.between_slice 10 5 xs.
Proof.
  unfold RecruiterSatisfactionTrainer.between_slice, RecruiterSatisfactionTrainer.last_slice.
  rewrite length_drop.
  replace (length xs - (length xs - 10) - 10)%nat with 0%nat by lia.
  rewrite drop_0, take_drop_commute. do 2 f_equal. lia.
Qed.

(** X23. The report looks at the last ten sessions only: dropping all
    older sessions from the log changes nothing in the report but the
    number of sessions. *)
Theorem progress_report_window (py_sum : list float -> float)
    (py_round : float -> Z -> float) (self : RecruiterSatisfactionTrainer.Trainer) :
  same_but_count
    (RecruiterSatisfactionTrainer.get_progress_report py_sum py_round self)
    (RecruiterSatisfactionTrainer.get_progress_report py_sum py_round (last_ten self))
  /\ RecruiterSatisfactionTrainer._calculate_trend py_sum self
     = RecruiterSatisfactionTrainer._calculate_trend py_sum (last_ten self).
Proof.
  assert (Htrend : RecruiterSatisfactionTrainer._calculate_trend py_sum self
                   = RecruiterSatisfactionTrainer._calculate_trend py_sum (last_ten self)).
  { unfold RecruiterSatisfactionTrainer._calculate_trend, last_ten. cbv zeta.
    cbn [RecruiterSatisfactionTrainer.practice_sessions].
    rewrite between_slice_last_slice, last_slice_idempotent by lia.
    replace (length (RecruiterSatisfactionTrainer.last_slice 10
                       (RecruiterSatisfactionTrainer.practice_sessions self)) <? 5)%nat
      with (length (RecruiterSatisfactionTrainer.practice_sessions self) <? 5)%nat;
      [reflexivity|].
    unfold RecruiterSatisfactionTrainer.last_slice. rewrite length_drop.
    destruct (Nat.ltb_spec (length (RecruiterSatisfactionTrainer.practice_sessions self)) 5);
      symmetry; [apply Nat.ltb_lt|apply Nat.ltb_ge]; lia. }
  split; [|exact Htrend].
  unfold RecruiterSatisfactionTrainer.get_progress_report. cbv zeta.
  rewrite <- Htrend.
  unfold last_ten. cbn [RecruiterSatisfactionTrainer.practice_sessions
                        RecruiterSatisfactionTrainer.target_satisfaction].
  rewrite last_slice_idempotent by lia.
  set (xs := RecruiterSatisfactionTrainer.practice_sessions self).
  assert (Hnil : RecruiterSatisfactionTrainer.last_slice 10 xs = [] -> xs = []).
  { intros Hl%(f_equal length). unfold RecruiterSatisfactionTrainer.last_slice in Hl.
    rewrite length_drop in Hl. destruct xs; [reflexivity|cbn in Hl; lia]. }
  destruct (RecruiterSatisfactionTrainer.last_slice 10 xs) as [|s' l'] eqn:Hl.
  { rewrite Hnil by reflexivity. reflexivity. }
  destruct xs as [|s l]; [discriminate Hl|].
  cbn [same_but_count]. repeat split; reflexivity.
Qed.

(** ** The food chunks *)

Section FoodChunks.

Variable py_str : pyval -> string.

Lemma tag_of_outcome (d : list (string * pyval)) (key : string) :
  match CreateFoodChunks.tag_of d key with
  | Ok tags => tag_value_ok (CreateFoodChunks.dict_get d key) = true /\ (length tags <= 1)%nat
  | Raise _ => tag_value_ok (CreateFoodChunks.dict_get d key) = false
  end.
Proof.
  unfold CreateFoodChunks.tag_of, tag_value_ok. cbv zeta.
  destruct (CreateFoodChunks.truthy (CreateFoodChunks.dict_get d key)) eqn:Ht;
    [|split; [reflexivity|cbn; lia]].
  destruct (CreateFoodChunks.dict_get d key); cbn; try reflexivity.
  split; [reflexivity|lia].
Qed.

Lemma py_or_true (a b : pyval) :
  CreateFoodChunks.truthy b = true ->
  CreateFoodChunks.truthy (CreateFoodChunks.py_or a b) = true.
Proof.
  unfold CreateFoodChunks.py_or. by destruct (CreateFoodChunks.truthy a) eqn:Ha.
Qed.

Lemma chunk_of_outcome (i : nat) (food : pyval) :
  match CreateFoodChunks.chunk_of py_str i food with
  | Ok chunk =>
      food_ok food = true
      /\ CreateFoodChunks.fc_id chunk = "food_" +:+ Py.str_of_nat (i + 1)
      /\ CreateFoodChunks.fc_type chunk = "food_item"
      /\ CreateFoodChunks.fc_category chunk = "nutrition"
      /\ head (CreateFoodChunks.fc_tags chunk) = Some "food"
      /\ (length (CreateFoodChunks.fc_tags chunk) <= 5)%nat
      /\ CreateFoodChunks.truthy (CreateFoodChunks.fc_title chunk) = true
      /\ Py.startswith "Food: " (CreateFoodChunks.fc_content chunk) = true
      /\ CreateFoodChunks.fc_original_data chunk = food
  | Raise _ => food_ok food = false
  end.
Proof.
  destruct food as [| | | | | |d]; try reflexivity.
  unfold CreateFoodChunks.chunk_of, food_ok. cbv zeta. cbn [forallb].
  pose proof (tag_of_outcome d "country") as H1.
  pose proof (tag_of_outcome d "cuisine") as H2.
  pose proof (tag_of_outcome d "category") as H3.
  pose proof (tag_of_outcome d "type") as H4.
  destruct (CreateFoodChunks.tag_of d "country") as [t1|e1];
    [destruct H1 as [-> L1]|by rewrite H1].
  destruct (CreateFoodChunks.tag_of d "cuisine") as [t2|e2];
    [destruct H2 as [-> L2]|by rewrite H2].
  destruct (CreateFoodChunks.tag_of d "category") as [t3|e3];
    [destruct H3 as [-> L3]|by rewrite H3].
  destruct (CreateFoodChunks.tag_of d "type") as [t4|e4];
    [destruct H4 as [-> L4]|rewrite H4; reflexivity].
  cbn [obind CreateFoodChunks.fc_id CreateFoodChunks.fc_type CreateFoodChunks.fc_category
       CreateFoodChunks.fc_tags CreateFoodChunks.fc_title CreateFoodChunks.fc_content
       CreateFoodChunks.fc_original_data].
  repeat split.
  - cbn [app length]. rewrite !length_app. lia.
  - do 3 apply py_or_true. unfold Py.str_of_nat. reflexivity.
  - cbn [app]. unfold Py.join.
    destruct (flat_map (CreateFoodChunks.attribute_part py_str d)
                CreateFoodChunks.attributes); reflexivity.
Qed.

Lemma chunks_from_outcome (foods : list pyval) (i : nat) :
  match CreateFoodChunks.chunks_from py_str i foods with
  | Ok chunks =>
      forallb food_ok foods = true
      /\ Forall2 (fun k chunk => CreateFoodChunks.chunk_of py_str k chunk.(CreateFoodChunks.fc_original_data)
                                 = Ok chunk)
           (seq i (length foods)) chunks
      /\ map CreateFoodChunks.fc_original_data chunks = foods
  | Raise _ => forallb food_ok foods = false
  end.
Proof.
  revert i. induction foods as [|food rest IH]; intros i; cbn [CreateFoodChunks.chunks_from].
  - cbn. repeat split. constructor.
  - pose proof (chunk_of_outcome i food) as Hc.
    destruct (CreateFoodChunks.chunk_of py_str i food) as [chunk|e] eqn:Hchunk;
      cbn [obind forallb]; [|by rewrite Hc].
    destruct Hc as (Hok & _ & _ & _ & _ & _ & _ & _ & Hdata). rewrite Hok.
    specialize (IH (S i)).
    destruct (CreateFoodChunks.chunks_from py_str (S i) rest) as [chunks|e];
      cbn [obind andb]; [|exact IH].
    destruct IH as (Hall & Hf & Hm). split; [exact Hall|]. split.
    + cbn [length seq]. constructor; [by rewrite Hdata|exact Hf].
    + cbn [map]. by rewrite Hdata, Hm.
Qed.

Lemma chunks_fields (chunks : list CreateFoodChunks.FoodChunk) (i : nat) :
  Forall2 (fun k chunk => CreateFoodChunks.chunk_of py_str k chunk.(CreateFoodChunks.fc_original_data)
                          = Ok chunk)
    (seq i (length chunks)) chunks ->
  map CreateFoodChunks.fc_id chunks
  = map (fun k => "food_" +:+ Py.str_of_nat (k + 1)) (seq i (length chunks))
  /\ Forall (fun chunk =>
               CreateFoodChunks.fc_type chunk = "food_item"
               /\ CreateFoodChunks.fc_category chunk = "nutrition"
               /\ head (CreateFoodChunks.fc_tags chunk) = Some "food"
               /\ (length (CreateFoodChunks.fc_tags chunk) <= 5)%nat
               /\ CreateFoodChunks.truthy (CreateFoodChunks.fc_title chunk) = true
               /\ Py.startswith "Food: " (CreateFoodChunks.fc_content chunk) = true)
       chunks.
Proof.
  revert i. induction chunks as [|chunk chunks IH]; intros i Hf; [by split|].
  cbn [length seq] in Hf. apply Forall2_cons_1 in Hf as [Hchunk Hrest].
  destruct (IH (S i) Hrest) as [Hi Ha].
  pose proof (chunk_of_outcome i (CreateFoodChunks.fc_original_data chunk)) as Ho.
  rewrite Hchunk in Ho. destruct Ho as (_ & Hid & Ht & Hcat & Hh & Hl & Hn & Hs & _).
  split.
  - cbn [map length seq]. by rewrite Hid, Hi.
  - constructor; [by repeat split|exact Ha].
Qed.

Lemma numbered_id_inj (p : string) : Inj eq eq (fun k : nat => p +:+ Py.str_of_nat (k + 1)).
Proof.
  intros a b H%append_prefix_inj. unfold Py.str_of_nat in H.
  apply (inj pretty) in H. lia.
Qed.

Lemma create_food_chunks_id_list (foods_data : pyval)
    (chunks : list CreateFoodChunks.FoodChunk) :
  CreateFoodChunks.create_food_chunks py_str foods_data = Ok chunks ->
  map CreateFoodChunks.fc_id chunks
  = map (fun k => "food_" +:+ Py.str_of_nat (k + 1)) (seq 0 (length chunks)).
Proof.
  unfold CreateFoodChunks.create_food_chunks.
  destruct (CreateFoodChunks.iterate (CreateFoodChunks.foods_list_of foods_data))
    as [foods|e]; [|discriminate].
  cbn [obind]. intros Hc.
  pose proof (chunks_from_outcome foods 0) as H. rewrite Hc in H.
  destruct H as (_ & Hf & Hm).
  assert (Hlen : length foods = length chunks) by (by rewrite <- Hm, length_map).
  rewrite Hlen in Hf. by destruct (chunks_fields chunks 0 Hf).
Qed.

(** X24. The chunks of the foods file.  When [create_food_chunks]
    returns, it has made one chunk per food, in order, and the chunk at
    position k has the id "food_" followed by k + 1 in decimal, so no two
    chunks share an id.  Every chunk has type "food_item", category
    "nutrition", between one and five tags of which the first is "food", a
    title that is a true value, a description that starts with "Food: ",
    and keeps the food it was made from. *)
Theorem create_food_chunks_ids (foods_data : pyval)
    (chunks : list CreateFoodChunks.FoodChunk) :
  CreateFoodChunks.create_food_chunks py_str foods_data = Ok chunks ->
  CreateFoodChunks.iterate (CreateFoodChunks.foods_list_of foods_data)
  = Ok (map CreateFoodChunks.fc_original_data chunks)
  /\ map CreateFoodChunks.fc_id chunks
     = map (fun k => "food_" +:+ Py.str_of_nat (k + 1)) (seq 0 (length chunks))
  /\ NoDup (map CreateFoodChunks.fc_id chunks)
  /\ Forall (fun chunk =>
               CreateFoodChunks.fc_type chunk = "food_item"
               /\ CreateFoodChunks.fc_category chunk = "nutrition"
               /\ head (CreateFoodChunks.fc_tags chunk) = Some "food"
               /\ (length (CreateFoodChunks.fc_tags chunk) <= 5)%nat
               /\ CreateFoodChunks.truthy (CreateFoodChunks.fc_title chunk) = true
               /\ Py.startswith "Food: " (CreateFoodChunks.fc_content chunk) = true)
       chunks.
Proof.
  unfold CreateFoodChunks.create_food_chunks.
  destruct (CreateFoodChunks.iterate (CreateFoodChunks.foods_list_of foods_data))
    as [foods|e]; [|discriminate].
  cbn [obind]. intros Hc.
  pose proof (chunks_from_outcome foods 0) as H. rewrite Hc in H.
  destruct H as (_ & Hf & Hm).
  assert (Hlen : length foods = length chunks) by (by rewrite <- Hm, length_map).
  rewrite Hlen in Hf. clear Hc Hlen.
  destruct (chunks_fields chunks 0 Hf) as [Hids Hall].
  split; [by rewrite Hm|]. split; [exact Hids|]. split; [|exact Hall].
  rewrite Hids. apply (NoDup_fmap_2 _ (Inj0 := numbered_id_inj _)), NoDup_seq.
Qed.

(** X25. When the conversion returns.  For a list of foods it returns,
    with one chunk per food, exactly when every food is a dict whose
    country, cuisine, category and type are each a string or a false
    value; a food that is not a dict, or one of these four attributes being
    a true value that is not a string, makes it raise.  A dict without a
    "foods", "items" or "data" entry is read as a single food, and any
    other top-level value gives no chunk. *)
Theorem create_food_chunks_returns (foods : list pyval) (d : list (string * pyval)) :
  match CreateFoodChunks.create_food_chunks py_str (PList foods) with
  | Ok chunks => forallb food_ok foods = true /\ length chunks = length foods
  | Raise _ => forallb food_ok foods = false
  end
  /\ (CreateFoodChunks.has_key "foods" d = false ->
      CreateFoodChunks.has_key "items" d = false ->
      CreateFoodChunks.has_key "data" d = false ->
      CreateFoodChunks.create_food_chunks py_str (PDict d)
      = CreateFoodChunks.create_food_chunks py_str (PList [PDict d]))
  /\ CreateFoodChunks.create_food_chunks py_str PNone = Ok []
  /\ (forall s, CreateFoodChunks.create_food_chunks py_str (PStr s) = Ok [])
  /\ (forall z, CreateFoodChunks.create_food_chunks py_str (PInt z) = Ok [])
  /\ (forall b, CreateFoodChunks.create_food_chunks py_str (PBool b) = Ok [])
  /\ (forall f, CreateFoodChunks.create_food_chunks py_str (PFloat f) = Ok []).
Proof.
  split; [|repeat split].
  - unfold CreateFoodChunks.create_food_chunks. cbn [CreateFoodChunks.foods_list_of
      CreateFoodChunks.iterate obind].
    pose proof (chunks_from_outcome foods 0) as H.
    destruct (CreateFoodChunks.chunks_from py_str 0 foods) as [chunks|e]; [|exact H].
    destruct H as (Hall & _ & Hm). split; [exact Hall|]. by rewrite <- Hm, length_map.
  - intros H1 H2 H3. unfold CreateFoodChunks.create_food_chunks.
    cbn [CreateFoodChunks.foods_list_of]. by rewrite H1, H2, H3.
Qed.

Lemma as_content_chunk_id (chunks : list CreateFoodChunks.FoodChunk)
    (typed : list ContentChunk) :
  mapM as_content_chunk chunks = Some typed ->
  map c_id typed = map CreateFoodChunks.fc_id chunks.
Proof.
  rewrite mapM_Some. induction 1 as [|chunk c chunks typed Hc _ IH]; [reflexivity|].
  cbn [map]. rewrite IH. f_equal. unfold as_content_chunk in Hc.
  destruct (CreateFoodChunks.fc_title chunk); try discriminate. by injection Hc as <-.
Qed.

(** X26. Every food gets a vector id of its own.  When the conversion of
    the foods file returns and the food names are strings, the vectors
    prepared for upload have the ids "food-food_1", "food-food_2", ... in
    order, all distinct, so no vector of the upload replaces another. *)
Theorem food_vector_ids_distinct (foods_data : pyval)
    (chunks : list CreateFoodChunks.FoodChunk) (typed : list ContentChunk) :
  CreateFoodChunks.create_food_chunks py_str foods_data = Ok chunks ->
  mapM as_content_chunk chunks = Some typed ->
  map vector_id (EmbedFoods.prepare_vectors typed)
  = map (fun k => "food-food_" +:+ Py.str_of_nat (k + 1)) (seq 0 (length chunks))
  /\ NoDup (map vector_id (EmbedFoods.prepare_vectors typed)).
Proof.
  intros Hc Ht.
  assert (Hids : map vector_id (EmbedFoods.prepare_vectors typed)
                 = map (fun k => "food-food_" +:+ Py.str_of_nat (k + 1))
                       (seq 0 (length chunks))).
  { unfold EmbedFoods.prepare_vectors. rewrite map_map.
    change (fun x => vector_id (EmbedFoods.vector_of x))
      with (fun x => "food-" +:+ c_id x).
    rewrite <- (map_map c_id (fun i => "food-" +:+ i)).
    rewrite (as_content_chunk_id chunks typed Ht), (create_food_chunks_id_list _ _ Hc).
    by rewrite map_map. }
  split; [exact Hids|]. rewrite Hids.
  apply (NoDup_fmap_2 _ (Inj0 := numbered_id_inj _)), NoDup_seq.
Qed.

End FoodChunks.

Lemma create_food_chunks_ids_witness :
  exists chunks,
    CreateFoodChunks.create_food_chunks sample_str sample_foods = Ok chunks
    /\ map CreateFoodChunks.fc_id chunks = ["food_1"].
Proof.
  eexists. split; [vm_compute; reflexivity|].
  refine (proj1 (proj2 (create_food_chunks_ids sample_str sample_foods _ _))).
  vm_compute; reflexivity.
Defined.

Lemma food_vector_ids_distinct_witness :
  exists chunks typed,
    CreateFoodChunks.create_food_chunks sample_str sample_foods = Ok chunks
    /\ mapM as_content_chunk chunks = Some typed
    /\ NoDup (map vector_id (EmbedFoods.prepare_vectors typed)).
Proof.
  eexists. eexists. split; [vm_compute; reflexivity|]. split; [vm_compute; reflexivity|].
  refine (proj2 (food_vector_ids_distinct sample_str sample_foods _ _ _ _));
    vm_compute; reflexivity.
Defined.

(** ** The answer to "why this company" *)

Lemma identified_company_in_table (company_context : string)
    (company : CompanyResponseCustomizer.CompanyProfile) :
  CompanyResponseCustomizer._identify_company company_context = Some company ->
  company ∈ map snd CompanyResponseCustomizer.brisbane_companies.
Proof.
  unfold CompanyResponseCustomizer._identify_company. cbv zeta.
  destruct (List.find _ CompanyResponseCustomizer.brisbane_companies) as [kp|] eqn:Hf;
    [|discriminate].
  intros [= <-]. apply find_some_elem in Hf as [Hin _]. by apply list_elem_of_fmap_2.
Qed.

(** X27. The "why this company" answer never fails: the look-up of the
    first culture keyword cannot raise, since every profile of the table
    has one.  For an identified company the answer opens with the
    company's name and always holds the technical-fit, values and growth
    paragraphs, and the industry paragraph exactly for Suncorp Group; for
    any other context it is one fixed text, in which the bracketed
    placeholder for the company's mission is left as it is. *)
Theorem why_company_response_never_fails (company_context : string)
    (personal_strengths : list string) :
  match CompanyResponseCustomizer._identify_company company_context,
        CompanyResponseCustomizer.generate_why_company_response
          company_context personal_strengths with
  | Some company, Some response =>
      Py.startswith ("I'm excited about the opportunity at "
                     +:+ CompanyResponseCustomizer.name company) response = true
      /\ Py.str_in "**Technical Fit:**" response = true
      /\ Py.str_in "**Values Alignment:**" response = true
      /\ Py.str_in "**Growth Opportunity:**" response = true
      /\ (Py.str_in "**Industry Impact:**" response = true <->
          CompanyResponseCustomizer.name company = "Suncorp Group")
  | None, Some response =>
      Py.str_in "[specific company mission/value from research]" response = true
      /\ CompanyResponseCustomizer.generate_why_company_response EmptyString []
         = Some response
  | _, None => False
  end.
Proof.
  unfold CompanyResponseCustomizer.generate_why_company_response.
  destruct (CompanyResponseCustomizer._identify_company company_context) as [company|] eqn:Hid.
  - apply identified_company_in_table in Hid.
    unfold CompanyResponseCustomizer.brisbane_companies in Hid. cbn [map snd] in Hid.
    repeat (apply elem_of_cons in Hid as [->|Hid];
            [vm_compute; repeat split; try reflexivity; try discriminate|]).
    by apply elem_of_nil in Hid.
  - vm_compute. split; reflexivity.
Qed.

(** ** The two namespace conventions: what the embedding scripts store and
       what the queries filter on *)

Lemma upserted_is_prepared (u : uploader) (w : Services) (content_chunks : list ContentChunk)
    (v : vector) :
  v ∈ upserted w (upload_trace u w content_chunks) ->
  exists chunk, chunk ∈ content_chunks /\ v = uploader_vector_of u chunk.
Proof.
  destruct u; cbn [upload_trace uploader_vector_of]; intros Hv.
  - unfold EmbedDigitalTwin.embed_digital_twin in Hv.
    apply upserted_from_prepared in Hv.
    apply list_elem_of_fmap in Hv as (chunk & -> & Hc). by exists chunk.
  - unfold EmbedFoods.embed_foods_data in Hv.
    destruct content_chunks as [|c cs]; [cbn in Hv; by apply elem_of_nil in Hv|].
    rewrite run_bind_trace in Hv. cbn [run snd] in Hv. rewrite app_nil_r in Hv.
    apply upserted_from_prepared in Hv.
    apply list_elem_of_fmap in Hv as (chunk & -> & Hc). by exists chunk.
  - unfold ReorganizeNamespaces.reupload_digital_twin in Hv.
    apply upserted_from_prepared in Hv.
    apply list_elem_of_fmap in Hv as (chunk & -> & Hc). by exists chunk.
  - unfold ReorganizeNamespaces.reupload_food in Hv.
    apply upserted_from_prepared in Hv.
    apply list_elem_of_fmap in Hv as (chunk & -> & Hc). by exists chunk.
Qed.

Lemma uploader_vector_shape (u : uploader) (chunk : ContentChunk) :
  exists data src,
    uploader_vector_of u chunk
    = (uploader_prefix u +:+ c_id chunk, data, metadata_of chunk (uploader_namespace u) src).
Proof. destruct u; eexists; eexists; reflexivity. Qed.

Lemma hit_is_stored (h : QueryResult) (v : vector) :
  hit_id h = fst (fst v) -> hit_metadata h = Some (snd v) -> h = stored_hit v (hit_score h).
Proof. destruct h as [hid sc md]. cbn. by intros -> ->. Qed.

Lemma empty_answer (py_str : pyval -> string) (w : Services) (n q : string) (k : Z) :
  fst (run w (NamespacedRAGSystem.query_namespace q n k)) = [] ->
  let answer := fst (run w (NamespacedRAGSystem.namespace_query py_str n q k)) in
  NamespacedRAGSystem.a_namespace answer = n
  /\ NamespacedRAGSystem.a_relevant_chunks answer = []
  /\ NamespacedRAGSystem.a_sources_count answer = 0
  /\ NamespacedRAGSystem.a_response answer = no_information n
  /\ snd (run w (NamespacedRAGSystem.namespace_query py_str n q k)) = [EvQuery q k true].
Proof.
  intros He. cbv zeta.
  destruct (namespace_query_fields py_str w n q k) as (_ & Hn & Hc & Hs).
  rewrite He in Hc. rewrite Hc in Hs.
  split; [exact Hn|]. split; [exact Hc|]. split; [exact Hs|].
  destruct (namespace_query_outcomes py_str w q n k) as [(_ & Hr & Ht)|(Hne & _)];
    [by split|]. by rewrite Hc in Hne.
Qed.

Lemma filtered_all (n : string) (raw : list QueryResult) :
  (forall h, h ∈ raw ->
     derives n h = true /\ printable (NamespacedRAGSystem.chunk_info h) = true) ->
  filtered n raw = map NamespacedRAGSystem.chunk_info raw.
Proof.
  intros Hall. unfold filtered.
  assert (Hf : List.filter (derives n) raw = raw).
  { induction raw as [|a rest IH]; [reflexivity|].
    cbn. destruct (Hall a) as [-> _]; [left|]. f_equal.
    apply IH. intros h Hh. apply Hall. by right. }
  rewrite Hf.
  replace (forallb printable (map NamespacedRAGSystem.chunk_info raw)) with true;
    [reflexivity|].
  symmetry. apply forallb_forall. intros c Hc.
  apply in_map_iff in Hc as (h & <- & Hh). apply Hall. by apply list_elem_of_In.
Qed.

(** C2. The embedding scripts and the queries use different namespace
    values.  Let a store answer a query with hits that are vectors
    [embed_digital_twin] or [embed_foods_data] upserted.  Each of these
    hits has the id prefix of its script ([dt-] or [food-]), but its
    [namespace] metadata is the script's constant, "digitaltwin" or
    "foods", not the "dt" or "food" the prefix is derived from and the
    queries filter on.  So [query_namespace] with "dt" (its default) and
    with "food" returns nothing, and [digital_twin_query], [food_query]
    and [smart_query] each answer with no chunk, a source count of 0 and
    the no-information sentence, after the one retrieval call.  Only
    [query_namespace] called with the script's own constant returns the
    hits, all of them. *)
Theorem embed_upload_missed_by_queries (py_str : pyval -> string) (u : uploader)
    (w0 w : Services) (content_chunks : list ContentChunk) (q : string) (k : Z)
    (raw : list QueryResult) :
  u = DigitalTwinUpload \/ u = FoodsUpload ->
  index_query w q k true = Ok raw ->
  (forall h, h ∈ raw ->
     exists v, v ∈ upserted w0 (upload_trace u w0 content_chunks)
               /\ hit_id h = fst (fst v) /\ hit_metadata h = Some (snd v)) ->
  (forall h, h ∈ raw ->
     Py.startswith (uploader_prefix u) (hit_id h) = true
     /\ derived_namespace h = PStr (uploader_namespace u)
     /\ derives "dt" h = false /\ derives "food" h = false)
  /\ uploader_namespace u ∈ ["digitaltwin"; "foods"]
  /\ fst (run w (NamespacedRAGSystem.query_namespace q "dt" k)) = []
  /\ fst (run w (NamespacedRAGSystem.query_namespace q "food" k)) = []
  /\ (forall p, p ∈ [ NamespacedRAGSystem.digital_twin_query py_str q k;
                       NamespacedRAGSystem.food_query py_str q k;
                       NamespacedRAGSystem.smart_query py_str q k ] ->
        NamespacedRAGSystem.a_relevant_chunks (fst (run w p)) = []
        /\ NamespacedRAGSystem.a_sources_count (fst (run w p)) = 0
        /\ NamespacedRAGSystem.a_response (fst (run w p))
           = no_information (NamespacedRAGSystem.a_namespace (fst (run w p)))
        /\ snd (run w p) = [EvQuery q k true])
  /\ fst (run w (NamespacedRAGSystem.query_namespace q (uploader_namespace u) k))
     = map NamespacedRAGSystem.chunk_info raw.
Proof.
  intros Hu Hq Hraw.
  assert (Hhit : forall h, h ∈ raw ->
            exists chunk data src,
              h = stored_hit (uploader_prefix u +:+ c_id chunk, data,
                              metadata_of chunk (uploader_namespace u) src) (hit_score h)).
  { intros h Hh. destruct (Hraw h Hh) as (v & Hv & Hid & Hmd).
    apply upserted_is_prepared in Hv as (chunk & _ & ->).
    destruct (uploader_vector_shape u chunk) as (data & src & Hshape).
    rewrite Hshape in Hid, Hmd. exists chunk, data, src. by apply hit_is_stored. }
  assert (Hns : uploader_namespace u <> "dt" /\ uploader_namespace u <> "food")
    by (destruct Hu as [-> | ->]; split; discriminate).
  destruct Hns as [Hdt Hfood].
  assert (Hother : forall n, uploader_namespace u <> n -> forall h, h ∈ raw ->
            exists md other, hit_metadata h = Some md
                             /\ md !! "namespace" = Some (PStr other) /\ other <> n).
  { intros n Hn h Hh. destruct (Hhit h Hh) as (chunk & data & src & ->).
    eexists. exists (uploader_namespace u). split; [reflexivity|].
    split; [apply metadata_of_lookup|exact Hn]. }
  assert (Hnone : forall n, uploader_namespace u <> n ->
            fst (run w (NamespacedRAGSystem.query_namespace q n k)) = []).
  { intros n Hn. rewrite query_namespace_run, Hq. cbn [fst]. unfold filtered.
    by rewrite (no_hit_derived n raw (Hother n Hn)). }
  split; [|split; [|split; [|split; [|split]]]].
  - intros h Hh. destruct (Hhit h Hh) as (chunk & data & src & Heq).
    destruct (stored_hit_passes chunk (uploader_prefix u +:+ c_id chunk) data
                (uploader_namespace u) src (hit_score h)) as [Hd _].
    cbv zeta in Hd. rewrite <- Heq in Hd.
    split; [rewrite Heq; apply startswith_append|]. split; [by apply derives_inv|].
    destruct (Hother "dt" Hdt h Hh) as (md & o & Hmd & Ho & Hne).
    destruct (Hother "food" Hfood h Hh) as (md' & o' & Hmd' & Ho' & Hne').
    split; [by apply (other_namespace_not_derived "dt" o h md)
           |by apply (other_namespace_not_derived "food" o' h md')].
  - destruct Hu as [-> | ->]; [left|right; left].
  - by apply Hnone.
  - by apply Hnone.
  - intros p Hp.
    assert (Hn : forall n, uploader_namespace u <> n ->
              let a := fst (run w (NamespacedRAGSystem.namespace_query py_str n q k)) in
              NamespacedRAGSystem.a_relevant_chunks a = []
              /\ NamespacedRAGSystem.a_sources_count a = 0
              /\ NamespacedRAGSystem.a_response a
                 = no_information (NamespacedRAGSystem.a_namespace a)
              /\ snd (run w (NamespacedRAGSystem.namespace_query py_str n q k))
                 = [EvQuery q k true]).
    { intros n Hne. cbv zeta.
      destruct (empty_answer py_str w n q k (Hnone n Hne)) as (-> & Hc & Hs & Hr & Ht).
      by repeat split. }
    apply elem_of_cons in Hp as [->|Hp]; [exact (Hn "dt" Hdt)|].
    apply elem_of_cons in Hp as [->|Hp]; [exact (Hn "food" Hfood)|].
    apply list_elem_of_singleton in Hp as ->.
    unfold NamespacedRAGSystem.smart_query. cbv zeta.
    destruct (Py.any_in NamespacedRAGSystem.food_keywords (Py.lower q));
      [exact (Hn "food" Hfood)|exact (Hn "dt" Hdt)].
  - rewrite query_namespace_run, Hq. cbn [fst].
    assert (Hall : forall h, h ∈ raw ->
              derives (uploader_namespace u) h = true
              /\ printable (NamespacedRAGSystem.chunk_info h) = true).
    { intros h Hh. destruct (Hhit h Hh) as (chunk & data & src & Heq).
      rewrite Heq. apply stored_hit_passes. }
    by apply filtered_all.
Qed.

(** The chunk [embed_digital_twin] uploads for the profile's overview, as
    the only hit of the store: [digital_twin_query] reports no source. *)
Lemma embed_upload_missed_by_queries_witness :
  index_query (ranked_store [stored_hit (EmbedDigitalTwin.vector_of sample_dt_chunk) 0.5%float])
    "overview" 5 true
  = Ok [stored_hit (EmbedDigitalTwin.vector_of sample_dt_chunk) 0.5%float]
  /\ NamespacedRAGSystem.a_sources_count
       (fst (run (ranked_store [stored_hit (EmbedDigitalTwin.vector_of sample_dt_chunk) 0.5%float])
               (NamespacedRAGSystem.digital_twin_query sample_str "overview" 5))) = 0.
Proof.
  split; [reflexivity|].
  refine (proj1 (proj2 (proj1 (proj2 (proj2 (proj2 (proj2
    (embed_upload_missed_by_queries sample_str DigitalTwinUpload (ranked_store [])
       (ranked_store [stored_hit (EmbedDigitalTwin.vector_of sample_dt_chunk) 0.5%float])
       [sample_dt_chunk] "overview" 5
       [stored_hit (EmbedDigitalTwin.vector_of sample_dt_chunk) 0.5%float]
       (or_introl eq_refl) eq_refl _)))))
    (NamespacedRAGSystem.digital_twin_query sample_str "overview" 5) _))).
  - intros h Hh. apply list_elem_of_singleton in Hh. subst h.
    exists (EmbedDigitalTwin.vector_of sample_dt_chunk).
    split; [vm_compute; left|split; reflexivity].
  - left.
Defined.
